(** * alert_dashboard: ingestion and windowed analytics

    A shallow embedding of the Go backend (packages [services] and [api])
    and the properties of its specification.

    Conventions of the embedding.
    - A Go [string] is a sequence of bytes: [String.string], a list of
      [ascii].  The functions of Go's [strings] package that the program
      calls are written out on bytes; [ToLower] maps the ASCII capitals and
      leaves every other byte alone, which is what Go does on ASCII text.
    - Go's [int] and [int64] are [Z] with the 64-bit wrap-around written
      out ([wrap64]); [float64] is IEEE 754 binary64 as specified by the
      Standard Library's [SpecFloat] (53 bits of precision, [emax] 1024).
    - An SQL table is the list of its rows; a [WHERE] clause is a boolean
      function of a row; SQLite's [LIKE], [REPLACE] and text comparison
      are written out on bytes.
    - Calls that leave the process (the tracker, the name service, the
      clock, the database driver) are explicit arguments: an oracle that
      gives the outcome of each call, and a state that is passed along. *)

From Stdlib Require Import ZArith List Bool Lia Ascii String SpecFloat Sorted.
From stdpp Require Import gmap strings list.

Set Warnings "-register-all".

Local Open Scope Z_scope.
Local Open Scope string_scope.

(** ** Go's [strings] package, on bytes *)

Module GoStrings.

Definition is_upper (c : ascii) : bool :=
  let n := nat_of_ascii c in (65 <=? n)%nat && (n <=? 90)%nat.

Definition lower_byte (c : ascii) : ascii :=
  if is_upper c then ascii_of_nat (nat_of_ascii c + 32) else c.

(** [strings.ToLower] on text of ASCII: the capitals of ASCII are
    lowered and every other byte is left alone.  On other text Go also
    lowers the capitals of Unicode; [GoUtf8], further down, has the
    conditions under which a statement on this function is one on Go's. *)
Fixpoint ToLower (s : string) : string :=
  match s with
  | EmptyString => EmptyString
  | String c s' => String (lower_byte c) (ToLower s')
  end.

(** [strings.HasPrefix s prefix] *)
Fixpoint HasPrefix (s prefix : string) : bool :=
  match prefix, s with
  | EmptyString, _ => true
  | String _ _, EmptyString => false
  | String p prefix', String c s' =>
      if Ascii.eqb p c then HasPrefix s' prefix' else false
  end.

(** [strings.Contains s substr] *)
Fixpoint Contains (s substr : string) : bool :=
  HasPrefix s substr
  || match s with
     | EmptyString => false
     | String _ s' => Contains s' substr
     end.

(** [strings.HasSuffix s suffix] *)
Definition HasSuffix (s suffix : string) : bool :=
  let n := String.length s in
  let k := String.length suffix in
  (k <=? n)%nat && String.eqb (substring (n - k) k s) suffix.

(** [strings.TrimSuffix s suffix] *)
Definition TrimSuffix (s suffix : string) : string :=
  if HasSuffix s suffix
  then substring 0 (String.length s - String.length suffix) s
  else s.

(** [strings.TrimSpace], for the blanks of ASCII.  Go also trims the
    white space of Unicode, which a text that begins and ends with a byte
    of ASCII does not have at its ends. *)
Definition is_blank (c : ascii) : bool :=
  let n := nat_of_ascii c in ((9 <=? n)%nat && (n <=? 13)%nat) || (n =? 32)%nat.

Fixpoint TrimLeft (s : string) : string :=
  match s with
  | EmptyString => EmptyString
  | String c s' => if is_blank c then TrimLeft s' else s
  end.

Fixpoint TrimRight (s : string) : string :=
  match s with
  | EmptyString => EmptyString
  | String c s' =>
      match TrimRight s' with
      | EmptyString => if is_blank c then EmptyString else String c EmptyString
      | kept => String c kept
      end
  end.

Definition TrimSpace (s : string) : string := TrimRight (TrimLeft s).

End GoStrings.

(** ** SQLite: text comparison, [REPLACE] and [LIKE] *)

Module Sqlite.

(** Text under the default [BINARY] collation is compared byte by byte. *)
Fixpoint text_compare (a b : string) : comparison :=
  match a, b with
  | EmptyString, EmptyString => Eq
  | EmptyString, String _ _ => Lt
  | String _ _, EmptyString => Gt
  | String x a', String y b' =>
      match Nat.compare (nat_of_ascii x) (nat_of_ascii y) with
      | Eq => text_compare a' b'
      | c => c
      end
  end.

Definition text_leb (a b : string) : bool :=
  match text_compare a b with Gt => false | _ => true end.

(** [x BETWEEN lo AND hi] *)
Definition between (x lo hi : string) : bool :=
  text_leb lo x && text_leb x hi.

(** [drop_bytes n s] is [s] without its first [n] bytes. *)
Fixpoint drop_bytes (n : nat) (s : string) : string :=
  match n, s with
  | O, _ => s
  | S _, EmptyString => EmptyString
  | S n', String _ s' => drop_bytes n' s'
  end.

(** [REPLACE(s, pat, by)]: every occurrence of [pat], found left to right
    and not overlapping, becomes [by]; an empty [pat] leaves [s] as it is.
    [skip] counts the bytes of an occurrence still to be passed over. *)
Fixpoint replace_from (skip : nat) (s pat by_ : string) : string :=
  match s with
  | EmptyString => EmptyString
  | String c s' =>
      match skip with
      | S k => replace_from k s' pat by_
      | O =>
          if GoStrings.HasPrefix s pat
          then by_ ++ replace_from (String.length pat - 1) s' pat by_
          else String c (replace_from O s' pat by_)
      end
  end.

Definition REPLACE (s pat by_ : string) : string :=
  match pat with
  | EmptyString => s
  | _ => replace_from O s pat by_
  end.

(** [LIKE] compares letters of ASCII without regard to case. *)
Definition like_byte_eq (p c : ascii) : bool :=
  Ascii.eqb (GoStrings.lower_byte p) (GoStrings.lower_byte c).

(** [like pattern s] is [s LIKE pattern]: [%] stands for any run of
    bytes, [_] for any one byte, which is SQLite's one character on text
    of ASCII.  The patterns of the program are constants without [_], but
    for the name of a component, which the dashboard writes into one. *)
Fixpoint like (pattern s : string) : bool :=
  match pattern with
  | EmptyString => match s with EmptyString => true | _ => false end
  | String p pattern' =>
      if Ascii.eqb p "%" then
        (fix any_run (t : string) : bool :=
           like pattern' t
           || match t with
              | EmptyString => false
              | String _ t' => any_run t'
              end) s
      else
        match s with
        | EmptyString => false
        | String c s' =>
            (Ascii.eqb p "_" || like_byte_eq p c) && like pattern' s'
        end
  end.

End Sqlite.

(** ** Go's numbers *)

Module GoNum.

(** The value an [int] or [int64] holds after an operation whose exact
    result is [z]. *)
Definition wrap64 (z : Z) : Z := (z + 2 ^ 63) mod 2 ^ 64 - 2 ^ 63.

Definition int64_range (z : Z) : Prop := - 2 ^ 63 <= z < 2 ^ 63.

(** A count of rows, as [COUNT] returns it. *)
Definition is_count (z : Z) : Prop := 0 <= z < 2 ^ 63.

Definition float64 : Type := spec_float.

Definition prec : Z := 53.
Definition emax : Z := 1024.

(** [float64(n)] for an integer [n]: the nearest binary64 value, ties to
    even. *)
Definition float64_of_int (n : Z) : float64 := binary_normalize prec emax n 0 false.

Definition fdiv (x y : float64) : float64 := SFdiv prec emax x y.
Definition fmul (x y : float64) : float64 := SFmul prec emax x y.
Definition fsub (x y : float64) : float64 := SFsub prec emax x y.
Definition flt (x y : float64) : bool := SFltb x y.
Definition fzero : float64 := S754_zero false.
Definition f100 : float64 := float64_of_int 100.

(** A finite float of sign [s] (true for minus) whose absolute value
    lies from [2^(lo-1)] to [2^hi]. *)
Definition sized (s : bool) (lo hi : Z) (x : float64) : Prop :=
  exists m e,
    x = S754_finite s m e
    /\ Z.log2 (Zpos m) + 1 <= 53
    /\ lo <= Z.log2 (Zpos m) + 1 + e <= hi.

End GoNum.

(** ** What the program takes from Go's runtime and libraries *)

Module GoLib.

(** [time.Time]: an instant, in nanoseconds since the Unix epoch, and the
    offset of its zone in seconds. *)
Record Time : Type := mkTime { instant : Z; zone : Z }.

Definition Second : Z := 1000000000.
Definition Day : Z := 86400 * Second.

(** [t.UTC()] *)
Definition UTC (t : Time) : Time := mkTime (instant t) 0.

(** [t.Add(d)] *)
Definition Add (t : Time) (d : Z) : Time := mkTime (instant t + d) (zone t).

(** [t.AddDate(0, 0, days)]: in a zone of fixed offset the same wall
    clock [days] days later. *)
Definition AddDays (t : Time) (days : Z) : Time := Add t (days * Day).

(** A decoded JSON document ([interface{}] as [encoding/json] fills it). *)
Inductive json : Type :=
| JNull
| JBool (b : bool)
| JNumber (literal : string)
| JString (s : string)
| JArray (items : list json)
| JObject (fields : list (string * json)).

(** [m[key]] on a decoded object. *)
Fixpoint lookup_field (key : string) (fields : list (string * json)) : option json :=
  match fields with
  | [] => None
  | (k, v) :: rest => if String.eqb k key then Some v else lookup_field key rest
  end.

(** A [[]string]: [None] is the nil slice. *)
Definition slice : Type := option (list string).

Definition elems (s : slice) : list string :=
  match s with Some l => l | None => [] end.

Definition json_of_slice (s : slice) : json :=
  match s with
  | None => JNull
  | Some l => JArray (map JString l)
  end.

(** The library functions that are not written out here. *)
Class Runtime : Type := {
  (** [time.Parse(layout, value)] *)
  time_Parse : string -> string -> option Time;
  (** [t.Format(layout)] *)
  time_Format : Time -> string -> string;
  (** [json.Marshal(v)], for a value that always encodes *)
  json_Marshal : json -> string;
  (** [json.Unmarshal(data, &v)] *)
  json_Unmarshal : string -> option json;
  (** the order in which [range] visits the keys of a map *)
  map_range : gset string -> list string
}.

End GoLib.

(** ** Package [services]: name_service.go *)

Module name_service.
Import GoLib.

Record NameInfo : Type := mkNameInfo {
  Type_ : string;
  ID : string;
  Name : string;
  TenantID : string;
  TenantName : string
}.

(** [NameInfo{}] *)
Definition NameInfo_zero : NameInfo := mkNameInfo "" "" "" "" "".

(** [NameInfo{ID: id, Name: id}] *)
Definition NameInfo_echo (id : string) : NameInfo := mkNameInfo "" id id "" "".

Record nameApiResponse : Type := mkApiResponse {
  Success : bool;
  Data : NameInfo
}.

(** What one [client.Get] brings back: a transport error (a timeout
    among them), or a status code with a body that can be read or not. *)
Inductive GetOutcome : Type :=
| GetError
| GetResponse (StatusCode : Z) (body : option string).

Inductive error : Type :=
| ErrEmptyId
| ErrTransport
| ErrStatus (code : Z)
| ErrRead
| ErrDecode
| ErrNotSuccess.

(** The resolver: its cache, and the requests it has sent so far, the
    latest first (kept to count the calls that leave the process). *)
Record NameResolver : Type := mkResolver {
  cache : gmap string NameInfo;
  requests : list string
}.

(** [GetNameResolver()] on its first call. *)
Definition GetNameResolver : NameResolver := mkResolver ∅ [].

Definition is_digit (c : ascii) : bool :=
  let n := nat_of_ascii c in (48 <=? n)%nat && (n <=? 57)%nat.

Fixpoint all_digits (s : string) : bool :=
  match s with
  | EmptyString => true
  | String c s' => if is_digit c then all_digits s' else false
  end.

Definition isNumeric (s : string) : bool :=
  all_digits s && (0 <? String.length s)%nat.

Definition name_url (id : string) : string :=
  "http://10.2.8.101:3535/api/name?id=" ++ id.

Section Resolve.

(** The name service: the outcome of the [n]-th request ever sent, for
    the URL asked; and the decoder of its body. *)
Variable client_Get : nat -> string -> GetOutcome.
Variable decode : string -> option nameApiResponse.

Definition Resolve (nr : NameResolver) (id : string)
  : NameInfo * option error * NameResolver :=
  if String.eqb id "" then (NameInfo_zero, Some ErrEmptyId, nr)
  else if negb (isNumeric id) then (NameInfo_echo id, None, nr)
  else
    match cache nr !! id with
    | Some info => (info, None, nr)
    | None =>
        let url := name_url id in
        let sent := mkResolver (cache nr) (url :: requests nr) in
        match client_Get (List.length (requests nr)) url with
        | GetError => (NameInfo_echo id, Some ErrTransport, sent)
        | GetResponse code body =>
            if negb (Z.eqb code 200) then (NameInfo_echo id, Some (ErrStatus code), sent)
            else
              match body with
              | None => (NameInfo_echo id, Some ErrRead, sent)
              | Some bytes =>
                  match decode bytes with
                  | None => (NameInfo_echo id, Some ErrDecode, sent)
                  | Some apiResp =>
                      if negb (Success apiResp)
                      then (NameInfo_echo id, Some ErrNotSuccess, sent)
                      else (Data apiResp, None,
                            mkResolver (<[id := Data apiResp]> (cache nr))
                                       (url :: requests nr))
                  end
              end
        end
    end.

(** Resolving a list of ids one after the other, each call returning
    before the next begins; the answers are dropped.  Calls that overlap
    are in [name_service_calls], further down. *)
Fixpoint resolve_all (nr : NameResolver) (ids : list string) : NameResolver :=
  match ids with
  | [] => nr
  | id :: rest => resolve_all (snd (Resolve nr id)) rest
  end.

(** Whether the [n]-th request, for [url], is answered with a name:
    status 200, a body that can be read and decoded, and the success
    flag set. *)
Definition answered (n : nat) (url : string) : bool :=
  match client_Get n url with
  | GetResponse code (Some bytes) =>
      Z.eqb code 200
      && match decode bytes with
         | Some apiResp => Success apiResp
         | None => false
         end
  | _ => false
  end.

(** The number of requests for [url] in a log, the latest first, that
    were answered with a name. *)
Fixpoint successes (url : string) (log : list string) : nat :=
  match log with
  | [] => 0
  | u :: older =>
      ((if String.eqb u url && answered (List.length older) u then 1 else 0)
       + successes url older)%nat
  end.

(** The resolver holds at most one answered request for an id, and none
    for an id that is not cached. *)
Definition answered_once (nr : NameResolver) : Prop :=
  forall id,
    (successes (name_url id) (requests nr) <= 1)%nat
    /\ (cache nr !! id = None -> successes (name_url id) (requests nr) = 0%nat).

End Resolve.

(** The number of requests sent for [id]. *)
Definition calls_for (id : string) (nr : NameResolver) : nat :=
  List.length (List.filter (String.eqb (name_url id)) (requests nr)).

End name_service.

(** ** Package [services]: jira_client.go *)

Module jira_client.
Import GoLib.

(** What the program reads of go-jira's [jira.Issue]. *)
Record jira_Issue : Type := mk_jira_Issue {
  jira_Key : string;
  jira_Summary : string;
  jira_Description : string;
  jira_Created : Time;
  jira_Labels : slice;
  jira_Priority : option string;
  jira_TypeName : string;
  jira_TypeSubtask : bool;
  jira_Components : list string;
  jira_ProjectKey : string;
  jira_Status : option string;
  jira_Parent : option string;
  jira_Unknowns : option (list (string * json))
}.

Record JiraIssueType : Type := mkIssueType {
  IssueType_Name : string;
  Subtask : bool
}.

(** [JiraIssue] with its [Fields] inlined; a pointer to a struct of one
    string is an [option string]. *)
Record JiraIssue : Type := mkJiraIssue {
  Key : string;
  Summary : string;
  Description : string;
  Created : string;
  Priority : option string;
  Labels : slice;
  IssueType : option JiraIssueType;
  Component : list string;
  Project : string;
  Status : option string;
  RawAlertData : option json;
  Parent : option string
}.

Definition jira_layout : string := "2006-01-02T15:04:05.000-0700".

Definition maxPages : Z := 500.

(** What a search ends with: the tickets, or the page whose request
    failed; [Unfinished] is a run of the model cut short. *)
Inductive SearchResult : Type :=
| Issues (all : list JiraIssue)
| SearchError (page : Z)
| Unfinished.

(** A search and the page tokens it sent, the latest first. *)
Record SearchRun : Type := mkSearch {
  result : SearchResult;
  sent : list string
}.

Section Client.
Context {RT : Runtime}.

(** The tracker: the answer to the [n]-th request of a search, for a
    query, a page size and a page token: the tickets of the page and the
    next token, or an error. *)
Variable SearchV2JQL : nat -> string -> Z -> string -> option (list jira_Issue * string).

(** The conversion of one ticket, in the body of the loop. *)
Definition convert (issue : jira_Issue) : JiraIssue :=
  {| Key := jira_Key issue;
     Summary := jira_Summary issue;
     Description := jira_Description issue;
     Created := time_Format (jira_Created issue) jira_layout;
     Priority := jira_Priority issue;
     Labels := jira_Labels issue;
     IssueType :=
       if String.eqb (jira_TypeName issue) "" then None
       else Some (mkIssueType (jira_TypeName issue) (jira_TypeSubtask issue));
     Component := jira_Components issue;
     Project := jira_ProjectKey issue;
     Status := jira_Status issue;
     RawAlertData :=
       match jira_Unknowns issue with
       | None => None
       | Some unknowns =>
           match lookup_field "customfield_10160" unknowns with
           | Some JNull => None
           | found => found
           end
       end;
     Parent := jira_Parent issue |}.

(** The [for] loop of [SearchAllIssues]; [fuel] bounds the iterations the
    model may take, and [Unfinished] says that it was not enough. *)
Fixpoint pages (fuel : nat) (jql : string) (pageSize : Z)
    (allIssues : list JiraIssue) (nextPageToken : string) (pageNum : Z)
    (sent_ : list string) : SearchRun :=
  match fuel with
  | O => mkSearch Unfinished sent_
  | S fuel' =>
      let pageNum := pageNum + 1 in
      if Z.ltb maxPages pageNum then mkSearch (Issues allIssues) sent_
      else
        match SearchV2JQL (List.length sent_) jql pageSize nextPageToken with
        | None => mkSearch (SearchError pageNum) (nextPageToken :: sent_)
        | Some (issues, resp_NextPageToken) =>
            let allIssues := (allIssues ++ map convert issues)%list in
            let sent_ := nextPageToken :: sent_ in
            if String.eqb resp_NextPageToken ""
            then mkSearch (Issues allIssues) sent_
            else if String.eqb resp_NextPageToken nextPageToken
            then mkSearch (Issues allIssues) sent_
            else pages fuel' jql pageSize allIssues resp_NextPageToken pageNum sent_
        end
  end.

(** The tickets of the pages that came back for the requests of index
    [k] onwards, sent with [tokens] in this order. *)
Fixpoint collected (jql : string) (pageSize : Z) (k : nat) (tokens : list string)
  : list JiraIssue :=
  match tokens with
  | [] => []
  | token :: later =>
      (match SearchV2JQL k jql pageSize token with
       | Some (issues, _) => map convert issues
       | None => []
       end ++ collected jql pageSize (S k) later)%list
  end.

Definition SearchAllIssues_fuel (fuel : nat) (jql : string) (pageSize : Z)
  : SearchRun :=
  let pageSize := if Z.leb pageSize 0 then 100 else pageSize in
  pages fuel jql pageSize [] "" 0 [].

(** [SearchAllIssues], with fuel for one iteration more than the page
    limit allows. *)
Definition SearchAllIssues (jql : string) (pageSize : Z) : SearchRun :=
  SearchAllIssues_fuel (S (Z.to_nat maxPages)) jql pageSize.

End Client.

End jira_client.

(** ** Package [services]: data_updater.go *)

Module data_updater.
Import GoLib.

(** [IssueData]; one value is one row of the table [issues]. *)
Record IssueData : Type := mkIssueData {
  ID : string;
  Title : string;
  Description : string;
  Created : string;
  Priority : string;
  Labels : string;
  IssueType : string;
  Components : string;
  Project : string;
  IsAlert : bool;
  AlertSignature : string;
  ClusterID : string;
  TenantID : string;
  BizType : string;
  Status : string;
  IsSubtask : bool;
  StabilityGovernance : string;
  Visibility : string;
  ComponentName : string;
  SourceComponent : string;
  AlertGroup : string
}.

(** The nine results of [extractFromRawAlertData]. *)
Record RawAlertFields : Type := mkRaw {
  raw_clusterID : string;
  raw_tenantID : string;
  raw_bizType : string;
  raw_dbLabels : string;
  raw_stabilityGovernance : string;
  raw_visibility : string;
  raw_componentName : string;
  raw_sourceComponent : string;
  raw_alertGroup : string
}.

Definition convertPriority (priority : string) : string :=
  if String.eqb priority "严重" then "Critical"
  else if String.eqb priority "重要" then "Major"
  else if String.eqb priority "低" then "Low"
  else if String.eqb priority "Medium" then "Medium"
  else if String.eqb priority "High" then "Major"
  else if String.eqb priority "Critical" then "Critical"
  else if String.eqb priority "Major" then "Major"
  else priority.

Definition isAlert (description title : string) : bool :=
  let description := GoStrings.ToLower description in
  let title := GoStrings.ToLower title in
  GoStrings.Contains description "alert"
  || GoStrings.Contains title "alert"
  || GoStrings.Contains description "firing"
  || GoStrings.Contains description "prometheus".

(** The regular expressions [key\s*[=:]\s*([^\s\n]+)], matched as Go's
    [regexp] does: the leftmost place where [key] stands, followed by
    blanks, one of [=] and [:], blanks, and the longest run of bytes that
    are not blanks, which is the submatch. *)
Definition is_space (c : ascii) : bool :=
  let n := nat_of_ascii c in
  (n =? 9)%nat || (n =? 10)%nat || (n =? 12)%nat || (n =? 13)%nat || (n =? 32)%nat.

Fixpoint skip_spaces (s : string) : string :=
  match s with
  | EmptyString => EmptyString
  | String c s' => if is_space c then skip_spaces s' else s
  end.

Fixpoint take_word (s : string) : string :=
  match s with
  | EmptyString => EmptyString
  | String c s' => if is_space c then EmptyString else String c (take_word s')
  end.

Definition match_here (key s : string) : option string :=
  if GoStrings.HasPrefix s key then
    match skip_spaces (Sqlite.drop_bytes (String.length key) s) with
    | EmptyString => None
    | String c rest =>
        if Ascii.eqb c "=" || Ascii.eqb c ":" then
          match take_word (skip_spaces rest) with
          | EmptyString => None
          | word => Some word
          end
        else None
    end
  else None.

(** [FindStringSubmatch], reduced to its submatch. *)
Fixpoint find_submatch (key s : string) : option string :=
  match match_here key s with
  | Some word => Some word
  | None =>
      match s with
      | EmptyString => None
      | String _ s' => find_submatch key s'
      end
  end.

Definition submatch_or_empty (key description : string) : string :=
  match find_submatch key description with
  | Some word => GoStrings.TrimSpace word
  | None => ""
  end.

Definition extractIDsFromDescription (description : string) : string * string :=
  (submatch_or_empty "tidb_cluster_id" description,
   submatch_or_empty "o11y_tenant_id" description).

Definition extractBizTypeFromDescription (description : string) : string :=
  submatch_or_empty "o11y_biz_type" description.

(** [labels[key].(string)], the empty string when the assertion fails. *)
Definition label_string (key : string) (labels : list (string * json)) : string :=
  match lookup_field key labels with
  | Some (JString s) => s
  | _ => ""
  end.

(** [uniqueLabels[prefix + value] = true], when [value] is not empty. *)
Definition add_label (prefix value : string) (uniqueLabels : gset string) : gset string :=
  if String.eqb value "" then uniqueLabels else {[ prefix ++ value ]} ∪ uniqueLabels.

Section Extract.
Context {RT : Runtime}.

Definition toJSON (v : slice) : string := json_Marshal (json_of_slice v).

Definition convertToUTC (jiraTime : string) : string :=
  let done (t : Time) := time_Format (UTC t) "2006-01-02 15:04:05" ++ " UTC" in
  match time_Parse "2006-01-02T15:04:05.000-0700" jiraTime with
  | Some t => done t
  | None =>
      match time_Parse "2006-01-02T15:04:05Z07:00" jiraTime with
      | Some t => done t
      | None => jiraTime
      end
  end.

Definition extractFromRawAlertData (rawData : json) (existingLabels : slice)
  : RawAlertFields :=
  let nothing := mkRaw "" "" "" (toJSON existingLabels) "" "" "" "" "" in
  let jsonData :=
    match rawData with
    | JString v => v
    | _ => json_Marshal rawData
    end in
  match json_Unmarshal jsonData with
  | Some (JObject data) =>
      match lookup_field "labels" data with
      | Some (JObject labels) =>
          let clusterID :=
            let first := label_string "tidb_cluster_id" labels in
            if String.eqb first "" then label_string "cluster_id" labels else first in
          let tenantID := label_string "o11y_tenant_id" labels in
          let bizType := label_string "o11y_biz_type" labels in
          let stabilityGovernance := label_string "stability_governance" labels in
          let visibility := label_string "visibility" labels in
          let componentName := label_string "component" labels in
          let sourceComponent := label_string "source_component" labels in
          let alertGroup := label_string "alertgroup" labels in
          let uniqueLabels : gset string :=
            add_label "alertgroup:" alertGroup
              (add_label "source_component:" sourceComponent
                 (add_label "component:" componentName
                    (add_label "visibility:" visibility
                       (add_label "stability_governance:" stabilityGovernance
                          (list_to_set (elems existingLabels)))))) in
          let finalLabels : slice :=
            match map_range uniqueLabels with
            | [] => None
            | visited => Some visited
            end in
          mkRaw clusterID tenantID bizType (json_Marshal (json_of_slice finalLabels))
                stabilityGovernance visibility componentName sourceComponent alertGroup
      | _ => nothing
      end
  | _ => nothing
  end.

(** The time that a stored stamp stands for, as [IncrementalUpdate]
    reads the latest one. *)
Definition created_time (row : IssueData) : option Time :=
  time_Parse "2006-01-02 15:04:05" (GoStrings.TrimSuffix (Created row) " UTC").

End Extract.

(** The database, as the updater sees it: the rows of [issues] and the
    number of statements executed so far. *)
Record Database : Type := mkDatabase {
  issues : list IssueData;
  executed : nat
}.

(** [INSERT OR REPLACE INTO issues]: [id] is the primary key, so a row
    with the same [id] is deleted before the new one is inserted. *)
Definition insert_or_replace (data : IssueData) (rows : list IssueData) : list IssueData :=
  (List.filter (fun row => negb (String.eqb (ID row) (ID data))) rows ++ [data])%list.

(** The rows of a key: [WHERE id = key]. *)
Definition has_key (key : string) (row : IssueData) : bool := String.eqb (ID row) key.

(** [SELECT MAX(created) FROM issues]; [None] is [NULL]. *)
Fixpoint max_created (rows : list IssueData) : option string :=
  match rows with
  | [] => None
  | row :: rest =>
      match max_created rest with
      | None => Some (Created row)
      | Some m => if Sqlite.text_leb m (Created row) then Some (Created row) else Some m
      end
  end.

Inductive error : Type :=
| ErrConnection
| ErrLatestDate
| ErrParseLatest
| ErrSearch (project : string).

Definition projects : list (string * string) :=
  [("O11YDEV", "O11YDEV"); ("O11YSTAG", "O11YSTAG"); ("O11Y", "O11Y")].

Section Updater.
Context {RT : Runtime}.

(** The name service. *)
Variable client_Get : nat -> string -> name_service.GetOutcome.
Variable decode : string -> option name_service.nameApiResponse.
(** The tracker: its searches, and whether [TestConnection] succeeds. *)
Variable SearchV2JQL : nat -> string -> Z -> string -> option (list jira_client.jira_Issue * string).
Variable TestConnection : bool.
(** The driver: whether the [n]-th statement succeeds, and whether the
    query of the latest date does. *)
Variable db_Exec : nat -> bool.
Variable db_QueryRow : bool.
(** The clock: what the [n]-th call of [time.Now] returns. *)
Variable time_Now : nat -> Time.

Definition extractIssueData (nr : name_service.NameResolver) (issue : jira_client.JiraIssue)
  : IssueData * name_service.NameResolver :=
  let title := jira_client.Summary issue in
  let description := jira_client.Description issue in
  let priority :=
    match jira_client.Priority issue with
    | Some name => convertPriority name
    | None => ""
    end in
  let issueType :=
    match jira_client.IssueType issue with
    | Some t => jira_client.IssueType_Name t
    | None => ""
    end in
  let isSubtask :=
    match jira_client.IssueType issue with
    | Some t => jira_client.Subtask t || bool_decide (is_Some (jira_client.Parent issue))
    | None => false
    end in
  let status :=
    match jira_client.Status issue with
    | Some name => name
    | None => ""
    end in
  let labels :=
    match elems (jira_client.Labels issue) with
    | [] => "[]"
    | _ => json_Marshal (json_of_slice (jira_client.Labels issue))
    end in
  let components :=
    match jira_client.Component issue with
    | [] => "[]"
    | names => json_Marshal (JArray (map JString names))
    end in
  let isAlert_ := isAlert description title in
  let alertSignature := if isAlert_ then title else "" in
  let raw :=
    match jira_client.RawAlertData issue with
    | Some rawData => extractFromRawAlertData rawData (jira_client.Labels issue)
    | None => mkRaw "" "" "" labels "" "" "" "" ""
    end in
  let missing :=
    String.eqb (raw_clusterID raw) "" || String.eqb (raw_tenantID raw) ""
    || String.eqb (raw_bizType raw) "" in
  let found := extractIDsFromDescription description in
  let clusterID :=
    if missing && String.eqb (raw_clusterID raw) "" then fst found else raw_clusterID raw in
  let tenantID :=
    if missing && String.eqb (raw_tenantID raw) "" then snd found else raw_tenantID raw in
  let bizType :=
    if missing && String.eqb (raw_bizType raw) ""
    then extractBizTypeFromDescription description else raw_bizType raw in
  let resolved :=
    if String.eqb tenantID "" && negb (String.eqb clusterID "")
    then
      match name_service.Resolve client_Get decode nr clusterID with
      | (info, None, nr') =>
          (if negb (String.eqb (name_service.TenantID info) "")
           then name_service.TenantID info else tenantID, nr')
      | (_, Some _, nr') => (tenantID, nr')
      end
    else (tenantID, nr) in
  ({| ID := jira_client.Key issue;
      Title := title;
      Description := description;
      Created := convertToUTC (jira_client.Created issue);
      Priority := priority;
      Labels := raw_dbLabels raw;
      IssueType := issueType;
      Components := components;
      Project := jira_client.Project issue;
      IsAlert := isAlert_;
      AlertSignature := alertSignature;
      ClusterID := clusterID;
      TenantID := fst resolved;
      BizType := bizType;
      Status := status;
      IsSubtask := isSubtask;
      StabilityGovernance := raw_stabilityGovernance raw;
      Visibility := raw_visibility raw;
      ComponentName := raw_componentName raw;
      SourceComponent := raw_sourceComponent raw;
      AlertGroup := raw_alertGroup raw |},
   snd resolved).

Definition insertOrUpdateIssue (db : Database) (data : IssueData) : bool * Database :=
  if db_Exec (executed db)
  then (true, mkDatabase (insert_or_replace data (issues db)) (S (executed db)))
  else (false, mkDatabase (issues db) (S (executed db))).

(** What the updater works on: the database and the name resolver of the
    process. *)
Record State : Type := mkState {
  database : Database;
  resolver : name_service.NameResolver
}.

Definition processIssue (st : State) (issue : jira_client.JiraIssue) : bool * State :=
  let (issueData, nr) := extractIssueData (resolver st) issue in
  let (ok, db) := insertOrUpdateIssue (database st) issueData in
  (ok, mkState db nr).

(** The loop that processes and stores the tickets, counting successes. *)
Fixpoint process_all (st : State) (successCount : Z) (allIssues : list jira_client.JiraIssue)
  : Z * State :=
  match allIssues with
  | [] => (successCount, st)
  | issue :: rest =>
      let (ok, st') := processIssue st issue in
      process_all st' (if ok then successCount + 1 else successCount) rest
  end.

Definition jql_of (project : string) (startDate endDate : Time) : string :=
  "project = " ++ project ++ " AND created >= '"
  ++ time_Format startDate "2006-01-02 15:04" ++ "' AND created < '"
  ++ time_Format endDate "2006-01-02 15:04"
  ++ "' AND assignee != EMPTY AND issuetype != Sub-task".

(** The loop of [fetchAllO11YAlerts] over the projects still to search. *)
Fixpoint fetch_projects (todo : list (string * string)) (startDate endDate : Time)
    (allIssues : list jira_client.JiraIssue) : error + list jira_client.JiraIssue :=
  match todo with
  | [] => inr allIssues
  | (key, _) :: rest =>
      match jira_client.result
              (jira_client.SearchAllIssues SearchV2JQL (jql_of key startDate endDate) 100) with
      | jira_client.Issues found =>
          fetch_projects rest startDate endDate (allIssues ++ found)%list
      | _ => inl (ErrSearch key)
      end
  end.

Definition fetchAllO11YAlerts (startDate endDate : Time)
  : error + list jira_client.JiraIssue :=
  fetch_projects projects startDate endDate [].

Definition FetchInitialData (st : State) (daysBack : Z) : Z * option error * State :=
  if negb TestConnection then (0, Some ErrConnection, st)
  else
    let endDate := UTC (time_Now 0) in
    let startDate := AddDays endDate (- daysBack) in
    match fetchAllO11YAlerts startDate endDate with
    | inl err => (0, Some err, st)
    | inr allIssues =>
        let (successCount, st') := process_all st 0 allIssues in
        (successCount, None, st')
    end.

(** The window of [IncrementalUpdate]: [startDate] and [endDate] as they
    stand when the search starts, or the error that ends the update
    before. *)
Definition IncrementalUpdate_window (st : State) : error + Time * Time :=
  if negb TestConnection then inl ErrConnection
  else if negb db_QueryRow then inl ErrLatestDate
  else
    match max_created (issues (database st)) with
    | Some latestDate =>
        match time_Parse "2006-01-02 15:04:05" (GoStrings.TrimSuffix latestDate " UTC") with
        | None => inl ErrParseLatest
        | Some t => inr (Add t (1 * Second), UTC (time_Now 0))
        end
    | None => inr (AddDays (UTC (time_Now 0)) (-30), UTC (time_Now 1))
    end.

Definition IncrementalUpdate (st : State) : Z * option error * State :=
  match IncrementalUpdate_window st with
  | inl err => (0, Some err, st)
  | inr (startDate, endDate) =>
      match fetchAllO11YAlerts startDate endDate with
      | inl err => (0, Some err, st)
      | inr allIssues =>
          let (successCount, st') := process_all st 0 allIssues in
          (successCount, None, st')
      end
  end.

End Updater.

End data_updater.

(** ** Package [models] and the store the handlers read *)

Module models.

(** A row of [issues].  Every column the handlers read is written by
    [insertOrUpdateIssue] from a Go string or bool, so none is [NULL],
    and an [IS NULL] test on it is false. *)
Definition Issue : Type := data_updater.IssueData.

Record MutedIssue : Type := mkMuted {
  IssueID : string;
  Reason : string
}.

Record Store : Type := mkStore {
  issues : list Issue;
  muted_issues : list MutedIssue
}.

(** [COUNT] over the rows that a [WHERE] clause keeps. *)
Definition count (where_ : Issue -> bool) (rows : list Issue) : Z :=
  Z.of_nat (List.length (List.filter where_ rows)).

(** The double quote. *)
Definition dquote : string := String (ascii_of_nat 34) EmptyString.

End models.

(** ** Package [api]: the windowed aggregation shared by the handlers *)

Module api.
Import GoNum.

(** [Sscanf] of the [days] parameter, then the default. *)
Definition days_or_default (days : Z) : Z := if Z.leb days 0 then 30 else days.

(** [REPLACE(created, ' UTC', '') BETWEEN start AND end] *)
Definition created_between (start end_ : string) (i : models.Issue) : bool :=
  Sqlite.between (Sqlite.REPLACE (data_updater.Created i) " UTC" "") start end_.

(** [(stability_governance = '' OR stability_governance IS NULL) AND
    (biz_type NOT LIKE '%nextgen%')]: the rows of the component
    [old-rules]. *)
Definition old_rules (i : models.Issue) : bool :=
  String.eqb (data_updater.StabilityGovernance i) ""
  && negb (Sqlite.like "%nextgen%" (data_updater.BizType i)).

(** The trend of a change that is already computed. *)
Definition trend_of (change : float64) : string :=
  if flt fzero change then "up"
  else if flt change fzero then "down"
  else "neutral".

End api.

(** ** Package [api]: components.go *)

Module components.
Import GoNum GoLib.

Section Categories.

(** The component categories as [loadCategories] last read them. *)
Variable categoryMap : gmap string string.

Definition getCategory (name : string) : string :=
  if String.eqb name "Serverless" then "Serverless"
  else
    match categoryMap !! name with
    | Some cat => cat
    | None => "Other"
    end.

End Categories.

Record ComponentMetricStat : Type := mkStat {
  Current : Z;
  Previous : Z;
  Change : float64;
  Trend : string
}.

Definition calcCompChange (curr prev : Z) : float64 * string :=
  if Z.eqb prev 0 then
    if Z.eqb curr 0 then (fzero, "neutral") else (f100, "up")
  else
    let change := fmul (fdiv (float64_of_int (wrap64 (curr - prev))) (float64_of_int prev)) f100 in
    let trend :=
      if flt fzero change then "up"
      else if flt change fzero then "down"
      else "neutral" in
    (change, trend).

(** The helper [calcRate] of [GetComponentStats]. *)
Definition calcRate (numerator denominator : Z) : float64 :=
  if Z.eqb denominator 0 then fzero
  else fmul (fdiv (float64_of_int numerator) (float64_of_int denominator)) f100.

(** A rate with its change, in percentage points, and its trend. *)
Record RateStat : Type := mkRate {
  rate_current : float64;
  rate_previous : float64;
  rate_change : float64;
  rate_trend : string
}.

(** What is modelled of the answer of [GetComponentStats]. *)
Record ComponentStats : Type := mkStats {
  total_alerts : ComponentMetricStat;
  fake_alarm_rate_stat : RateStat;
  handling_rate_stat : RateStat
}.

Section Stats.
Context {RT : Runtime}.
Variable categoryMap : gmap string string.
(** [buildClusterFilterCondition()], which leaves test clusters out; its
    source is not part of this development. *)
Variable clusterFilter : models.Issue -> bool.

Definition categoryCondition (name categoryStr : string) (i : models.Issue) : bool :=
  let biz_type := data_updater.BizType i in
  let devtier :=
    Sqlite.like "%devtier%" biz_type || Sqlite.like "%TiDB Serverless%" biz_type in
  if String.eqb name "Serverless" then devtier
  else if String.eqb categoryStr "premium" then Sqlite.like "%nextgen%" biz_type
  else if String.eqb categoryStr "essential" then devtier
  else if String.eqb categoryStr "dedicated" then
    negb (Sqlite.like "%nextgen%" biz_type)
    && negb (Sqlite.like "%devtier%" biz_type)
    && negb (Sqlite.like "%TiDB Serverless%" biz_type)
  else true.

Definition stabilityCondition (name : string) (i : models.Issue) : bool :=
  if String.eqb name "old-rules" then api.old_rules i
  else
    let cat := getCategory categoryMap name in
    if negb (String.eqb cat "Resilience") && negb (String.eqb cat "Serverless")
    then negb (api.old_rules i)
    else true.

Definition componentFilter (name : string) : string :=
  if String.eqb name "old-rules" then "%"
  else if String.eqb name "Serverless" then "%"
  else "%" ++ models.dquote ++ name ++ models.dquote ++ "%".

Definition envCondition (envStr : string) (i : models.Issue) : bool :=
  let title := data_updater.Title i in
  if String.eqb envStr "prod" then
    Sqlite.like "%[PROD]%" title || Sqlite.like "%PROD%" title
  else if String.eqb envStr "non_prod" then
    Sqlite.like "%[STAGING]%" title || Sqlite.like "%[STG]%" title
    || Sqlite.like "%STAGING%" title
  else true.

(** The conditions that every query of [GetComponentStats] shares:
    [is_alert = ? AND components LIKE ?] and then [envCondition],
    [categoryCondition], [stabilityCondition] and [clusterFilter]. *)
Definition where_component (name envStr categoryStr : string) (i : models.Issue) : bool :=
  data_updater.IsAlert i
  && Sqlite.like (componentFilter name) (data_updater.Components i)
  && envCondition envStr i
  && categoryCondition name categoryStr i
  && stabilityCondition name i
  && clusterFilter i.

(** The same with the window on [created], as the counts have it. *)
Definition where_window (name envStr categoryStr start end_ : string) (i : models.Issue) : bool :=
  where_component name envStr categoryStr i && api.created_between start end_ i.

Definition is_fake (i : models.Issue) : bool := String.eqb (data_updater.Status i) "FAKE ALARM".
Definition is_handled (i : models.Issue) : bool := negb (String.eqb (data_updater.Status i) "Created").

Definition rate_stat (current previous : float64) : RateStat :=
  let change := fsub current previous in
  mkRate current previous change (api.trend_of change).

(** The current and the previous period of [GetComponentStats]:
    [startDate], [endDate], [prevStartDate], [prevEndDate]. *)
Definition periods (now : Time) (days : Z) : string * string * string * string :=
  let endDate := time_Format now "2006-01-02 15:04:05" in
  let startDateObj := AddDays now (- days) in
  let startDate := time_Format startDateObj "2006-01-02" ++ " 00:00:00" in
  let prevEndDate := startDate in
  let prevStartDateObj := AddDays startDateObj (- days) in
  let prevStartDate := time_Format prevStartDateObj "2006-01-02" ++ " 00:00:00" in
  (startDate, endDate, prevStartDate, prevEndDate).

(** A count of [GetComponentStats] over a window, with the condition on
    [status] that the rates add. *)
Definition counted (rows : list models.Issue) (name envStr categoryStr : string)
    (start end_ : string) (extra : models.Issue -> bool) : Z :=
  models.count (fun i => where_window name envStr categoryStr start end_ i && extra i) rows.

Definition GetComponentStats (store : models.Store) (now : Time)
    (name : string) (days : Z) (envStr categoryStr : string) : ComponentStats :=
  let days := api.days_or_default days in
  let '(startDate, endDate, prevStartDate, prevEndDate) := periods now days in
  let counted := counted (models.issues store) name envStr categoryStr in
  let currTotal := counted startDate endDate (fun _ => true) in
  let prevTotal := counted prevStartDate prevEndDate (fun _ => true) in
  let (change, trend) := calcCompChange currTotal prevTotal in
  let currFake := counted startDate endDate is_fake in
  let currHandled := counted startDate endDate is_handled in
  let currFakeRate := calcRate currFake currTotal in
  let currHandlingRate := calcRate currHandled currTotal in
  let prevFake := counted prevStartDate prevEndDate is_fake in
  let prevHandled := counted prevStartDate prevEndDate is_handled in
  let prevFakeRate := calcRate prevFake prevTotal in
  let prevHandlingRate := calcRate prevHandled prevTotal in
  {| total_alerts := mkStat currTotal prevTotal change trend;
     fake_alarm_rate_stat := rate_stat currFakeRate prevFakeRate;
     handling_rate_stat := rate_stat currHandlingRate prevHandlingRate |}.

End Stats.

End components.

(** ** Package [api]: the global dashboard *)

Module dashboard.
Import GoNum GoLib.

Record MetricStat : Type := mkMetric {
  Current : float64;
  Previous : float64;
  Change : float64;
  Trend : string
}.

Definition calculateChange (current previous : Z) : float64 * string :=
  if Z.eqb previous 0 then
    if Z.eqb current 0 then (fzero, "neutral") else (f100, "up")
  else
    let change :=
      fmul (fdiv (float64_of_int (wrap64 (current - previous))) (float64_of_int previous)) f100 in
    let trend :=
      if flt fzero change then "up"
      else if flt change fzero then "down"
      else "neutral" in
    (change, trend).

(** The helper [calcRate] of [GetDashboardData]. *)
Definition calcRate (num den : Z) : float64 :=
  if Z.eqb den 0 then fzero
  else fmul (fdiv (float64_of_int num) (float64_of_int den)) f100.

(** [alert_signature LIKE '[PROD]%'] *)
Definition is_prod (i : models.Issue) : bool :=
  Sqlite.like "[PROD]%" (data_updater.AlertSignature i).

(** [envCondition], the same in [GetDashboardData] and
    [GetDashboardIssues]. *)
Definition envCondition (envStr : string) (i : models.Issue) : bool :=
  if String.eqb envStr "prod" then is_prod i
  else if String.eqb envStr "non_prod" then negb (is_prod i)
  else true.

(** The query parameters that become conditions; an empty one adds
    none.  A value is spliced into the SQL text between quotes, and the
    conditions below are what the text says for a value that cannot end
    the literal: [SqlText.plain], further down.  Any other value can
    change the query or break it. *)
Record Filters : Type := mkFilters {
  component : string;
  tenant_id : string;
  signature : string;
  cluster_id : string
}.

Definition unless_empty (value : string) (cond : bool) : bool :=
  if String.eqb value "" then true else cond.

(** [filterCondition] of [GetDashboardData] *)
Definition filterCondition (f : Filters) (i : models.Issue) : bool :=
  unless_empty (component f)
    (Sqlite.like ("%" ++ component f ++ "%") (data_updater.Components i))
  && unless_empty (tenant_id f) (String.eqb (data_updater.TenantID i) (tenant_id f))
  && unless_empty (signature f) (String.eqb (data_updater.AlertSignature i) (signature f))
  && unless_empty (cluster_id f) (String.eqb (data_updater.ClusterID i) (cluster_id f)).

(** [is_alert = 1] with [envCondition], [filterCondition] and the window:
    the [WHERE] clause of every count of [GetDashboardData]. *)
Definition where_dashboard (envStr : string) (f : Filters) (start end_ : string)
    (i : models.Issue) : bool :=
  data_updater.IsAlert i
  && envCondition envStr i
  && filterCondition f i
  && api.created_between start end_ i.

Definition is_critical (i : models.Issue) : bool :=
  String.eqb (data_updater.Priority i) "Critical".
Definition is_fake (i : models.Issue) : bool :=
  String.eqb (data_updater.Status i) "FAKE ALARM".
Definition is_handled (i : models.Issue) : bool :=
  negb (String.eqb (data_updater.Status i) "Created").

(** The closure [fetchStats]: [total], [prod], [nonProd], [critical]. *)
Definition fetchStats (rows : list models.Issue) (envStr : string) (f : Filters)
    (start end_ : string) : Z * Z * Z * Z :=
  let kept := List.filter (where_dashboard envStr f start end_) rows in
  (models.count (fun _ => true) kept,
   models.count is_prod kept,
   models.count (fun i => negb (is_prod i)) kept,
   models.count is_critical kept).

(** What is modelled of [DashboardDataResponse]. *)
Record DashboardDataResponse : Type := mkResponse {
  TotalAlerts : MetricStat;
  ProdAlerts : MetricStat;
  NonProdAlerts : MetricStat;
  CriticalAlerts : MetricStat;
  FakeAlarmRate : MetricStat;
  HandlingRate : MetricStat
}.

Definition count_stat (current previous : Z) : MetricStat :=
  let (change, trend) := calculateChange current previous in
  mkMetric (float64_of_int current) (float64_of_int previous) change trend.

Definition rate_stat (current previous : float64) : MetricStat :=
  let change := fsub current previous in
  mkMetric current previous change (api.trend_of change).

(** A count of [GetDashboardData] over a window, with the condition on
    [status] that the rates add. *)
Definition counted (rows : list models.Issue) (envStr : string) (f : Filters)
    (start end_ : string) (extra : models.Issue -> bool) : Z :=
  models.count (fun i => where_dashboard envStr f start end_ i && extra i) rows.

Section Handlers.
Context {RT : Runtime}.

(** The current and the previous period of [GetDashboardData]:
    [startDate], [endDate], [prevStartDate], [prevEndDate]. *)
Definition periods (now : Time) (days : Z) : string * string * string * string :=
  let endDate := time_Format now "2006-01-02 15:04:05" in
  let startDate := time_Format (AddDays now (- days)) "2006-01-02 15:04:05" in
  let prevEndDate := startDate in
  let prevStartDate := time_Format (AddDays now (- days * 2)) "2006-01-02 15:04:05" in
  (startDate, endDate, prevStartDate, prevEndDate).

Definition GetDashboardData (store : models.Store) (now : Time)
    (days : Z) (envStr : string) (f : Filters) : DashboardDataResponse :=
  let days := api.days_or_default days in
  let '(startDate, endDate, prevStartDate, prevEndDate) := periods now days in
  let rows := models.issues store in
  let '(currTotal, currProd, currNonProd, currCrit) :=
    fetchStats rows envStr f startDate endDate in
  let '(prevTotal, prevProd, prevNonProd, prevCrit) :=
    fetchStats rows envStr f prevStartDate prevEndDate in
  let counted := counted rows envStr f in
  let currFake := counted startDate endDate is_fake in
  let currHandled := counted startDate endDate is_handled in
  let prevFake := counted prevStartDate prevEndDate is_fake in
  let prevHandled := counted prevStartDate prevEndDate is_handled in
  let currFakeRate := calcRate currFake currTotal in
  let currHandlingRate := calcRate currHandled currTotal in
  let prevFakeRate := calcRate prevFake prevTotal in
  let prevHandlingRate := calcRate prevHandled prevTotal in
  {| TotalAlerts := count_stat currTotal prevTotal;
     ProdAlerts := count_stat currProd prevProd;
     NonProdAlerts := count_stat currNonProd prevNonProd;
     CriticalAlerts := count_stat currCrit prevCrit;
     FakeAlarmRate := rate_stat currFakeRate prevFakeRate;
     HandlingRate := rate_stat currHandlingRate prevHandlingRate |}.

End Handlers.

(** The other parameters of [GetDashboardIssues]. *)
Record ListFilters : Type := mkListFilters {
  metric_type : string;
  category : string;
  priorities : list string
}.

(** [ORDER BY issues.created DESC]; rows with the same stamp keep the
    order of the table. *)
Fixpoint insert_desc (i : models.Issue) (sorted : list models.Issue) : list models.Issue :=
  match sorted with
  | [] => [i]
  | j :: rest =>
      if Sqlite.text_leb (data_updater.Created j) (data_updater.Created i)
      then i :: sorted
      else j :: insert_desc i rest
  end.

Definition order_created_desc (rows : list models.Issue) : list models.Issue :=
  List.fold_right insert_desc [] rows.

Section Issues.
Context {RT : Runtime}.
Variable categoryMap : gmap string string.

(** [LEFT JOIN muted_issues ... WHERE muted_issues.issue_id IS NULL] *)
Definition not_muted (muted : list models.MutedIssue) (i : models.Issue) : bool :=
  negb (List.existsb (fun m => String.eqb (models.IssueID m) (data_updater.ID i)) muted).

(** The category in force: the component [Serverless] stands for the
    category [essential]. *)
Definition category_of (f : Filters) (l : ListFilters) : string :=
  if String.eqb (component f) "Serverless" then "essential" else category l.

Definition componentCondition (f : Filters) (i : models.Issue) : bool :=
  let name := component f in
  if String.eqb name "" then true
  else if String.eqb name "Serverless" then true
  else if String.eqb name "old-rules" then api.old_rules i
  else
    let cat := components.getCategory categoryMap name in
    (if negb (String.eqb cat "Resilience") && negb (String.eqb cat "Serverless")
     then negb (api.old_rules i) else true)
    && Sqlite.like ("%" ++ name ++ "%") (data_updater.Components i).

Definition tierCondition (category_ : string) (i : models.Issue) : bool :=
  let biz_type := data_updater.BizType i in
  if String.eqb category_ "premium" then Sqlite.like "%nextgen%" biz_type
  else if String.eqb category_ "essential" then Sqlite.like "%devtier%" biz_type
  else if String.eqb category_ "dedicated" then
    negb (Sqlite.like "%nextgen%" biz_type) && negb (Sqlite.like "%devtier%" biz_type)
  else true.

Definition metricCondition (metricType : string) (i : models.Issue) : bool :=
  if String.eqb metricType "fake" then is_fake i
  else if String.eqb metricType "handled" then is_handled i
  else if String.eqb metricType "critical" then is_critical i
  else if String.eqb metricType "prod" then is_prod i
  else if String.eqb metricType "non_prod" then negb (is_prod i)
  else true.

(** [priority IN (...)], over the parts of the [priority] parameter,
    each trimmed; no parameter, no condition. *)
Definition priorityCondition (priorities_ : list string) (i : models.Issue) : bool :=
  match priorities_ with
  | [] => true
  | _ =>
      List.existsb
        (fun p => String.eqb (data_updater.Priority i) (GoStrings.TrimSpace p))
        priorities_
  end.

Definition where_issues (envStr : string) (f : Filters) (l : ListFilters)
    (start end_ : string) (i : models.Issue) : bool :=
  data_updater.IsAlert i
  && envCondition envStr i
  && componentCondition f i
  && unless_empty (tenant_id f) (String.eqb (data_updater.TenantID i) (tenant_id f))
  && unless_empty (signature f) (String.eqb (data_updater.AlertSignature i) (signature f))
  && unless_empty (cluster_id f) (String.eqb (data_updater.ClusterID i) (cluster_id f))
  && tierCondition (category_of f l) i
  && metricCondition (metric_type l) i
  && priorityCondition (priorities l) i
  && api.created_between start end_ i.

(** [offset] is a product of two [int]s and wraps; [Offset] adds an
    [OFFSET] to the query only when its argument is positive. *)
Definition GetDashboardIssues (store : models.Store) (now : Time)
    (days : Z) (envStr : string) (f : Filters) (l : ListFilters)
    (page pageSize : Z) : list models.Issue :=
  let days := api.days_or_default days in
  let page := if Z.ltb page 1 then 1 else page in
  let pageSize := if Z.ltb pageSize 1 then 50 else pageSize in
  let offset := wrap64 ((page - 1) * pageSize) in
  let endDate := time_Format now "2006-01-02 15:04:05" in
  let startDate := time_Format (AddDays now (- days)) "2006-01-02 15:04:05" in
  let kept :=
    List.filter
      (fun i => not_muted (models.muted_issues store) i
                && where_issues envStr f l startDate endDate i)
      (models.issues store) in
  firstn (Z.to_nat pageSize) (skipn (Z.to_nat offset) (order_created_desc kept)).

End Issues.

(** [MuteIssue]: a new row of [muted_issues], whose primary key is the
    issue id; [None] is a request that is refused, with the status 400
    for an empty id and 500 when the row cannot be created.  The database
    is taken to refuse a row for its key alone. *)
Definition MuteIssue (store : models.Store) (id : string) : option models.Store :=
  if String.eqb id "" then None
  else if List.existsb (fun m => String.eqb (models.IssueID m) id) (models.muted_issues store)
  then None
  else Some (models.mkStore (models.issues store)
               (models.muted_issues store ++ [models.mkMuted id "User muted via dashboard"])%list).

End dashboard.

(** ** A runtime to run the model on examples

    It knows the layouts of this program that print and read a stamp in
    UTC, prints a list of strings as JSON without escapes, decodes no
    JSON, and visits the keys of a map in the order of [elements]. *)

Module SampleRuntime.
Import GoLib.

(** Days since the epoch of a date of the proleptic Gregorian calendar,
    and back. *)
Definition days_from_civil (y m d : Z) : Z :=
  let y := if Z.leb m 2 then y - 1 else y in
  let era := y / 400 in
  let yoe := y - era * 400 in
  let doy := (153 * (if Z.ltb 2 m then m - 3 else m + 9) + 2) / 5 + d - 1 in
  let doe := yoe * 365 + yoe / 4 - yoe / 100 + doy in
  era * 146097 + doe - 719468.

Definition civil_from_days (z : Z) : Z * Z * Z :=
  let z := z + 719468 in
  let era := z / 146097 in
  let doe := z - era * 146097 in
  let yoe := (doe - doe / 1460 + doe / 36524 - doe / 146096) / 365 in
  let doy := doe - (365 * yoe + yoe / 4 - yoe / 100) in
  let mp := (5 * doy + 2) / 153 in
  let d := doy - (153 * mp + 2) / 5 + 1 in
  let m := if Z.ltb mp 10 then mp + 3 else mp - 9 in
  (if Z.leb m 2 then yoe + era * 400 + 1 else yoe + era * 400, m, d).

Definition digit (n : Z) : string :=
  String (ascii_of_nat (48 + Z.to_nat (n mod 10))) EmptyString.

Definition pad2 (n : Z) : string := digit (n / 10) ++ digit n.
Definition pad4 (n : Z) : string := pad2 (n / 100) ++ pad2 (n mod 100).

Definition format_date (t : Time) : string :=
  let '(y, m, d) := civil_from_days (instant t / Day) in
  pad4 y ++ "-" ++ pad2 m ++ "-" ++ pad2 d.

Definition format_minute (t : Time) : string :=
  let s := (instant t / Second) mod 86400 in
  format_date t ++ " " ++ pad2 (s / 3600) ++ ":" ++ pad2 (s / 60 mod 60).

Definition format_second (t : Time) : string :=
  format_minute t ++ ":" ++ pad2 ((instant t / Second) mod 60).

Definition format (t : Time) (layout : string) : string :=
  if String.eqb layout "2006-01-02 15:04:05" then format_second t
  else if String.eqb layout "2006-01-02 15:04" then format_minute t
  else if String.eqb layout "2006-01-02" then format_date t
  else layout.

(** The number that a run of digits writes; [None] for anything else. *)
Fixpoint number (acc : Z) (s : string) : option Z :=
  match s with
  | EmptyString => Some acc
  | String c s' =>
      let n := nat_of_ascii c in
      if (48 <=? n)%nat && (n <=? 57)%nat
      then number (acc * 10 + Z.of_nat (n - 48)) s'
      else None
  end.

Definition field (from len : nat) (s : string) : option Z :=
  number 0 (substring from len s).

(** A stamp [YYYY-MM-DD HH:MM:SS], read as UTC. *)
Definition parse_second (value : string) : option Time :=
  if negb (String.length value =? 19)%nat then None
  else if negb (String.eqb (substring 4 1 value ++ substring 7 1 value
                            ++ substring 10 1 value ++ substring 13 1 value
                            ++ substring 16 1 value) "-- ::") then None
  else
    match field 0 4 value, field 5 2 value, field 8 2 value,
          field 11 2 value, field 14 2 value, field 17 2 value with
    | Some y, Some m, Some d, Some hh, Some mm, Some ss =>
        let days := days_from_civil y m d in
        if Z.leb 1 m && Z.leb m 12 && Z.leb 1 d
           && (let '(y', m', d') := civil_from_days days in
               Z.eqb y y' && Z.eqb m m' && Z.eqb d d')
           && Z.ltb hh 24 && Z.ltb mm 60 && Z.ltb ss 60
        then Some (mkTime ((days * 86400 + hh * 3600 + mm * 60 + ss) * Second) 0)
        else None
    | _, _, _, _, _, _ => None
    end.

Definition parse (layout value : string) : option Time :=
  if String.eqb layout "2006-01-02 15:04:05" then parse_second value else None.

Fixpoint join (sep : string) (parts : list string) : string :=
  match parts with
  | [] => ""
  | [part] => part
  | part :: rest => part ++ sep ++ join sep rest
  end.

Definition marshal_item (v : json) : string :=
  match v with
  | JString s => models.dquote ++ s ++ models.dquote
  | _ => "null"
  end.

Definition marshal (v : json) : string :=
  match v with
  | JArray items => "[" ++ join "," (map marshal_item items) ++ "]"
  | other => marshal_item other
  end.

#[export] Instance runtime : Runtime := {|
  time_Parse := parse;
  time_Format := format;
  json_Marshal := marshal;
  json_Unmarshal := fun _ => None;
  map_range := elements
|}.

(** Midnight, UTC, of a date. *)
Definition midnight (y m d : Z) : Time := mkTime (days_from_civil y m d * Day) 0.

End SampleRuntime.

(** ** Rows and tickets for the examples *)

Module Samples.

(** An alert as the updater stores it, with no raw alert data but the
    business type and the stability governance given. *)
Definition alert_row (id title created components_ biz_type stability : string)
  : models.Issue :=
  {| data_updater.ID := id;
     data_updater.Title := title;
     data_updater.Description := "";
     data_updater.Created := created;
     data_updater.Priority := "Major";
     data_updater.Labels := "[]";
     data_updater.IssueType := "Alert";
     data_updater.Components := components_;
     data_updater.Project := "O11Y";
     data_updater.IsAlert := true;
     data_updater.AlertSignature := title;
     data_updater.ClusterID := "";
     data_updater.TenantID := "";
     data_updater.BizType := biz_type;
     data_updater.Status := "Created";
     data_updater.IsSubtask := false;
     data_updater.StabilityGovernance := stability;
     data_updater.Visibility := "";
     data_updater.ComponentName := "";
     data_updater.SourceComponent := "";
     data_updater.AlertGroup := "" |}.

(** A ticket of the tracker with a key, a summary, a description and a
    stamp of creation. *)
Definition ticket (key summary description created : string) : jira_client.JiraIssue :=
  {| jira_client.Key := key;
     jira_client.Summary := summary;
     jira_client.Description := description;
     jira_client.Created := created;
     jira_client.Priority := Some "High";
     jira_client.Labels := None;
     jira_client.IssueType := Some (jira_client.mkIssueType "Alert" false);
     jira_client.Component := ["tidb"];
     jira_client.Project := "O11Y";
     jira_client.Status := Some "Created";
     jira_client.RawAlertData := None;
     jira_client.Parent := None |}.

(** A name service that cannot be reached, and one that knows every
    cluster as [prod-cluster] of the tenant [42]. *)
Definition unreachable : nat -> string -> name_service.GetOutcome :=
  fun _ _ => name_service.GetError.

Definition reachable : nat -> string -> name_service.GetOutcome :=
  fun _ _ => name_service.GetResponse 200 (Some "ok").

Definition decode_known (body : string) : option name_service.nameApiResponse :=
  Some (name_service.mkApiResponse true
          (name_service.mkNameInfo "cluster" "1001" "prod-cluster" "42" "acme")).

Definition no_filters : dashboard.Filters := dashboard.mkFilters "" "" "" "".
Definition no_list_filters : dashboard.ListFilters := dashboard.mkListFilters "" "" [].

End Samples.

(** ** The specification's own words, for the properties that compare
    the code with a rule *)

Module Spec.
Import GoNum.

(** [text] contains [keyword] when case is not regarded: some piece of
    [text] is [keyword] once lowered. *)
Definition contains_ignoring_case (text keyword : string) : Prop :=
  exists before piece after,
    text = before ++ piece ++ after /\ GoStrings.ToLower piece = keyword.

Definition alert_keywords : list string := ["alert"; "firing"; "prometheus"].

(** The alert test of section 4.2: the description or the title contains
    one of the keywords. *)
Definition is_alert (description title : string) : Prop :=
  exists keyword, In keyword alert_keywords
    /\ (contains_ignoring_case description keyword
        \/ contains_ignoring_case title keyword).

(** The change and trend rule of section 4.5, on exact counts. *)
Definition change_rule (current previous : Z) : float64 * string :=
  if Z.eqb previous 0 then
    if Z.eqb current 0 then (fzero, "neutral") else (f100, "up")
  else
    let change :=
      fmul (fdiv (float64_of_int (current - previous)) (float64_of_int previous)) f100 in
    (change,
     if flt fzero change then "up" else if flt change fzero then "down" else "neutral").

End Spec.

(** ** Go's [math] package *)

Module GoMath.

(** A float that is neither [math.IsNaN] nor [math.IsInf]. *)
Definition is_finite (x : GoNum.float64) : bool :=
  match x with
  | S754_zero _ | S754_finite _ _ _ => true
  | _ => false
  end.

End GoMath.

(** ** More of Go's [strings] package, for the handlers below *)

Module GoSplit.

(** [strings.ReplaceAll s old new], for an [old] that is not empty:
    the occurrences of [old], found left to right and not overlapping. *)
Definition ReplaceAll (s old new : string) : string :=
  Sqlite.replace_from O s old new.

(** [strings.Split s sep], for a separator of one byte. *)
Fixpoint Split (s : string) (sep : ascii) : list string :=
  match s with
  | EmptyString => [EmptyString]
  | String c s' =>
      if Ascii.eqb c sep then EmptyString :: Split s' sep
      else
        match Split s' sep with
        | part :: parts => String c part :: parts
        | [] => [String c EmptyString]
        end
  end.

End GoSplit.

(** ** Package [models]: rules.go *)

Module rules.

Record Rule : Type := mkRule {
  Alert : string;
  Expr : string;
  For : string;
  Labels : gmap string string;
  Annotations : gmap string string;
  FilePath : string;
  Category : string
}.

Record RuleGroup : Type := mkGroup {
  Name : string;
  Rules : list Rule
}.

Record RuleFile : Type := mkRuleFile {
  Groups : list RuleGroup
}.

End rules.

(** ** Package [services]: the rules service *)

Module rules_service.
Import rules.

(** [RulesService], as [NewRulesService] builds it from the environment
    and the configuration files; a nil map is the empty map, which a
    lookup does not tell apart. *)
Record RulesService : Type := mkService {
  RepoPath : string;
  SubDirs : list string;
  CategoryPathsMap : gmap string (list string);
  ComponentGroups : gmap string (list string)
}.

Inductive error : Type :=
| ErrReadFile
| ErrParseYaml
| ErrRuleNotFound (oldAlertName filePath : string)
| ErrWriteFile.

(** The rules of a file that [parseFile] returns: those with an alert
    name, group after group. *)
Definition alert_rules (rf : RuleFile) : list Rule :=
  flat_map (fun group => List.filter (fun rule => negb (String.eqb (Alert rule) "")) (Rules group))
           (Groups rf).

(** The test of [GetRulesForComponent] on one rule. *)
Definition component_matches (componentName : string) (rule : Rule) : bool :=
  let matched :=
    match Labels rule !! "component" with
    | Some comp =>
        GoStrings.Contains (GoStrings.ToLower comp) (GoStrings.ToLower componentName)
    | None => false
    end in
  if negb matched then
    match Labels rule !! "source_component" with
    | Some sourceComp =>
        GoStrings.Contains (GoStrings.ToLower sourceComp) (GoStrings.ToLower componentName)
    | None => false
    end
  else true.

(** One turn of the loop of [GetRulesForComponentAndCategory] over the
    target components: whether [targetComp] sets [matched]. *)
Definition target_matches (targetComp : string) (rule : Rule) : bool :=
  let matched :=
    match Labels rule !! "component" with
    | Some comp =>
        String.eqb targetComp "*"
        || GoStrings.Contains (GoStrings.ToLower comp) (GoStrings.ToLower targetComp)
    | None => false
    end in
  if negb matched then
    match Labels rule !! "source_component" with
    | Some sourceComp =>
        String.eqb targetComp "*"
        || GoStrings.Contains (GoStrings.ToLower sourceComp) (GoStrings.ToLower targetComp)
    | None => false
    end
  else true.

(** The loop over the target components stops at the first that
    matches. *)
Definition targets_match (targetComponents : list string) (rule : Rule) : bool :=
  List.existsb (fun targetComp => target_matches targetComp rule) targetComponents.

Definition is_rule_file (path : string) : bool :=
  GoStrings.HasSuffix path ".yaml" || GoStrings.HasSuffix path ".yml".

(** The first rule named [oldAlertName] becomes [updatedRule]; [None]
    when no rule has the name. *)
Fixpoint replace_rule (oldAlertName : string) (updatedRule : Rule) (rules_ : list Rule)
  : option (list Rule) :=
  match rules_ with
  | [] => None
  | rule :: rest =>
      if String.eqb (Alert rule) oldAlertName then Some (updatedRule :: rest)
      else
        match replace_rule oldAlertName updatedRule rest with
        | Some rest' => Some (rule :: rest')
        | None => None
        end
  end.

(** The two loops of [UpdateRule], which stop at the first rule found. *)
Fixpoint replace_in_groups (oldAlertName : string) (updatedRule : Rule)
    (groups : list RuleGroup) : option (list RuleGroup) :=
  match groups with
  | [] => None
  | group :: rest =>
      match replace_rule oldAlertName updatedRule (Rules group) with
      | Some rules' => Some (mkGroup (Name group) rules' :: rest)
      | None =>
          match replace_in_groups oldAlertName updatedRule rest with
          | Some rest' => Some (group :: rest')
          | None => None
          end
      end
  end.

Section Service.

(** The file system and the YAML library.  [Walk root] is the list of
    the entries under [root] that [filepath.Walk] visits without an error
    and that are not directories, in the order of the walk; [ReadYaml
    path] is [os.ReadFile] followed by [yaml.Unmarshal] into a
    [RuleFile], [inl] telling which of the two failed; [WriteFile path rf]
    is [yaml.Marshal] of [rf] followed by [os.WriteFile], and tells
    whether the file was written. *)
Variable Walk : string -> list string.
Variable Join : string -> string -> string.
Variable Dir : string -> string.
Variable Base : string -> string.
Variable ReadYaml : string -> error + RuleFile.
Variable WriteFile : string -> RuleFile -> bool.

Definition parseFile (path : string) : option (list Rule) :=
  match ReadYaml path with
  | inr rf => Some (alert_rules rf)
  | inl _ => None
  end.

(** The walk that both searches make over a list of directories: every
    rule of every rule file that [keep] matches, with its category and
    its path filled in. *)
Definition scan (s : RulesService) (paths : list string) (keep : Rule -> bool) : list Rule :=
  flat_map
    (fun subDir =>
       let basePath := Join (RepoPath s) (GoStrings.TrimSpace subDir) in
       flat_map
         (fun path =>
            if negb (is_rule_file path) then []
            else
              match parseFile path with
              | None => []
              | Some fileRules =>
                  map (fun rule =>
                         mkRule (Alert rule) (Expr rule) (For rule) (Labels rule)
                                (Annotations rule) path (Base (Dir path)))
                      (List.filter keep fileRules)
              end)
         (Walk basePath))
    paths.

Definition GetRulesForComponent (s : RulesService) (componentName : string) : list Rule :=
  scan s (SubDirs s) (component_matches componentName).

Definition GetRulesForComponentAndCategory (s : RulesService)
    (componentName category : string) : list Rule :=
  let categoryPaths :=
    match CategoryPathsMap s !! category with
    | Some (subDir :: more) => subDir :: more
    | _ => SubDirs s
    end in
  let targetComponents :=
    match ComponentGroups s !! componentName with
    | Some group => group
    | None => [componentName]
    end in
  scan s categoryPaths (targets_match targetComponents).

(** [UpdateRule]: the error, if any, and the document handed to
    [WriteFile], if the call got that far. *)
Definition UpdateRule (filePath oldAlertName : string) (updatedRule : Rule)
  : option error * option RuleFile :=
  match ReadYaml filePath with
  | inl err => (Some err, None)
  | inr rf =>
      match replace_in_groups oldAlertName updatedRule (Groups rf) with
      | None => (Some (ErrRuleNotFound oldAlertName filePath), None)
      | Some groups =>
          let rf' := mkRuleFile groups in
          if WriteFile filePath rf' then (None, Some rf')
          else (Some ErrWriteFile, Some rf')
      end
  end.

End Service.

End rules_service.

(** ** Package [api]: the other handlers of components.go *)

Module component_handlers.
Import GoLib.

(** A row of [component_stats]. *)
Record ComponentStat : Type := mkComponentStat {
  Component : string;
  Date : string;
  AlertCount : Z
}.

Record ComponentResponse : Type := mkComponent {
  ID : string;
  Name : string;
  Category : string;
  Status : string
}.

(** [append] of the names that are not empty and not seen before: the
    body of the two inner loops of [GetComponents]. *)
Definition add_unseen (acc : gset string * list string) (comp : string)
  : gset string * list string :=
  let (seen, componentNames) := acc in
  if negb (String.eqb comp "") && negb (bool_decide (comp ∈ seen))
  then ({[ comp ]} ∪ seen, (componentNames ++ [comp])%list)
  else acc.

(** [json.Unmarshal] into a [[]string]: [null] is the nil slice, a
    [null] element is the empty string, and anything else that is not a
    string is an error. *)
Definition string_of_json (v : json) : option string :=
  match v with
  | JString s => Some s
  | JNull => Some ""
  | _ => None
  end.

Fixpoint strings_of_items (items : list json) : option (list string) :=
  match items with
  | [] => Some []
  | v :: rest =>
      match string_of_json v, strings_of_items rest with
      | Some s, Some l => Some (s :: l)
      | _, _ => None
      end
  end.

Definition strings_of_json (v : json) : option (list string) :=
  match v with
  | JNull => Some []
  | JArray items => strings_of_items items
  | _ => None
  end.

(** [SELECT DISTINCT component]: each value once, here in the order of
    its first row. *)
Fixpoint distinct (seen : gset string) (values : list string) : list string :=
  match values with
  | [] => []
  | v :: rest =>
      if bool_decide (v ∈ seen) then distinct seen rest
      else v :: distinct ({[ v ]} ∪ seen) rest
  end.

(** The response loop of [GetComponents]: the names that are configured,
    each once. *)
Fixpoint respond (categoryMap : gmap string string) (seen : gset string)
    (componentNames : list string) : list ComponentResponse :=
  match componentNames with
  | [] => []
  | name :: rest =>
      if String.eqb name "" then respond categoryMap seen rest
      else
        let cat := components.getCategory categoryMap name in
        if String.eqb cat "Other" then respond categoryMap seen rest
        else if negb (bool_decide (name ∈ seen))
        then mkComponent name name cat "Healthy"
             :: respond categoryMap ({[ name ]} ∪ seen) rest
        else respond categoryMap seen rest
  end.

Section Handlers.
Context {RT : Runtime}.
Variable categoryMap : gmap string string.

(** The names that one [components] column adds, in the fallback of
    [GetComponents]. *)
Definition scan_components (acc : gset string * list string) (rawJSON : string)
  : gset string * list string :=
  if String.eqb rawJSON "" || String.eqb rawJSON "[]" then acc
  else
    match
      match json_Unmarshal rawJSON with
      | Some v => strings_of_json v
      | None => None
      end
    with
    | Some comps => List.fold_left add_unseen comps acc
    | None =>
        let cleaned := GoSplit.ReplaceAll rawJSON "[" "" in
        let cleaned := GoSplit.ReplaceAll cleaned "]" "" in
        let cleaned := GoSplit.ReplaceAll cleaned models.dquote "" in
        let cleaned := GoSplit.ReplaceAll cleaned "'" "" in
        let parts := GoSplit.Split cleaned "," in
        List.fold_left add_unseen (map GoStrings.TrimSpace parts) acc
    end.

(** The component names before the response is built. *)
Definition component_names (stats : list ComponentStat) (issues : list models.Issue)
  : list string :=
  let componentNames := distinct ∅ (map Component stats) in
  let componentNames :=
    match componentNames with
    | [] =>
        let rawComponents :=
          map data_updater.Components
              (firstn 5000
                 (dashboard.order_created_desc (List.filter data_updater.IsAlert issues))) in
        snd (List.fold_left scan_components rawComponents (∅, []))
    | _ => componentNames
    end in
  if List.existsb (fun name => String.eqb name "Serverless") componentNames
  then componentNames
  else (componentNames ++ ["Serverless"])%list.

Definition GetComponents (stats : list ComponentStat) (issues : list models.Issue)
  : list ComponentResponse :=
  let response := respond categoryMap ∅ (component_names stats issues) in
  let countEmpty :=
    models.count (fun i => data_updater.IsAlert i && api.old_rules i) issues in
  if Z.ltb 0 countEmpty
  then (response ++ [mkComponent "old-rules" "old-rules" "Resilience" "Healthy"])%list
  else response.

(** The name service, for [resolveNameInfo]. *)
Variable client_Get : nat -> string -> name_service.GetOutcome.
Variable decode : string -> option name_service.nameApiResponse.

Definition resolveNameInfo (nr : name_service.NameResolver) (componentName id : string)
  : name_service.NameInfo * name_service.NameResolver :=
  if String.eqb (components.getCategory categoryMap componentName) "Serverless"
  then (name_service.NameInfo_echo id, nr)
  else
    let '(info, _, nr') := name_service.Resolve client_Get decode nr id in
    (info, nr').

(** The rules service and its file system, for the rule handlers. *)
Variable Walk : string -> list string.
Variable Join : string -> string -> string.
Variable Dir : string -> string.
Variable Base : string -> string.
Variable ReadYaml : string -> rules_service.error + rules.RuleFile.
Variable WriteFile : string -> rules.RuleFile -> bool.

(** [RuleWithType]: a rule and its [rule_type]. *)
Record RuleWithType : Type := mkRuleWithType {
  Rule_ : rules.Rule;
  RuleType : string
}.

Definition isLogging (rule : rules.Rule) : bool :=
  GoStrings.Contains (rules.FilePath rule) "/logging/".

Definition GetComponentRules (svc : rules_service.RulesService)
    (name category ruleType : string) : list RuleWithType :=
  let rules_ :=
    if negb (String.eqb category "") then
      let name := if String.eqb name "Serverless" then "*" else name in
      rules_service.GetRulesForComponentAndCategory Walk Join Dir Base ReadYaml svc name category
    else rules_service.GetRulesForComponent Walk Join Dir Base ReadYaml svc name in
  let rules_ :=
    if negb (String.eqb ruleType "") then
      List.filter
        (fun rule =>
           if String.eqb ruleType "logging" && isLogging rule then true
           else if String.eqb ruleType "prometheus" && negb (isLogging rule) then true
           else false)
        rules_
    else rules_ in
  map (fun rule => mkRuleWithType rule (if isLogging rule then "logging" else "prometheus"))
      rules_.

(** [UpdateRuleRequest]; [None] is a body that does not bind. *)
Record UpdateRuleRequest : Type := mkUpdateRequest {
  req_FilePath : string;
  OriginalAlert : string;
  req_Rule : rules.Rule
}.

(** [UpdateComponentRule]: the status of the answer and the document
    handed to [WriteFile], if any. *)
Definition UpdateComponentRule (body : option UpdateRuleRequest) : Z * option rules.RuleFile :=
  match body with
  | None => (400, None)
  | Some req =>
      if String.eqb (req_FilePath req) "" || String.eqb (OriginalAlert req) ""
      then (400, None)
      else
        match rules_service.UpdateRule ReadYaml WriteFile
                (req_FilePath req) (OriginalAlert req) (req_Rule req) with
        | (Some _, written) => (500, written)
        | (None, written) => (200, written)
        end
  end.

End Handlers.

End component_handlers.

(** ** Where the byte-wise definitions above are the program's

    [GoStrings.ToLower] and [GoStrings.TrimSpace] are Go's functions on
    ASCII text; on other text Go lowers the capitals of Unicode and trims
    its white space.  The handlers of the dashboard write the values of
    their filters into the text of the query, between single quotes, and
    the conditions of [dashboard] are what that text says for values that
    cannot end the literal or be taken for a parameter. *)

Module GoUtf8.

(** A byte of ASCII. *)
Definition is_ascii (c : ascii) : bool := (nat_of_ascii c <? 128)%nat.

Definition ascii_only (s : string) : bool :=
  List.forallb is_ascii (list_ascii_of_string s).

Fixpoint last_byte (c : ascii) (s : string) : ascii :=
  match s with
  | EmptyString => c
  | String d s' => last_byte d s'
  end.

(** The first and the last byte of [s] are of ASCII: the loops of
    [strings.TrimSpace] stop there without decoding a rune. *)
Definition ascii_ends (s : string) : bool :=
  match s with
  | EmptyString => true
  | String c s' => is_ascii c && is_ascii (last_byte c s')
  end.

(** The two bytes of U+0130, the capital I with a dot above, which
    [unicode.ToLower] maps to the letter i of ASCII; the only other
    character outside ASCII that it maps into ASCII is U+212A, the Kelvin
    sign, to k. *)
Definition capital_I_with_dot : string :=
  String (ascii_of_nat 196) (String (ascii_of_nat 176) EmptyString).

End GoUtf8.

Module SqlText.

(** A byte that may stand in a value written between single quotes into
    the text of a query: not the quote, which ends the literal, not the
    question mark and not the at sign, where gorm looks for a parameter,
    and not the byte 0, which ends the text. *)
Definition plain_byte (c : ascii) : bool :=
  negb (Ascii.eqb c "'") && negb (Ascii.eqb c "?") && negb (Ascii.eqb c "@")
  && negb (Ascii.eqb c Ascii.zero).

Definition plain (value : string) : bool :=
  List.forallb plain_byte (list_ascii_of_string value).

(** The four filters of the dashboard are plain values. *)
Definition plain_filters (f : dashboard.Filters) : bool :=
  plain (dashboard.component f) && plain (dashboard.tenant_id f)
  && plain (dashboard.signature f) && plain (dashboard.cluster_id f).

(** The parts of the [priority] parameter are plain values of ASCII. *)
Definition plain_priorities (l : dashboard.ListFilters) : bool :=
  List.forallb (fun p => GoUtf8.ascii_only p && plain p) (dashboard.priorities l).




End SqlText.

(** ** [Resolve] in the steps that other goroutines can come between

    [Resolve] holds a lock while it reads the cache and while it writes
    it, and none in between. *)

Module name_service_calls.
Import name_service.

(** A call of [Resolve] as the scheduler of the goroutines sees it: not
    begun; past its read of the cache, which had no entry, with the read
    lock released and the request not sent; with the answer of the service
    in hand and the write lock not yet taken; returned. *)
Inductive call : Type :=
| Begun (id : string)
| Missed (id : string)
| Answered (id : string) (data : NameInfo)
| Returned (info : NameInfo) (err : option error).

Section Steps.
Variable client_Get : nat -> string -> GetOutcome.
Variable decode : string -> option nameApiResponse.

(** The first step, up to the release of the read lock. *)
Definition lookup (nr : NameResolver) (id : string) : call :=
  if String.eqb id "" then Returned NameInfo_zero (Some ErrEmptyId)
  else if negb (isNumeric id) then Returned (NameInfo_echo id) None
  else
    match cache nr !! id with
    | Some info => Returned info None
    | None => Missed id
    end.

(** The second step: the request, and what is made of its answer. *)
Definition request (nr : NameResolver) (id : string) : call * NameResolver :=
  let url := name_url id in
  let sent := mkResolver (cache nr) (url :: requests nr) in
  match client_Get (List.length (requests nr)) url with
  | GetError => (Returned (NameInfo_echo id) (Some ErrTransport), sent)
  | GetResponse code body =>
      if negb (Z.eqb code 200) then (Returned (NameInfo_echo id) (Some (ErrStatus code)), sent)
      else
        match body with
        | None => (Returned (NameInfo_echo id) (Some ErrRead), sent)
        | Some bytes =>
            match decode bytes with
            | None => (Returned (NameInfo_echo id) (Some ErrDecode), sent)
            | Some apiResp =>
                if negb (Success apiResp)
                then (Returned (NameInfo_echo id) (Some ErrNotSuccess), sent)
                else (Answered id (Data apiResp), sent)
            end
        end
  end.

(** The last step, under the write lock. *)
Definition update (nr : NameResolver) (id : string) (data : NameInfo)
  : call * NameResolver :=
  (Returned data None, mkResolver (<[id := data]> (cache nr)) (requests nr)).

Definition step (nr : NameResolver) (c : call) : call * NameResolver :=
  match c with
  | Begun id => (lookup nr id, nr)
  | Missed id => request nr id
  | Answered id data => update nr id data
  | Returned _ _ => (c, nr)
  end.

(** The calls of the goroutines, and a schedule: the indices of the
    calls that take a step, in the order in which they take it. *)
Definition advance (st : NameResolver * list call) (k : nat)
  : NameResolver * list call :=
  match snd st !! k with
  | Some c => (snd (step (fst st) c), <[k := fst (step (fst st) c)]> (snd st))
  | None => st
  end.

Definition run (schedule : list nat) (st : NameResolver * list call)
  : NameResolver * list call :=
  List.fold_left advance schedule st.

End Steps.

(** The call is past its read of the cache and has not returned. *)
Definition in_flight (id : string) (c : call) : bool :=
  match c with
  | Missed id' | Answered id' _ => String.eqb id' id
  | _ => false
  end.

(** The call can still send a request for [id]. *)
Definition may_ask (id : string) (c : call) : bool :=
  match c with
  | Begun id' | Missed id' => String.eqb id' id
  | _ => false
  end.

(** The call has read the cache, found nothing, and has not sent its
    request yet. *)
Definition missed (id : string) (c : call) : bool :=
  match c with
  | Missed id' => String.eqb id' id
  | _ => false
  end.

End name_service_calls.

(** * Properties *)

(** ** Strings *)

Section StringFacts.
Import GoStrings.

Lemma HasPrefix_true (s prefix : string) :
  HasPrefix s prefix = true <-> exists rest, s = prefix ++ rest.
Proof.
  revert s. induction prefix as [|p prefix IH]; intros s; simpl.
  - split; [intros _; exists s; reflexivity | destruct s; reflexivity].
  - destruct s as [|c s]; simpl.
    + split; [discriminate | intros [rest H]; discriminate].
    + destruct (Ascii.eqb_spec p c) as [->|Hne].
      * rewrite IH. split; intros [rest H]; exists rest.
        -- now rewrite H.
        -- now injection H.
      * split; [discriminate|]. intros [rest H]. injection H as H1 _. congruence.
Qed.

Lemma Contains_true (s substr : string) :
  Contains s substr = true <-> exists before after, s = before ++ substr ++ after.
Proof.
  induction s as [|c s IH]; cbn [Contains].
  - rewrite orb_false_r, HasPrefix_true. split.
    + intros [rest H]. exists "", rest. exact H.
    + intros [before [after H]]. destruct before; [|discriminate].
      exists after. exact H.
  - rewrite orb_true_iff, HasPrefix_true, IH. split.
    + intros [[rest H]|[before [after H]]].
      * exists "", rest. exact H.
      * exists (String c before), after. simpl. now rewrite H.
    + intros [before [after H]]. destruct before as [|b before]; simpl in H.
      * left. exists after. exact H.
      * right. injection H as _ H. exists before, after. exact H.
Qed.

Lemma ToLower_app (a b : string) : ToLower (a ++ b) = ToLower a ++ ToLower b.
Proof. induction a as [|c a IH]; simpl; [reflexivity | now rewrite IH]. Qed.

Lemma ToLower_split (s a b : string) :
  ToLower s = a ++ b ->
  exists a' b', s = a' ++ b' /\ ToLower a' = a /\ ToLower b' = b.
Proof.
  revert s. induction a as [|x a IH]; intros s H; simpl in H.
  - exists "", s. auto.
  - destruct s as [|c s]; simpl in H; [discriminate|].
    injection H as Hx H. destruct (IH _ H) as (a' & b' & -> & Ha & Hb).
    exists (String c a'), b'. simpl. now rewrite Hx, Ha.
Qed.

Lemma Contains_ToLower (text keyword : string) :
  Contains (ToLower text) keyword = true <-> Spec.contains_ignoring_case text keyword.
Proof.
  rewrite Contains_true. unfold Spec.contains_ignoring_case. split.
  - intros (before & after & H).
    apply ToLower_split in H as (b' & r & -> & Hb & Hr).
    apply ToLower_split in Hr as (k' & a' & -> & Hk & Ha).
    exists b', k', a'. auto.
  - intros (before & piece & after & -> & Hp).
    exists (ToLower before), (ToLower after).
    now rewrite !ToLower_app, Hp.
Qed.

End StringFacts.

(** ** The alert test *)

(** C5, as the specification states it, fails: a ticket whose title alone
    says "Firing" has one of the keywords in its title, and [isAlert]
    answers no. *)
Lemma isAlert_title_firing_not_alert :
  ~ (data_updater.isAlert "" "Firing" = true <-> Spec.is_alert "" "Firing").
Proof.
  intros [_ H]. enough (data_updater.isAlert "" "Firing" = true) by discriminate.
  apply H. exists "firing". split; [simpl; auto|].
  right. exists "", "Firing", "". split; reflexivity.
Qed.

(** C5, amended: a ticket is an alert exactly when its description
    contains, the case of ASCII letters not regarded, one of "alert",
    "firing" and "prometheus", or its title contains "alert"; the title is
    not searched for the two other keywords.  This is [isAlert] for every
    title and for every description without the character U+0130, whose
    lowering by Go is the letter i of "firing"; a ticket that meets the
    condition is an alert whatever its text. *)
Theorem isAlert_iff (description title : string) :
  let meets :=
    (exists keyword, In keyword Spec.alert_keywords
       /\ Spec.contains_ignoring_case description keyword)
    \/ Spec.contains_ignoring_case title "alert" in
  (GoStrings.Contains description GoUtf8.capital_I_with_dot = false ->
   (data_updater.isAlert description title = true <-> meets))
  /\ (meets -> data_updater.isAlert description title = true).
Proof.
  intros meets.
  assert (data_updater.isAlert description title = true <-> meets) as Hiff.
  { subst meets. unfold data_updater.isAlert.
    rewrite !orb_true_iff, !Contains_ToLower. unfold Spec.alert_keywords. simpl.
    split.
    - intros [[[H|H]|H]|H]; eauto 8.
    - intros [(k & Hk & H)|H]; [|tauto].
      destruct Hk as [<-|[<-|[<-|[]]]]; tauto. }
  split; [intros _; exact Hiff | apply Hiff].
Qed.

(** ** Binary64 arithmetic on integers *)

Section FloatFacts.
Local Open Scope Z_scope.

Lemma digits2_pos_size (m : positive) : digits2_pos m = Pos.size m.
Proof. induction m; cbn; congruence. Qed.

Lemma Zdigits2_log2 (m : positive) : Zdigits2 (Zpos m) = Z.log2 (Zpos m) + 1.
Proof.
  cbn [Zdigits2]. rewrite digits2_pos_size.
  destruct m; cbn [Z.log2 Pos.size]; lia.
Qed.

Lemma shr_1_m (mrs : shr_record) :
  0 <= shr_m mrs -> shr_m (shr_1 mrs) = shr_m mrs / 2.
Proof.
  destruct mrs as [m r s]. cbn [shr_m]. intros H.
  destruct m as [|[p|p|]|p]; cbn [shr_1 shr_m]; try lia.
  - reflexivity.
  - rewrite Pos2Z.inj_xI. apply Z.div_unique with 1; lia.
  - rewrite Pos2Z.inj_xO. apply Z.div_unique with 0; lia.
  - reflexivity.
Qed.

Lemma pow2_xO (p : positive) : 2 ^ Zpos p~0 = 2 ^ Zpos p * 2 ^ Zpos p.
Proof. rewrite <- Z.pow_add_r by lia. f_equal. lia. Qed.

Lemma pow2_xI (p : positive) : 2 ^ Zpos p~1 = 2 * (2 ^ Zpos p * 2 ^ Zpos p).
Proof.
  rewrite <- Z.pow_add_r by lia. rewrite <- (Z.pow_succ_r 2) by lia. f_equal. lia.
Qed.

Lemma iter_pos_shr_m (p : positive) :
  forall mrs, 0 <= shr_m mrs ->
    shr_m (SpecFloat.iter_pos shr_1 p mrs) = shr_m mrs / 2 ^ Zpos p.
Proof.
  induction p as [p IH|p IH|]; intros mrs H; cbn [SpecFloat.iter_pos].
  - assert (H1 : 0 <= shr_m (shr_1 mrs)) by (rewrite shr_1_m by lia; apply Z.div_pos; lia).
    assert (H2 : 0 <= shr_m (SpecFloat.iter_pos shr_1 p (shr_1 mrs)))
      by (rewrite IH by lia; apply Z.div_pos; lia).
    rewrite IH, IH, shr_1_m by lia.
    rewrite !Z.div_div by lia. now rewrite pow2_xI.
  - assert (H2 : 0 <= shr_m (SpecFloat.iter_pos shr_1 p mrs))
      by (rewrite IH by lia; apply Z.div_pos; lia).
    rewrite IH, IH by lia.
    rewrite !Z.div_div by lia. now rewrite pow2_xO.
  - rewrite shr_1_m by lia. reflexivity.
Qed.

Lemma shr_spec (mrs : shr_record) (e n : Z) :
  0 <= shr_m mrs ->
  shr_m (fst (shr mrs e n)) = shr_m mrs / 2 ^ Z.max 0 n
  /\ snd (shr mrs e n) = e + Z.max 0 n.
Proof.
  intros H. destruct n as [|p|p]; cbn [shr fst snd].
  - cbn. rewrite Z.div_1_r. lia.
  - rewrite iter_pos_shr_m by lia. replace (Z.max 0 (Zpos p)) with (Zpos p) by lia. auto.
  - replace (Z.max 0 (Zneg p)) with 0 by lia. cbn. rewrite Z.div_1_r. lia.
Qed.

Lemma round_nearest_even_cases (m : Z) (l : location) :
  round_nearest_even m l = m \/ round_nearest_even m l = m + 1.
Proof.
  destruct l as [|[| |]]; cbn; auto. destruct (Z.even m); auto.
Qed.

Lemma log2_div_pow2 (a n : Z) :
  0 < a -> 0 <= n <= Z.log2 a ->
  0 < a / 2 ^ n /\ Z.log2 (a / 2 ^ n) = Z.log2 a - n.
Proof.
  intros Ha Hn. rewrite <- Z.shiftr_div_pow2 by lia.
  rewrite Z.log2_shiftr by lia. split; [|lia].
  rewrite Z.shiftr_div_pow2 by lia.
  apply Z.div_str_pos. split; [apply Z.pow_pos_nonneg; lia|].
  transitivity (2 ^ Z.log2 a); [apply Z.pow_le_mono_r; lia | apply Z.log2_spec; lia].
Qed.

Lemma log2_succ_cases (a : Z) :
  0 < a ->
  Z.log2 (a + 1) = Z.log2 a \/ (Z.log2 (a + 1) = Z.log2 a + 1 /\ a + 1 = 2 ^ (Z.log2 a + 1)).
Proof.
  intros Ha. pose proof (Z.log2_succ_or a) as [H|H]; unfold Z.succ in H; [right|left; exact H].
  split; [exact H|].
  pose proof (Z.log2_spec a Ha) as [_ Hlt].
  pose proof (Z.log2_spec (a + 1) ltac:(lia)) as [Hle _].
  rewrite H in Hle. unfold Z.succ in Hlt. lia.
Qed.

(** [binary_round_aux] on a mantissa that is not zero and above the
    smallest subnormal: a finite float of the same sign, or an infinity. *)
Lemma binary_round_aux_pos (sx : bool) (m : positive) (e : Z) (l : location) :
  let d := Z.log2 (Zpos m) + 1 in
  -1074 < d + e ->
  exists m' e',
    binary_round_aux 53 1024 sx (Zpos m) e l
    = (if e' <=? 971 then S754_finite sx m' e' else S754_infinity sx)
    /\ e <= e'
    /\ d + e <= Z.log2 (Zpos m') + 1 + e' <= d + e + 1
    /\ Z.log2 (Zpos m') + 1 <= 53.
Proof.
  intros d Hd. unfold binary_round_aux, shr_fexp.
  rewrite Zdigits2_log2. fold d.
  set (k1 := fexp 53 1024 (d + e) - e).
  assert (Hk1 : Z.max 0 k1 = Z.max 0 (Z.max (d - 53) (-1074 - e))).
  { unfold k1, fexp, emin. lia. }
  pose proof (Z.log2_nonneg (Zpos m)) as Hlog.
  destruct (shr_spec (shr_record_of_loc (Zpos m) l) e k1) as [Hm1 He1].
  { destruct l as [|[| |]]; cbn; lia. }
  assert (Hrec : shr_m (shr_record_of_loc (Zpos m) l) = Zpos m)
    by (destruct l as [|[| |]]; reflexivity).
  rewrite Hrec in Hm1.
  destruct (shr (shr_record_of_loc (Zpos m) l) e k1) as [rec1 e1].
  cbn [fst snd] in Hm1, He1.
  destruct (log2_div_pow2 (Zpos m) (Z.max 0 k1)) as [Hpos1 Hlog1]; [lia | lia |].
  rewrite <- Hm1 in Hpos1, Hlog1.
  set (m1 := shr_m rec1) in *.
  set (m2 := round_nearest_even m1 (loc_of_shr_record rec1)).
  assert (Hm2 : m2 = m1 \/ m2 = m1 + 1) by apply round_nearest_even_cases.
  assert (Hm2pos : 0 < m2) by lia.
  destruct m2 as [|m2p|] eqn:Em2; try lia.
  rewrite Zdigits2_log2.
  set (d2 := Z.log2 (Zpos m2p) + 1).
  set (k2 := fexp 53 1024 (d2 + e1) - e1).
  assert (He1min : -1074 <= e1) by lia.
  assert (Hd1 : Z.log2 m1 + 1 <= 53) by lia.
  assert (Hcases : (d2 = Z.log2 m1 + 1) \/ (d2 = Z.log2 m1 + 2 /\ Zpos m2p = 2 ^ (Z.log2 m1 + 1))).
  { destruct Hm2 as [H|H].
    - left. unfold d2. now rewrite H.
    - destruct (log2_succ_cases m1 Hpos1) as [H'|[H' H'']].
      + left. unfold d2. rewrite H. lia.
      + right. unfold d2. rewrite H. split; [lia | exact H'']. }
  destruct (shr_spec (shr_record_of_loc (Zpos m2p) loc_Exact) e1 k2) as [Hm3 He3];
    [cbn; lia|].
  destruct (shr (shr_record_of_loc (Zpos m2p) loc_Exact) e1 k2) as [rec3 e3].
  cbn [fst snd shr_record_of_loc shr_m] in Hm3, He3.
  assert (Hk2 : Z.max 0 k2 = Z.max 0 (d2 - 53)).
  { unfold k2, fexp, emin. lia. }
  change (1024 - 53) with 971.
  destruct (Z_le_gt_dec d2 53) as [Hsmall|Hbig].
  - (* no second shift *)
    rewrite Hk2 in Hm3, He3. replace (Z.max 0 (d2 - 53)) with 0 in Hm3, He3 by lia.
    rewrite Z.pow_0_r, Z.div_1_r in Hm3. rewrite Hm3.
    exists m2p, e3. split; [reflexivity|]. fold d2. lia.
  - (* the rounding carried into a new digit *)
    destruct Hcases as [H|[H Hpow]]; [lia|].
    assert (Hd2 : d2 = 54) by lia.
    rewrite Hk2 in Hm3, He3. replace (Z.max 0 (d2 - 53)) with 1 in Hm3, He3 by lia.
    assert (Hlog53 : Z.log2 m1 + 1 = 53) by lia.
    rewrite Hpow, Hlog53 in Hm3. change (2 ^ 53 / 2 ^ 1) with (2 ^ 52) in Hm3.
    rewrite Hm3. change (2 ^ 52) with (Zpos (2 ^ 52)%positive).
    exists (2 ^ 52)%positive, e3. split; [reflexivity|].
    change (Z.log2 (Zpos (2 ^ 52)%positive)) with 52. lia.
Qed.

Lemma binary_round_aux_sized (sx : bool) (m : positive) (e : Z) (l : location) (lo hi : Z) :
  -1074 < lo -> hi <= 971 ->
  lo <= Z.log2 (Zpos m) + 1 + e <= hi - 1 ->
  GoNum.sized sx lo hi (binary_round_aux 53 1024 sx (Zpos m) e l).
Proof.
  intros Hlo Hhi Hm.
  destruct (binary_round_aux_pos sx m e l) as (m' & e' & Heq & He & Hsum & Hd);
    [cbv zeta; lia|].
  cbv zeta in Hsum. pose proof (Z.log2_nonneg (Zpos m')).
  exists m', e'. rewrite Heq.
  destruct (Z.leb_spec e' 971); [|lia].
  split; [reflexivity|]. lia.
Qed.

Lemma pos_iter_xO (d m : positive) : Zpos (Pos.iter xO m d) = Zpos m * 2 ^ Zpos d.
Proof.
  induction d as [|d IH] using Pos.peano_ind.
  - cbn. lia.
  - rewrite Pos.iter_succ, Pos2Z.inj_xO, IH, Pos2Z.inj_succ, Z.pow_succ_r by lia. lia.
Qed.

Lemma binary_round_sized (sx : bool) (m : positive) (e lo hi : Z) :
  -1074 < lo -> hi <= 971 ->
  lo <= Z.log2 (Zpos m) + 1 + e <= hi - 1 ->
  GoNum.sized sx lo hi (binary_round 53 1024 sx m e).
Proof.
  intros Hlo Hhi Hm. unfold binary_round, shl_align.
  destruct (fexp 53 1024 (Zpos (digits2_pos m) + e) - e) as [|d|d] eqn:Hshift;
    try (apply binary_round_aux_sized; assumption).
  apply binary_round_aux_sized; try assumption.
  rewrite pos_iter_xO, Z.log2_mul_pow2 by lia. lia.
Qed.

Lemma binary_normalize_sized (n : Z) :
  n <> 0 -> Z.abs n < 2 ^ 64 ->
  GoNum.sized (n <? 0) 1 65 (binary_normalize 53 1024 n 0 false).
Proof.
  intros Hn Hlt.
  assert (Hlog : forall p : positive, Zpos p < 2 ^ 64 -> 1 <= Z.log2 (Zpos p) + 1 + 0 <= 65 - 1).
  { intros p Hp. pose proof (Z.log2_nonneg (Zpos p)).
    assert (Z.log2 (Zpos p) < 64) by (apply Z.log2_lt_pow2; lia). lia. }
  destruct n as [|p|p]; [contradiction| |]; cbn [binary_normalize Z.ltb Z.compare].
  - apply binary_round_sized; [lia | lia | apply Hlog; lia].
  - apply binary_round_sized; [lia | lia | apply Hlog; lia].
Qed.

Lemma SFdiv_sized (s1 s2 : bool) (lo1 hi1 lo2 hi2 : Z) (x y : spec_float) :
  GoNum.sized s1 lo1 hi1 x -> GoNum.sized s2 lo2 hi2 y ->
  -1020 < lo1 - hi2 -> hi1 - lo2 + 2 <= 971 ->
  GoNum.sized (xorb s1 s2) (lo1 - hi2) (hi1 - lo2 + 2) (SFdiv 53 1024 x y).
Proof.
  intros (m1 & e1 & -> & Hd1 & Hs1) (m2 & e2 & -> & Hd2 & Hs2) Hlo Hhi.
  cbn [SFdiv]. unfold SFdiv_core_binary.
  rewrite !Zdigits2_log2.
  pose proof (Z.log2_nonneg (Zpos m1)) as Hl1.
  pose proof (Z.log2_nonneg (Zpos m2)) as Hl2.
  set (d1 := Z.log2 (Zpos m1) + 1) in *. set (d2 := Z.log2 (Zpos m2) + 1) in *.
  assert (He' : Z.min (fexp 53 1024 (d1 + e1 - (d2 + e2))) (e1 - e2)
                = d1 + e1 - (d2 + e2) - 53).
  { unfold fexp, emin. lia. }
  rewrite He'.
  assert (Hs : e1 - e2 - (d1 + e1 - (d2 + e2) - 53) = 53 + d2 - d1) by lia.
  rewrite Hs.
  destruct (53 + d2 - d1) as [|s|s] eqn:Es; try lia.
  rewrite Z.shiftl_mul_pow2 by lia.
  pose proof (Z_div_mod (Zpos m1 * 2 ^ Zpos s) (Zpos m2) ltac:(lia)) as Hdiv.
  destruct (Z.div_eucl (Zpos m1 * 2 ^ Zpos s) (Zpos m2)) as [q r].
  destruct Hdiv as [Hqr Hr].
  (* the bounds of the mantissas *)
  pose proof (Z.log2_spec (Zpos m1) ltac:(lia)) as [Hm1lo Hm1hi].
  pose proof (Z.log2_spec (Zpos m2) ltac:(lia)) as [Hm2lo Hm2hi].
  assert (Hp : 0 < 2 ^ Zpos s) by (apply Z.pow_pos_nonneg; lia).
  assert (Hnum_lo : 2 ^ 52 * 2 ^ d2 <= Zpos m1 * 2 ^ Zpos s).
  { rewrite <- Z.pow_add_r by lia.
    replace (52 + d2) with (Z.log2 (Zpos m1) + Zpos s) by lia.
    rewrite Z.pow_add_r by lia. apply Z.mul_le_mono_nonneg_r; lia. }
  assert (Hnum_hi : Zpos m1 * 2 ^ Zpos s < 2 ^ 54 * 2 ^ Z.log2 (Zpos m2)).
  { rewrite <- Z.pow_add_r by lia.
    replace (54 + Z.log2 (Zpos m2)) with (Z.succ (Z.log2 (Zpos m1)) + Zpos s)
      by (unfold Z.succ; lia).
    rewrite Z.pow_add_r by (unfold Z.succ; lia). apply Z.mul_lt_mono_pos_r; lia. }
  assert (Hm2hi' : Zpos m2 < 2 ^ d2) by (unfold d2; exact Hm2hi).
  assert (Hq_lo : 2 ^ 52 <= q).
  { destruct (Z_le_gt_dec (2 ^ 52) q) as [|Hlt]; [assumption|exfalso].
    assert (Zpos m2 * q + r < Zpos m2 * 2 ^ 52) by nia.
    assert (Zpos m2 * 2 ^ 52 < 2 ^ 52 * 2 ^ d2) by nia. lia. }
  assert (Hq_hi : q < 2 ^ 54).
  { destruct (Z_lt_le_dec q (2 ^ 54)) as [|Hge]; [assumption|exfalso].
    assert (Zpos m2 * 2 ^ 54 <= Zpos m2 * q) by nia.
    assert (2 ^ 54 * 2 ^ Z.log2 (Zpos m2) <= Zpos m2 * 2 ^ 54) by nia. lia. }
  destruct q as [|q|q]; try lia.
  assert (Hlq : 52 <= Z.log2 (Zpos q) < 54).
  { split; [apply Z.log2_le_pow2; lia | apply Z.log2_lt_pow2; lia]. }
  apply binary_round_aux_sized; lia.
Qed.

Lemma SFmul_sized (s1 s2 : bool) (lo1 hi1 lo2 hi2 : Z) (x y : spec_float) :
  GoNum.sized s1 lo1 hi1 x -> GoNum.sized s2 lo2 hi2 y ->
  -1074 < lo1 + lo2 - 1 -> hi1 + hi2 + 1 <= 971 ->
  GoNum.sized (xorb s1 s2) (lo1 + lo2 - 1) (hi1 + hi2 + 1) (SFmul 53 1024 x y).
Proof.
  intros (m1 & e1 & -> & Hd1 & Hs1) (m2 & e2 & -> & Hd2 & Hs2) Hlo Hhi.
  cbn [SFmul]. apply binary_round_aux_sized; [lia | lia |].
  rewrite Pos2Z.inj_mul.
  pose proof (Z.log2_mul_below (Zpos m1) (Zpos m2) ltac:(lia) ltac:(lia)).
  pose proof (Z.log2_mul_above (Zpos m1) (Zpos m2) ltac:(lia) ltac:(lia)).
  lia.
Qed.

Lemma sized_sign (s : bool) (lo hi : Z) (x : spec_float) :
  GoNum.sized s lo hi x ->
  SFltb (S754_zero false) x = negb s /\ SFltb x (S754_zero false) = s.
Proof.
  intros (m & e & -> & _). unfold SFltb. cbn. destruct s; split; reflexivity.
Qed.

Lemma f100_sized : GoNum.sized false 7 7 GoNum.f100.
Proof.
  exists 7036874417766400%positive, (-46). split; [reflexivity|].
  change (Z.log2 (Zpos 7036874417766400)) with 52. lia.
Qed.

Lemma float64_of_int_sized (n : Z) :
  n <> 0 -> Z.abs n < 2 ^ 64 ->
  GoNum.sized (n <? 0) 1 65 (GoNum.float64_of_int n).
Proof. apply binary_normalize_sized. Qed.

(** The sign of [n / p * 100] in [float64] is the sign of [n]. *)
Lemma percent_sized (n p : Z) :
  n <> 0 -> Z.abs n < 2 ^ 64 -> 0 < p < 2 ^ 64 ->
  GoNum.sized (n <? 0) (-58) 74
    (GoNum.fmul (GoNum.fdiv (GoNum.float64_of_int n) (GoNum.float64_of_int p)) GoNum.f100).
Proof.
  intros Hn Hlt Hp.
  pose proof (float64_of_int_sized n Hn Hlt) as Hx.
  pose proof (float64_of_int_sized p ltac:(lia) ltac:(lia)) as Hy.
  replace (p <? 0) with false in Hy by (symmetry; apply Z.ltb_ge; lia).
  pose proof (SFdiv_sized _ _ _ _ _ _ _ _ Hx Hy ltac:(lia) ltac:(lia)) as Hq.
  pose proof (SFmul_sized _ _ _ _ _ _ _ _ Hq f100_sized ltac:(lia) ltac:(lia)) as Hr.
  rewrite !xorb_false_r in Hr. exact Hr.
Qed.

Lemma percent_of_zero (p : Z) :
  0 < p < 2 ^ 64 ->
  GoNum.fmul (GoNum.fdiv (GoNum.float64_of_int 0) (GoNum.float64_of_int p)) GoNum.f100
  = GoNum.fzero.
Proof.
  intros Hp.
  destruct (float64_of_int_sized p ltac:(lia) ltac:(lia)) as (m & e & Hy & _).
  replace (p <? 0) with false in Hy by (symmetry; apply Z.ltb_ge; lia).
  unfold GoNum.fdiv, GoNum.fmul. rewrite Hy. reflexivity.
Qed.

Lemma float64_of_int_zero (n : Z) :
  Z.abs n < 2 ^ 64 -> (GoNum.float64_of_int n = GoNum.fzero <-> n = 0).
Proof.
  intros Hlt. split; [|intros ->; reflexivity].
  intros H. destruct (Z.eq_dec n 0) as [|Hn]; [assumption|].
  destruct (float64_of_int_sized n Hn Hlt) as (m & e & Hx & _).
  rewrite Hx in H. discriminate.
Qed.

End FloatFacts.

(** ** Change, trend and rates *)

Section ChangeFacts.
Import GoNum.

Lemma wrap64_in_range (z : Z) : int64_range z -> wrap64 z = z.
Proof.
  unfold int64_range, wrap64. intros H.
  rewrite Z.mod_small; lia.
Qed.

Lemma count_difference_in_range (a b : Z) :
  is_count a -> is_count b -> int64_range (a - b).
Proof. unfold is_count, int64_range. lia. Qed.

Lemma calculateChange_is_rule (current previous : Z) :
  is_count current -> is_count previous ->
  dashboard.calculateChange current previous = Spec.change_rule current previous.
Proof.
  intros Hc Hp. unfold dashboard.calculateChange, Spec.change_rule.
  now rewrite (wrap64_in_range _ (count_difference_in_range _ _ Hc Hp)).
Qed.

Lemma calcCompChange_is_calculateChange (curr prev : Z) :
  components.calcCompChange curr prev = dashboard.calculateChange curr prev.
Proof. reflexivity. Qed.

(** The four pairs that section 8 lists. *)
Example change_0_0 : dashboard.calculateChange 0 0 = (fzero, "neutral").
Proof. reflexivity. Qed.

Example change_7_0 : dashboard.calculateChange 7 0 = (float64_of_int 100, "up").
Proof. reflexivity. Qed.

Example change_10_5 : dashboard.calculateChange 10 5 = (float64_of_int 100, "up").
Proof. vm_compute. reflexivity. Qed.

Example change_5_10 : dashboard.calculateChange 5 10 = (float64_of_int (-50), "down").
Proof. vm_compute. reflexivity. Qed.

(** The trend of the rule, read off the counts. *)
Lemma change_rule_trend (current previous : Z) :
  is_count current -> is_count previous -> previous <> 0 ->
  snd (Spec.change_rule current previous)
  = if Z.ltb previous current then "up"
    else if Z.ltb current previous then "down"
    else "neutral".
Proof.
  unfold is_count. intros Hc Hp Hne. unfold Spec.change_rule.
  destruct (Z.eqb_spec previous 0) as [|_]; [contradiction|]. cbn [snd].
  destruct (Z.eq_dec current previous) as [->|Hdiff].
  - rewrite Z.sub_diag, percent_of_zero by lia.
    rewrite Z.ltb_irrefl. reflexivity.
  - pose proof (percent_sized (current - previous) previous
                  ltac:(lia) ltac:(lia) ltac:(lia)) as Hsized.
    destruct (sized_sign _ _ _ _ Hsized) as [Hup Hdown].
    unfold flt, fzero. rewrite Hup, Hdown.
    destruct (Z.ltb_spec previous current), (Z.ltb_spec current previous),
      (Z.ltb_spec (current - previous) 0); try lia; reflexivity.
Qed.

End ChangeFacts.

(** C1: on counts, [calculateChange] and [calcCompChange] both follow the
    rule: nothing before and nothing now is a change of 0 and a neutral
    trend; nothing before and something now is a change of 100 and a
    trend up; otherwise the change is [(current - previous) / previous *
    100] in [float64], with the trend up, down or neutral as the change
    is above, below or neither above nor below zero; which is to say up
    when there are more alerts than before, down when there are fewer,
    and neutral when there are as many. *)
Theorem change_and_trend_rule (current previous : Z) :
  GoNum.is_count current -> GoNum.is_count previous ->
  let result := dashboard.calculateChange current previous in
  let change :=
    GoNum.fmul (GoNum.fdiv (GoNum.float64_of_int (current - previous))
                           (GoNum.float64_of_int previous)) GoNum.f100 in
  (previous = 0 -> current = 0 -> result = (GoNum.fzero, "neutral"))
  /\ (previous = 0 -> 0 < current -> result = (GoNum.float64_of_int 100, "up"))
  /\ (previous <> 0 ->
      result = (change,
                if GoNum.flt GoNum.fzero change then "up"
                else if GoNum.flt change GoNum.fzero then "down"
                else "neutral"))
  /\ (previous <> 0 ->
      snd result = if Z.ltb previous current then "up"
                   else if Z.ltb current previous then "down"
                   else "neutral")
  /\ components.calcCompChange current previous = result
  /\ result = Spec.change_rule current previous.
Proof.
  intros Hc Hp result change. subst result.
  change (components.calcCompChange current previous)
    with (dashboard.calculateChange current previous).
  rewrite (calculateChange_is_rule _ _ Hc Hp).
  split; [|split; [|split; [|split; [|split; reflexivity]]]].
  - intros -> ->. reflexivity.
  - intros -> H. unfold Spec.change_rule.
    destruct (Z.eqb_spec current 0); [lia | reflexivity].
  - intros H. unfold Spec.change_rule.
    destruct (Z.eqb_spec previous 0); [contradiction | reflexivity].
  - intros H. now apply change_rule_trend.
Qed.

(** The rule at 10 alerts now and 5 before. *)
Lemma change_and_trend_rule_witness :
  dashboard.calculateChange 10 5 = (GoNum.float64_of_int 100, "up")
  /\ components.calcCompChange 10 5 = dashboard.calculateChange 10 5.
Proof.
  assert (Hc : GoNum.is_count 10) by (unfold GoNum.is_count; lia).
  assert (Hp : GoNum.is_count 5) by (unfold GoNum.is_count; lia).
  destruct (change_and_trend_rule 10 5 Hc Hp) as (_ & _ & H & _ & Hcomp & _).
  split; [|exact Hcomp].
  rewrite (H ltac:(lia)). vm_compute. reflexivity.
Defined.

Section RateFacts.
Import GoNum GoLib.
Context {RT : Runtime}.

Lemma count_filter (p : models.Issue -> bool) (rows : list models.Issue) :
  models.count (fun _ => true) (List.filter p rows) = models.count p rows.
Proof.
  unfold models.count. f_equal. f_equal.
  induction (List.filter p rows) as [|r l IH]; simpl; [reflexivity | now rewrite IH].
Qed.

Lemma dashboard_calcRate_zero (num : Z) : dashboard.calcRate num 0 = fzero.
Proof. reflexivity. Qed.

Lemma components_calcRate_zero (numerator : Z) : components.calcRate numerator 0 = fzero.
Proof. reflexivity. Qed.

Lemma dashboard_rates_zero (store : models.Store) (now : Time) (days : Z)
    (envStr : string) (f : dashboard.Filters) :
  let resp := dashboard.GetDashboardData store now days envStr f in
  let '(startDate, endDate, prevStartDate, prevEndDate) :=
    dashboard.periods now (api.days_or_default days) in
  (models.count (dashboard.where_dashboard envStr f startDate endDate)
     (models.issues store) = 0 ->
   dashboard.Current (dashboard.FakeAlarmRate resp) = fzero
   /\ dashboard.Current (dashboard.HandlingRate resp) = fzero)
  /\ (models.count (dashboard.where_dashboard envStr f prevStartDate prevEndDate)
        (models.issues store) = 0 ->
      dashboard.Previous (dashboard.FakeAlarmRate resp) = fzero
      /\ dashboard.Previous (dashboard.HandlingRate resp) = fzero).
Proof.
  unfold dashboard.GetDashboardData.
  destruct (dashboard.periods now (api.days_or_default days)) as [[[s e] ps] pe].
  unfold dashboard.fetchStats. rewrite !count_filter. cbn.
  split; intros ->; split; reflexivity.
Qed.

Lemma components_rates_zero (categoryMap : gmap string string)
    (clusterFilter : models.Issue -> bool) (store : models.Store) (now : Time)
    (name : string) (days : Z) (envStr categoryStr : string) :
  let resp :=
    components.GetComponentStats categoryMap clusterFilter store now name days
      envStr categoryStr in
  (components.Current (components.total_alerts resp) = 0 ->
   components.rate_current (components.fake_alarm_rate_stat resp) = fzero
   /\ components.rate_current (components.handling_rate_stat resp) = fzero)
  /\ (components.Previous (components.total_alerts resp) = 0 ->
      components.rate_previous (components.fake_alarm_rate_stat resp) = fzero
      /\ components.rate_previous (components.handling_rate_stat resp) = fzero).
Proof.
  unfold components.GetComponentStats.
  destruct (components.periods now (api.days_or_default days)) as [[[s e] ps] pe].
  destruct (components.calcCompChange _ _) as [change trend]. cbn.
  split; intros ->; split; reflexivity.
Qed.

End RateFacts.

(** What the guard of [calcRate] avoids: 0 / 0 is not a number. *)
Example unguarded_rate_is_nan :
  GoNum.fmul (GoNum.fdiv (GoNum.float64_of_int 0) (GoNum.float64_of_int 0)) GoNum.f100
  = S754_nan.
Proof. reflexivity. Qed.

(** C10: a period without alerts has a false-alarm rate and a handling
    rate of zero: both [calcRate] helpers return 0 when the total is 0,
    without dividing, and so the rates that [GetDashboardData] and
    [GetComponentStats] report for the current and for the previous
    period are 0 when the total of that period is 0. *)
Theorem rates_of_an_empty_period :
  (forall num, dashboard.calcRate num 0 = GoNum.fzero)
  /\ (forall numerator, components.calcRate numerator 0 = GoNum.fzero)
  /\ (forall (RT : GoLib.Runtime) store now days envStr f,
        let resp := dashboard.GetDashboardData store now days envStr f in
        let '(startDate, endDate, prevStartDate, prevEndDate) :=
          dashboard.periods now (api.days_or_default days) in
        (models.count (dashboard.where_dashboard envStr f startDate endDate)
           (models.issues store) = 0 ->
         dashboard.Current (dashboard.FakeAlarmRate resp) = GoNum.fzero
         /\ dashboard.Current (dashboard.HandlingRate resp) = GoNum.fzero)
        /\ (models.count (dashboard.where_dashboard envStr f prevStartDate prevEndDate)
              (models.issues store) = 0 ->
            dashboard.Previous (dashboard.FakeAlarmRate resp) = GoNum.fzero
            /\ dashboard.Previous (dashboard.HandlingRate resp) = GoNum.fzero))
  /\ (forall (RT : GoLib.Runtime) categoryMap clusterFilter store now name days
             envStr categoryStr,
        let resp :=
          components.GetComponentStats categoryMap clusterFilter store now name days
            envStr categoryStr in
        (components.Current (components.total_alerts resp) = 0 ->
         components.rate_current (components.fake_alarm_rate_stat resp) = GoNum.fzero
         /\ components.rate_current (components.handling_rate_stat resp) = GoNum.fzero)
        /\ (components.Previous (components.total_alerts resp) = 0 ->
            components.rate_previous (components.fake_alarm_rate_stat resp) = GoNum.fzero
            /\ components.rate_previous (components.handling_rate_stat resp) = GoNum.fzero)).
Proof.
  split; [exact dashboard_calcRate_zero|].
  split; [exact components_calcRate_zero|].
  split.
  - intros RT store now days envStr f. apply dashboard_rates_zero.
  - intros RT categoryMap clusterFilter store now name days envStr categoryStr.
    apply components_rates_zero.
Qed.

(** ** The legacy bucket *)

Section LegacyBucket.
Variable categoryMap : gmap string string.
Variable clusterFilter : models.Issue -> bool.

Lemma counted_in_old_rules (envStr categoryStr start end_ : string) (i : models.Issue) :
  components.where_window categoryMap clusterFilter "old-rules" envStr categoryStr
    start end_ i = true ->
  api.old_rules i = true.
Proof.
  unfold components.where_window, components.where_component,
    components.stabilityCondition. cbn.
  rewrite !andb_true_iff. tauto.
Qed.

Lemma governed_component_excludes (name envStr categoryStr : string) (i : models.Issue) :
  name <> "old-rules" ->
  components.getCategory categoryMap name <> "Resilience" ->
  components.getCategory categoryMap name <> "Serverless" ->
  api.old_rules i = true ->
  components.where_component categoryMap clusterFilter name envStr categoryStr i = false.
Proof.
  intros Hname Hres Hsls Hold.
  unfold components.where_component, components.stabilityCondition.
  destruct (String.eqb_spec name "old-rules") as [|_]; [contradiction|].
  destruct (String.eqb_spec (components.getCategory categoryMap name) "Resilience")
    as [|_]; [contradiction|].
  destruct (String.eqb_spec (components.getCategory categoryMap name) "Serverless")
    as [|_]; [contradiction|].
  rewrite Hold. cbn. now rewrite !andb_false_r.
Qed.

Lemma listing_component_excludes (f : dashboard.Filters) (i : models.Issue) :
  dashboard.component f <> "" ->
  dashboard.component f <> "old-rules" ->
  components.getCategory categoryMap (dashboard.component f) <> "Resilience" ->
  components.getCategory categoryMap (dashboard.component f) <> "Serverless" ->
  api.old_rules i = true ->
  dashboard.componentCondition categoryMap f i = false.
Proof.
  intros Hne Hname Hres Hsls Hold. unfold dashboard.componentCondition.
  destruct (String.eqb_spec (dashboard.component f) "") as [|_]; [contradiction|].
  destruct (String.eqb_spec (dashboard.component f) "Serverless") as [E|_].
  { exfalso. apply Hsls. rewrite E. reflexivity. }
  destruct (String.eqb_spec (dashboard.component f) "old-rules") as [|_]; [contradiction|].
  destruct (String.eqb_spec
              (components.getCategory categoryMap (dashboard.component f)) "Resilience")
    as [|_]; [contradiction|].
  destruct (String.eqb_spec
              (components.getCategory categoryMap (dashboard.component f)) "Serverless")
    as [|_]; [contradiction|].
  now rewrite Hold.
Qed.

End LegacyBucket.

(** C4, as the specification states it, fails: an alert of the business
    type "devtier" without stability governance is counted under
    [old-rules] and under the component [Serverless] in the same window;
    and with a component "pd" of the category "Resilience", an alert of
    "pd" without stability governance is counted under [old-rules] and
    under "pd". *)
Lemma legacy_issue_counted_twice :
  let window := components.where_window in
  let all := fun _ : models.Issue => true in
  let from := "2025-01-01 00:00:00" in
  let to := "2025-01-31 00:00:00" in
  let devtier :=
    Samples.alert_row "O11Y-1" "alert: disk" "2025-01-15 10:30:45 UTC"
      "[]" "devtier" "" in
  let pd := "[" ++ models.dquote ++ "pd" ++ models.dquote ++ "]" in
  let resilient :=
    Samples.alert_row "O11Y-2" "alert: region" "2025-01-15 10:30:45 UTC"
      pd "dedicated" "" in
  (window ∅ all "old-rules" "all" "" from to devtier = true
   /\ window ∅ all "Serverless" "all" "" from to devtier = true)
  /\ (window {[ "pd" := "Resilience" ]} all "old-rules" "all" "" from to resilient = true
      /\ window {[ "pd" := "Resilience" ]} all "pd" "all" "" from to resilient = true).
Proof. vm_compute. repeat split. Qed.

(** C4, amended: an issue counted under [old-rules] in a window is
    counted under no other component whose category is neither
    "Resilience" nor "Serverless", in any window, environment or tier; and
    the issue list of the dashboard leaves it out for such a component,
    whatever the other parameters of the request, as long as the values
    that the handler writes into the text of its query are plain. *)
Theorem legacy_bucket_exclusive
    (categoryMap : gmap string string) (clusterFilter : models.Issue -> bool)
    (name envStr categoryStr start end_ : string) (i : models.Issue) :
  name <> "old-rules" ->
  components.getCategory categoryMap name <> "Resilience" ->
  components.getCategory categoryMap name <> "Serverless" ->
  components.where_window categoryMap clusterFilter "old-rules" envStr categoryStr
    start end_ i = true ->
  (forall envStr' categoryStr' start' end',
     components.where_window categoryMap clusterFilter name envStr' categoryStr'
       start' end' i = false)
  /\ (forall (RT : GoLib.Runtime) f l envStr' start' end',
        dashboard.component f = name -> name <> "" ->
        SqlText.plain_filters f = true ->
        SqlText.plain_priorities l = true ->
        dashboard.where_issues categoryMap envStr' f l start' end' i = false).
Proof.
  intros Hname Hres Hsls Hcounted.
  apply counted_in_old_rules in Hcounted. split.
  - intros envStr' categoryStr' start' end'. unfold components.where_window.
    now rewrite (governed_component_excludes categoryMap clusterFilter name envStr'
                   categoryStr' i Hname Hres Hsls Hcounted).
  - intros _ f l envStr' start' end' Hf Hne _ _. unfold dashboard.where_issues.
    rewrite (listing_component_excludes categoryMap f i); rewrite ?Hf; auto.
    now rewrite !andb_false_r.
Qed.

(** An alert of "tidb" without stability governance, with "tidb" in the
    category "Database": counted under [old-rules], not under "tidb", and
    left out of the issue list of "tidb". *)
Lemma legacy_bucket_exclusive_witness :
  let tidb := "[" ++ models.dquote ++ "tidb" ++ models.dquote ++ "]" in
  let i :=
    Samples.alert_row "O11Y-3" "alert: slow query" "2025-01-15 10:30:45 UTC"
      tidb "dedicated" "" in
  components.where_window {[ "tidb" := "Database" ]} (fun _ => true) "old-rules"
    "all" "" "2025-01-01 00:00:00" "2025-01-31 00:00:00" i = true
  /\ components.where_window {[ "tidb" := "Database" ]} (fun _ => true) "tidb"
       "all" "" "2025-01-01 00:00:00" "2025-01-31 00:00:00" i = false
  /\ dashboard.where_issues {[ "tidb" := "Database" ]} "all"
       (dashboard.mkFilters "tidb" "" "" "") Samples.no_list_filters
       "2025-01-01 00:00:00" "2025-01-31 00:00:00" i = false.
Proof.
  intros tidb i.
  assert (H : components.where_window {[ "tidb" := "Database" ]} (fun _ => true)
                "old-rules" "all" "" "2025-01-01 00:00:00" "2025-01-31 00:00:00" i = true)
    by (vm_compute; reflexivity).
  assert (Hname : "tidb" <> "old-rules") by discriminate.
  assert (Hres : components.getCategory {[ "tidb" := "Database" ]} "tidb" <> "Resilience")
    by (vm_compute; discriminate).
  assert (Hsls : components.getCategory {[ "tidb" := "Database" ]} "tidb" <> "Serverless")
    by (vm_compute; discriminate).
  destruct (legacy_bucket_exclusive {[ "tidb" := "Database" ]} (fun _ => true)
              "tidb" "all" "" "2025-01-01 00:00:00" "2025-01-31 00:00:00" i
              Hname Hres Hsls H) as [Hstats Hlist].
  split; [exact H |]. split; [apply Hstats |].
  apply (Hlist SampleRuntime.runtime); [reflexivity | discriminate | reflexivity | reflexivity].
Defined.

(** ** The environment filter *)




(** The two handlers do not keep the same alerts: one stored with the
    title "alert: PROD latency" passes [env=prod] in the component
    statistics and not on the dashboard. *)
Example env_filters_differ :
  let i :=
    Samples.alert_row "O11Y-8" "alert: PROD latency" "2025-01-15 10:30:45 UTC"
      "[]" "dedicated" "yes" in
  components.envCondition "prod" i = true /\ dashboard.envCondition "prod" i = false.
Proof. vm_compute. split; reflexivity. Qed.

(** ** Muted issues *)

Section Muted.
Import GoLib.
Context {RT : Runtime}.

Lemma insert_desc_In (i j : models.Issue) (sorted : list models.Issue) :
  In j (dashboard.insert_desc i sorted) -> j = i \/ In j sorted.
Proof.
  induction sorted as [|k rest IH]; simpl.
  - intros [<-|[]]. now left.
  - destruct (Sqlite.text_leb _ _); simpl.
    + intros [<-|H]; [now left | now right].
    + intros [<-|H]; [right; now left|].
      destruct (IH H) as [->|H']; [now left | right; now right].
Qed.

Lemma order_created_desc_In (j : models.Issue) (rows : list models.Issue) :
  In j (dashboard.order_created_desc rows) -> In j rows.
Proof.
  induction rows as [|i rows IH]; simpl; [tauto|].
  intros H. apply insert_desc_In in H as [->|H]; [now left | right; now apply IH].
Qed.

Lemma In_skipn {A : Type} (x : A) (n : nat) (l : list A) : In x (skipn n l) -> In x l.
Proof.
  revert l. induction n as [|n IH]; intros [|y l]; simpl; auto.
Qed.

Lemma In_firstn {A : Type} (x : A) (n : nat) (l : list A) : In x (firstn n l) -> In x l.
Proof.
  revert l. induction n as [|n IH]; intros [|y l]; simpl; try tauto.
  intros [->|H]; [now left | right; now apply IH].
Qed.

(** The issue list leaves muted issues out. *)
Lemma listing_excludes_muted (categoryMap : gmap string string)
    (store : models.Store) (now : Time) (days : Z) (envStr : string)
    (f : dashboard.Filters) (l : dashboard.ListFilters) (page pageSize : Z)
    (i : models.Issue) (m : models.MutedIssue) :
  In m (models.muted_issues store) ->
  models.IssueID m = data_updater.ID i ->
  ~ In i (dashboard.GetDashboardIssues categoryMap store now days envStr f l page pageSize).
Proof.
  intros Hm Hid Hin. unfold dashboard.GetDashboardIssues in Hin.
  apply In_firstn, In_skipn, order_created_desc_In in Hin.
  apply filter_In in Hin as [_ Hkeep].
  apply andb_true_iff in Hkeep as [Hnot _].
  unfold dashboard.not_muted in Hnot. apply negb_true_iff in Hnot.
  assert (List.existsb
            (fun m0 => String.eqb (models.IssueID m0) (data_updater.ID i))
            (models.muted_issues store) = true) as Hex.
  { apply existsb_exists. exists m. split; [exact Hm|]. now apply String.eqb_eq. }
  congruence.
Qed.

(** The aggregations do not read the table of muted issues. *)
Lemma aggregations_ignore_muted (categoryMap : gmap string string)
    (clusterFilter : models.Issue -> bool) (rows : list models.Issue)
    (muted muted' : list models.MutedIssue) (now : Time) (days : Z)
    (envStr categoryStr name : string) (f : dashboard.Filters) :
  dashboard.GetDashboardData (models.mkStore rows muted) now days envStr f
  = dashboard.GetDashboardData (models.mkStore rows muted') now days envStr f
  /\ components.GetComponentStats categoryMap clusterFilter (models.mkStore rows muted)
       now name days envStr categoryStr
     = components.GetComponentStats categoryMap clusterFilter (models.mkStore rows muted')
         now name days envStr categoryStr.
Proof. split; reflexivity. Qed.

End Muted.

(** C2 on a store of one alert: the issue list shows it; once it is
    muted on the dashboard the issue list leaves it out, and both
    aggregations still count it. *)
Theorem muted_issue_still_counted :
  let tidb := "[" ++ models.dquote ++ "tidb" ++ models.dquote ++ "]" in
  let alert :=
    Samples.alert_row "O11Y-1" "[PROD] alert: disk" "2025-01-15 10:30:45 UTC"
      tidb "dedicated" "yes" in
  let now := SampleRuntime.midnight 2025 2 1 in
  let categories : gmap string string := {[ "tidb" := "Database" ]} in
  dashboard.GetDashboardIssues (RT := SampleRuntime.runtime) categories
    (models.mkStore [alert] []) now 30 "all" Samples.no_filters
    Samples.no_list_filters 1 50 = [alert]
  /\ exists store,
    dashboard.MuteIssue (models.mkStore [alert] []) "O11Y-1" = Some store
    /\ dashboard.GetDashboardIssues (RT := SampleRuntime.runtime) categories store now 30
         "all" Samples.no_filters Samples.no_list_filters 1 50 = []
    /\ dashboard.Current
         (dashboard.TotalAlerts
            (dashboard.GetDashboardData (RT := SampleRuntime.runtime) store now 30
               "all" Samples.no_filters))
       = GoNum.float64_of_int 1
    /\ components.Current
         (components.total_alerts
            (components.GetComponentStats (RT := SampleRuntime.runtime) categories
               (fun _ => true) store now "tidb" 30 "all" ""))
       = 1.
Proof.
  intros tidb alert now categories.
  split; [vm_compute; reflexivity|].
  eexists. split; [reflexivity|].
  vm_compute. repeat split.
Qed.

(** ** Name resolution *)

Section ResolverFacts.
Import name_service.
Variable client_Get : nat -> string -> GetOutcome.
Variable decode : string -> option nameApiResponse.

Local Abbreviation Resolve := (name_service.Resolve client_Get decode).
Local Abbreviation resolve_all := (name_service.resolve_all client_Get decode).
Local Abbreviation successes := (name_service.successes client_Get decode).

Lemma append_inv_head (p a b : string) : p ++ a = p ++ b -> a = b.
Proof.
  induction p as [|c p IH]; cbn; intros H; [exact H|].
  injection H as H. now apply IH.
Qed.

Lemma name_url_inj (a b : string) : name_url a = name_url b -> a = b.
Proof. unfold name_url. apply append_inv_head. Qed.

Lemma Resolve_not_numeric (nr : NameResolver) (id : string) :
  isNumeric id = false ->
  exists info err, Resolve nr id = (info, err, nr) /\ Name info = id.
Proof.
  intros H. unfold name_service.Resolve.
  destruct (String.eqb_spec id "") as [->|_].
  - exists NameInfo_zero, (Some ErrEmptyId). split; reflexivity.
  - rewrite H. exists (NameInfo_echo id), None. split; reflexivity.
Qed.

Lemma Resolve_cached (nr : NameResolver) (id : string) (info : NameInfo) :
  isNumeric id = true -> cache nr !! id = Some info ->
  Resolve nr id = (info, None, nr).
Proof.
  intros Hnum Hc. unfold name_service.Resolve.
  destruct (String.eqb_spec id "") as [->|_]; [discriminate|].
  now rewrite Hnum, Hc.
Qed.

(** One call either leaves the resolver as it is, or sends one request
    for an id that is numeric and not cached, and caches the answer when
    there is one. *)
Lemma Resolve_step (nr : NameResolver) (id : string) :
  snd (Resolve nr id) = nr
  \/ (isNumeric id = true /\ cache nr !! id = None
      /\ requests (snd (Resolve nr id)) = name_url id :: requests nr
      /\ ((name_service.answered client_Get decode (List.length (requests nr)) (name_url id) = false
           /\ cache (snd (Resolve nr id)) = cache nr
           /\ exists e, snd (fst (Resolve nr id)) = Some e)
          \/ (name_service.answered client_Get decode (List.length (requests nr)) (name_url id) = true
              /\ snd (fst (Resolve nr id)) = None
              /\ cache (snd (Resolve nr id))
                 = <[id := fst (fst (Resolve nr id))]> (cache nr)))).
Proof.
  unfold name_service.Resolve, name_service.answered.
  destruct (String.eqb id ""); [now left|].
  destruct (isNumeric id) eqn:Hnum; [|now left]. cbn [negb].
  destruct (cache nr !! id) eqn:Hc; [now left|].
  right. split; [reflexivity|]. split; [reflexivity|].
  destruct (client_Get _ _) as [|code body]; cbn.
  { split; [reflexivity|]. left. eauto. }
  destruct (Z.eqb code 200); cbn.
  2:{ split; [reflexivity|]. left. destruct body; eauto. }
  destruct body as [bytes|]; cbn.
  2:{ split; [reflexivity|]. left. eauto. }
  destruct (decode bytes) as [apiResp|]; cbn.
  2:{ split; [reflexivity|]. left. eauto. }
  destruct (Success apiResp); cbn.
  - split; [reflexivity|]. right. auto.
  - split; [reflexivity|]. left. eauto.
Qed.

Lemma Resolve_success_cached (nr : NameResolver) (id : string) :
  isNumeric id = true ->
  snd (fst (Resolve nr id)) = None ->
  cache (snd (Resolve nr id)) !! id = Some (fst (fst (Resolve nr id))).
Proof.
  intros Hnum Hok. destruct (Resolve_step nr id) as [Hsame|(_ & Hc & _ & [H|H])].
  - unfold name_service.Resolve in *.
    destruct (String.eqb_spec id "") as [->|_]; [discriminate|].
    rewrite Hnum in *. cbn [negb] in *.
    destruct (cache nr !! id) eqn:E; [cbn; exact E|].
    destruct (client_Get _ _) as [|code body]; cbn in *; [discriminate|].
    destruct (Z.eqb code 200); cbn in *; [|discriminate].
    destruct body as [bytes|]; cbn in *; [|discriminate].
    destruct (decode bytes) as [apiResp|]; cbn in *; [|discriminate].
    destruct (Success apiResp); cbn in *; [|discriminate].
    apply lookup_insert_eq.
  - destruct H as (_ & _ & e & He). congruence.
  - destruct H as (_ & _ & ->). apply lookup_insert_eq.
Qed.

Lemma calls_for_cons (id u : string) (nr : NameResolver) (c : gmap string NameInfo) :
  calls_for id (mkResolver c (u :: requests nr))
  = ((if String.eqb (name_url id) u then 1 else 0) + calls_for id nr)%nat.
Proof.
  unfold calls_for. cbn. destruct (String.eqb (name_url id) u); reflexivity.
Qed.

(** What is cached stays cached, and no request is sent for it again. *)
Lemma Resolve_keeps_cached (nr : NameResolver) (id id' : string) (info : NameInfo) :
  cache nr !! id = Some info ->
  cache (snd (Resolve nr id')) !! id = Some info
  /\ calls_for id (snd (Resolve nr id')) = calls_for id nr.
Proof.
  intros Hc. destruct (Resolve_step nr id') as [->|(_ & Hnone & Hreq & H)]; [auto|].
  assert (id <> id') as Hne by congruence.
  split.
  - destruct H as [(_ & -> & _)|(_ & _ & ->)]; [exact Hc|].
    rewrite lookup_insert_ne; auto.
  - unfold calls_for. rewrite Hreq. cbn.
    destruct (String.eqb_spec (name_url id) (name_url id')) as [E|_]; [|reflexivity].
    apply name_url_inj in E. contradiction.
Qed.

Lemma resolve_all_keeps_cached (ids : list string) (nr : NameResolver) (id : string)
    (info : NameInfo) :
  cache nr !! id = Some info ->
  cache (resolve_all nr ids) !! id = Some info
  /\ calls_for id (resolve_all nr ids) = calls_for id nr.
Proof.
  revert nr. induction ids as [|id' ids IH]; intros nr Hc; cbn; [auto|].
  destruct (Resolve_keeps_cached nr id id' info Hc) as [Hc' Hcalls].
  destruct (IH _ Hc') as [H1 H2]. split; [exact H1 | congruence].
Qed.

Local Abbreviation answered_once := (name_service.answered_once client_Get decode).

Lemma answered_once_start : answered_once GetNameResolver.
Proof. intros id. cbn. split; [lia | reflexivity]. Qed.

Lemma answered_once_Resolve (nr : NameResolver) (id' : string) :
  answered_once nr -> answered_once (snd (Resolve nr id')).
Proof.
  intros Inv id. destruct (Inv id) as [Hle Hnone].
  destruct (Resolve_step nr id') as [->|(_ & Hc & Hreq & H)]; [auto|].
  rewrite Hreq. cbn [name_service.successes].
  destruct (String.eqb_spec (name_url id') (name_url id)) as [E|Hne]; cbn [andb].
  - apply name_url_inj in E. subst id'. rewrite (Hnone Hc).
    destruct H as [(-> & Hcache & _)|(-> & _ & Hcache)]; rewrite Hcache.
    + split; [lia | reflexivity].
    + split; [lia|]. rewrite lookup_insert_eq. discriminate.
  - assert (id' <> id) by congruence. cbn. split; [exact Hle|].
    destruct H as [(_ & -> & _)|(_ & _ & ->)]; [exact Hnone|].
    rewrite lookup_insert_ne; auto.
Qed.

Lemma answered_once_resolve_all (ids : list string) (nr : NameResolver) :
  answered_once nr -> answered_once (resolve_all nr ids).
Proof.
  revert nr. induction ids as [|id ids IH]; intros nr Inv; cbn; [exact Inv|].
  apply IH, answered_once_Resolve, Inv.
Qed.

End ResolverFacts.

(** ** Calls of [Resolve] that overlap *)

Section CallFacts.
Import name_service name_service_calls.
Variable client_Get : nat -> string -> GetOutcome.
Variable decode : string -> option nameApiResponse.

Local Abbreviation Resolve := (name_service.Resolve client_Get decode).
Local Abbreviation step := (name_service_calls.step client_Get decode).
Local Abbreviation advance := (name_service_calls.advance client_Get decode).
Local Abbreviation run := (name_service_calls.run client_Get decode).

(** A call that takes its steps with no step of another call in between
    is [Resolve]. *)
Lemma run_alone (nr : NameResolver) (id : string) :
  run [0; 0; 0]%nat (nr, [Begun id])
  = (snd (Resolve nr id),
     [Returned (fst (fst (Resolve nr id))) (snd (fst (Resolve nr id)))]).
Proof.
  unfold name_service_calls.run, name_service.Resolve. cbn [List.fold_left].
  unfold name_service_calls.advance at 3. cbn [snd fst lookup list_lookup].
  cbn -[name_service_calls.advance name_url].
  unfold name_service_calls.lookup.
  destruct (String.eqb id ""); [reflexivity |].
  destruct (isNumeric id); cbn [negb]; [| reflexivity].
  destruct (cache nr !! id) as [info|]; [reflexivity |].
  unfold name_service_calls.advance at 2. cbn -[name_service_calls.advance name_url].
  unfold name_service_calls.request.
  destruct (client_Get _ _) as [|code body]; [reflexivity |].
  destruct (Z.eqb code 200); cbn [negb]; [| reflexivity].
  destruct body as [bytes|]; [| reflexivity].
  destruct (decode bytes) as [apiResp|]; [| reflexivity].
  destruct (Success apiResp); cbn [negb]; reflexivity.
Qed.


Lemma advance_at (nr : NameResolver) (calls : list call) (k : nat) (c : call) :
  calls !! k = Some c ->
  advance (nr, calls) k = (snd (step nr c), <[k := fst (step nr c)]> calls).
Proof. intros H. unfold name_service_calls.advance. cbn [fst snd]. rewrite H. reflexivity. Qed.

Lemma advance_none (nr : NameResolver) (calls : list call) (k : nat) :
  calls !! k = None -> advance (nr, calls) k = (nr, calls).
Proof. intros H. unfold name_service_calls.advance. cbn [fst snd]. rewrite H. reflexivity. Qed.

(** What the steps of a call do to the resolver. *)
Lemma request_spec (nr : NameResolver) (id : string) :
  cache (snd (request client_Get decode nr id)) = cache nr
  /\ requests (snd (request client_Get decode nr id)) = name_url id :: requests nr
  /\ ((exists e, fst (request client_Get decode nr id) = Returned (NameInfo_echo id) (Some e))
      \/ (exists data, fst (request client_Get decode nr id) = Answered id data)).
Proof.
  unfold request.
  destruct (client_Get _ _) as [|code body]; cbn [fst snd cache requests]; [eauto 6 |].
  destruct (Z.eqb code 200); cbn [negb fst snd cache requests]; [| eauto 6].
  destruct body as [bytes|]; cbn [fst snd cache requests]; [| eauto 6].
  destruct (decode bytes) as [apiResp|]; cbn [fst snd cache requests]; [| eauto 6].
  destruct (Success apiResp); cbn [negb fst snd cache requests]; eauto 6.
Qed.

Lemma lookup_spec (nr : NameResolver) (id : string) :
  (exists info err, lookup nr id = Returned info err)
  \/ (lookup nr id = Missed id /\ isNumeric id = true /\ cache nr !! id = None).
Proof.
  unfold lookup.
  destruct (String.eqb id ""); [eauto |].
  destruct (isNumeric id); cbn [negb]; [| eauto].
  destruct (cache nr !! id); eauto.
Qed.

Lemma calls_for_sent (id id' : string) (nr : NameResolver) (c : gmap string NameInfo) :
  calls_for id (mkResolver c (name_url id' :: requests nr))
  = ((if String.eqb id' id then 1 else 0) + calls_for id nr)%nat.
Proof.
  unfold calls_for. cbn [requests List.filter].
  destruct (String.eqb_spec (name_url id) (name_url id')) as [E | E];
    destruct (String.eqb_spec id' id) as [E' | E']; try reflexivity.
  - apply name_url_inj in E. congruence.
  - subst id'. congruence.
Qed.

Lemma count_insert {A : Type} (p : A -> bool) (l : list A) (k : nat) (c c' : A) :
  l !! k = Some c ->
  (List.length (List.filter p (<[k := c']> l)) + (if p c then 1 else 0)
   = List.length (List.filter p l) + (if p c' then 1 else 0))%nat.
Proof.
  revert k. induction l as [|x l IH]; intros k Hk; [discriminate |].
  destruct k as [|k]; cbn in Hk.
  - injection Hk as ->. cbn. destruct (p c), (p c'); cbn; lia.
  - specialize (IH k Hk).
    change (<[S k := c']> (x :: l)) with (x :: <[k := c']> l).
    cbn [List.filter]. destruct (p x); cbn [List.length]; lia.
Qed.

Lemma Forall_insert_list {A : Type} (P : A -> Prop) (l : list A) (k : nat) (c : A) :
  List.Forall P l -> P c -> List.Forall P (<[k := c]> l).
Proof.
  intros Hl Hc. revert k. induction Hl as [|x l Hx Hl IH]; intros k; [constructor |].
  destruct k; cbn; constructor; auto.
Qed.

Lemma Forall_lookup_list {A : Type} (P : A -> Prop) (l : list A) (k : nat) (c : A) :
  List.Forall P l -> l !! k = Some c -> P c.
Proof.
  intros Hl. revert k. induction Hl as [|x l Hx Hl IH]; intros k Hk; [discriminate |].
  destruct k; cbn in Hk; [injection Hk as <-; exact Hx | eauto].
Qed.

Lemma lookup_same_entry (nr nr' : NameResolver) (id : string) :
  cache nr' !! id = cache nr !! id -> lookup nr' id = lookup nr id.
Proof. intros H. unfold lookup. rewrite H. reflexivity. Qed.

Lemma lookup_not_Begun (nr : NameResolver) (id id' : string) :
  lookup nr id <> Begun id'.
Proof.
  destruct (lookup_spec nr id) as [(info & err & ->) | (-> & _)]; discriminate.
Qed.

(** An id whose read of the cache ends the call, and of which no call is
    in flight: a step of any call leaves it so. *)
Lemma advance_quiet (nr : NameResolver) (calls : list call) (k : nat)
    (id : string) (answer : call) :
  lookup nr id = answer -> in_flight id answer = false ->
  List.Forall (fun c => in_flight id c = false) calls ->
  lookup (fst (advance (nr, calls) k)) id = answer
  /\ calls_for id (fst (advance (nr, calls) k)) = calls_for id nr
  /\ List.Forall (fun c => in_flight id c = false) (snd (advance (nr, calls) k))
  /\ forall j c,
       calls !! j = Some c -> c = Begun id \/ c = answer ->
       exists c', snd (advance (nr, calls) k) !! j = Some c'
                  /\ (c' = Begun id \/ c' = answer).
Proof.
  intros Hanswer Hquiet Hcalls.
  destruct (calls !! k) as [c|] eqn:Hk.
  2:{ rewrite (advance_none _ _ _ Hk). cbn [fst snd].
      repeat split; try assumption. intros j c Hj Hc. exists c. auto. }
  rewrite (advance_at _ _ _ _ Hk). cbn [fst snd].
  pose proof (Forall_lookup_list _ _ _ _ Hcalls Hk) as Hc. cbv beta in Hc.
  assert (forall c',
            in_flight id c' = false ->
            (c = Begun id \/ c = answer -> c' = Begun id \/ c' = answer) ->
            List.Forall (fun c => in_flight id c = false) (<[k := c']> calls)
            /\ forall j c0,
                 calls !! j = Some c0 -> c0 = Begun id \/ c0 = answer ->
                 exists c1, <[k := c']> calls !! j = Some c1
                            /\ (c1 = Begun id \/ c1 = answer)) as Hpool.
  { intros c' Hc' Hserved. split; [apply Forall_insert_list; assumption |].
    intros j c0 Hj Hc0. destruct (Nat.eq_dec j k) as [-> | Hne].
    - rewrite Hk in Hj. injection Hj as <-.
      exists c'. split; [| auto].
      apply list_lookup_insert_eq. apply lookup_lt_Some in Hk. exact Hk.
    - exists c0. split; [| exact Hc0].
      rewrite list_lookup_insert_ne by auto. exact Hj. }
  destruct c as [id' | id' | id' data | info err]; cbn [name_service_calls.step fst snd].
  - split; [exact Hanswer |]. split; [reflexivity |].
    destruct (String.eqb_spec id' id) as [-> | Hne].
    + apply Hpool; [rewrite Hanswer; exact Hquiet |]. intros _. right. exact Hanswer.
    + apply Hpool.
      * destruct (lookup_spec nr id') as [(info & err & ->) | (-> & _)]; [reflexivity |].
        cbn [in_flight]. apply String.eqb_neq. exact Hne.
      * intros [H | H]; [congruence |].
        exfalso. subst answer. symmetry in H. exact (lookup_not_Begun _ _ _ H).
  - cbn [in_flight] in Hc. apply String.eqb_neq in Hc.
    destruct (request_spec nr id') as (Hcache & Hreq & Hcall).
    split; [rewrite <- Hanswer; apply lookup_same_entry; rewrite Hcache; reflexivity |].
    split.
    { destruct (snd (request client_Get decode nr id')) as [c0 r0].
      cbn [cache requests] in Hcache, Hreq. subst r0.
      rewrite calls_for_sent. apply String.eqb_neq in Hc. rewrite Hc. reflexivity. }
    apply Hpool.
    + destruct Hcall as [(e & ->) | (data & ->)]; [reflexivity |].
      cbn [in_flight]. apply String.eqb_neq. exact Hc.
    + intros [H | H]; [discriminate H |].
      exfalso. subst answer.
      destruct (lookup_spec nr id) as [(info & err & Heq) | (Heq & _)];
        rewrite Heq in H; [discriminate H |].
      injection H as H. congruence.
  - cbn [in_flight] in Hc. apply String.eqb_neq in Hc.
    unfold update. cbn [fst snd].
    split.
    { rewrite <- Hanswer. apply lookup_same_entry. cbn [cache].
      apply lookup_insert_ne. exact Hc. }
    split; [reflexivity |].
    apply Hpool; [reflexivity |].
    intros [H | H]; [discriminate H |].
    exfalso. subst answer.
    destruct (lookup_spec nr id) as [(info & err & Heq) | (Heq & _)];
      rewrite Heq in H; discriminate H.
  - split; [exact Hanswer |]. split; [reflexivity |].
    apply Hpool; [reflexivity | auto].
Qed.

Lemma run_quiet (schedule : list nat) :
  forall (nr : NameResolver) (calls : list call) (id : string) (answer : call),
    lookup nr id = answer -> in_flight id answer = false ->
    List.Forall (fun c => in_flight id c = false) calls ->
    lookup (fst (run schedule (nr, calls))) id = answer
    /\ calls_for id (fst (run schedule (nr, calls))) = calls_for id nr
    /\ forall j c,
         calls !! j = Some c -> c = Begun id \/ c = answer ->
         exists c', snd (run schedule (nr, calls)) !! j = Some c'
                    /\ (c' = Begun id \/ c' = answer).
Proof.
  induction schedule as [|k schedule IH]; intros nr calls id answer Hanswer Hquiet Hcalls.
  - cbn. repeat split; try assumption. intros j c Hj Hc. exists c. auto.
  - unfold name_service_calls.run. cbn [List.fold_left].
    destruct (advance_quiet nr calls k id answer Hanswer Hquiet Hcalls)
      as (Hanswer' & Hsame & Hcalls' & Hserved).
    destruct (advance (nr, calls) k) as [nr' calls'] eqn:Hstep. cbn [fst snd] in *.
    destruct (IH nr' calls' id answer Hanswer' Hquiet Hcalls') as (H1 & H2 & H3).
    split; [exact H1 |]. split; [rewrite <- Hsame; exact H2 |].
    intros j c Hj Hc. destruct (Hserved j c Hj Hc) as (c' & Hj' & Hc').
    exact (H3 j c' Hj' Hc').
Qed.

(** A call sends one request at most. *)
Lemma advance_asks (nr : NameResolver) (calls : list call) (k : nat) (id : string) :
  (calls_for id (fst (advance (nr, calls) k))
   + List.length (List.filter (may_ask id) (snd (advance (nr, calls) k)))
   <= calls_for id nr + List.length (List.filter (may_ask id) calls))%nat.
Proof.
  destruct (calls !! k) as [c|] eqn:Hk.
  2:{ rewrite (advance_none _ _ _ Hk). cbn [fst snd]. lia. }
  rewrite (advance_at _ _ _ _ Hk). cbn [fst snd].
  pose proof (count_insert (may_ask id) calls k c (fst (step nr c)) Hk) as Hcount.
  destruct c as [id' | id' | id' data | info err]; cbn [name_service_calls.step fst snd] in *.
  - destruct (lookup_spec nr id') as [(info & err & Heq) | (Heq & _)];
      rewrite Heq in *; cbn [may_ask] in *; destruct (String.eqb id' id); lia.
  - destruct (request_spec nr id') as (Hcache & Hreq & Hcall).
    destruct (request client_Get decode nr id') as [c' [c0 r0]].
    cbn [fst snd cache requests] in *. subst r0.
    rewrite calls_for_sent.
    destruct Hcall as [(e & ->) | (data & ->)]; cbn [may_ask] in *;
      destruct (String.eqb id' id); lia.
  - unfold update in *. cbn [fst snd may_ask] in *.
    unfold calls_for in *. cbn [requests] in *. lia.
  - cbn [may_ask] in *. lia.
Qed.

Lemma run_asks (schedule : list nat) :
  forall (nr : NameResolver) (calls : list call) (id : string),
    (calls_for id (fst (run schedule (nr, calls)))
     <= calls_for id nr + List.length (List.filter (may_ask id) calls))%nat.
Proof.
  induction schedule as [|k schedule IH]; intros nr calls id.
  - cbn. lia.
  - unfold name_service_calls.run. cbn [List.fold_left].
    pose proof (advance_asks nr calls k id) as Hstep.
    destruct (advance (nr, calls) k) as [nr' calls']. cbn [fst snd] in *.
    specialize (IH nr' calls' id). unfold name_service_calls.run in IH. lia.
Qed.

(** Once an answer is cached, a step of any call leaves one cached, and
    only a call that had missed it can still send a request. *)
Lemma advance_cached (nr : NameResolver) (calls : list call) (k : nat) (id : string) :
  isNumeric id = true -> is_Some (cache nr !! id) ->
  is_Some (cache (fst (advance (nr, calls) k)) !! id)
  /\ (calls_for id (fst (advance (nr, calls) k))
      + List.length (List.filter (missed id) (snd (advance (nr, calls) k)))
      <= calls_for id nr + List.length (List.filter (missed id) calls))%nat
  /\ forall j c,
       calls !! j = Some c -> c = Begun id \/ (exists info, c = Returned info None) ->
       exists c', snd (advance (nr, calls) k) !! j = Some c'
                  /\ (c' = Begun id \/ exists info, c' = Returned info None).
Proof.
  intros Hnum Hcached.
  destruct (calls !! k) as [c|] eqn:Hk.
  2:{ rewrite (advance_none _ _ _ Hk). cbn [fst snd].
      split; [exact Hcached |]. split; [lia |]. intros j c Hj Hc. exists c. auto. }
  rewrite (advance_at _ _ _ _ Hk). cbn [fst snd].
  pose proof (count_insert (missed id) calls k c (fst (step nr c)) Hk) as Hcount.
  assert (forall c',
            (c = Begun id \/ (exists info, c = Returned info None) ->
             c' = Begun id \/ exists info, c' = Returned info None) ->
            forall j c0,
              calls !! j = Some c0 -> c0 = Begun id \/ (exists info, c0 = Returned info None) ->
              exists c1, <[k := c']> calls !! j = Some c1
                         /\ (c1 = Begun id \/ exists info, c1 = Returned info None)) as Hpool.
  { intros c' Hserved j c0 Hj Hc0. destruct (Nat.eq_dec j k) as [-> | Hne].
    - rewrite Hk in Hj. injection Hj as <-.
      exists c'. split; [| auto].
      apply list_lookup_insert_eq. apply lookup_lt_Some in Hk. exact Hk.
    - exists c0. split; [| exact Hc0].
      rewrite list_lookup_insert_ne by auto. exact Hj. }
  assert (lookup nr id = Returned (default NameInfo_zero (cache nr !! id)) None) as Hhit.
  { unfold lookup. destruct (String.eqb_spec id "") as [-> | _]; [discriminate Hnum |].
    rewrite Hnum. cbn [negb]. destruct Hcached as [info ->]. reflexivity. }
  destruct c as [id' | id' | id' data | info err]; cbn [name_service_calls.step fst snd] in *.
  - split; [exact Hcached |]. split.
    + destruct (lookup_spec nr id') as [(info & err & Heq) | (Heq & _ & Hnone)];
        rewrite Heq in *; cbn [missed] in *; [lia |].
      destruct (String.eqb_spec id' id) as [-> | _]; [| lia].
      rewrite Hnone in Hcached. destruct Hcached as [? Hcached]. discriminate Hcached.
    + apply Hpool. intros [H | (info & H)]; [| discriminate H].
      injection H as ->. right. rewrite Hhit. eauto.
  - destruct (request_spec nr id') as (Hcache & Hreq & Hcall).
    destruct (request client_Get decode nr id') as [c' [c0 r0]].
    cbn [fst snd cache requests] in *. subst r0 c0.
    split; [exact Hcached |]. split.
    + rewrite calls_for_sent.
      destruct Hcall as [(e & ->) | (data & ->)]; cbn [missed] in *;
        destruct (String.eqb id' id); lia.
    + apply Hpool. intros [H | (info & H)]; discriminate H.
  - unfold update in *. cbn [fst snd cache missed] in *.
    split.
    { destruct (String.eqb_spec id' id) as [-> | Hne].
      - rewrite lookup_insert_eq. eauto.
      - rewrite lookup_insert_ne by exact Hne. exact Hcached. }
    split; [unfold calls_for in *; cbn [requests] in *; lia |].
    apply Hpool. intros [H | (info & H)]; discriminate H.
  - split; [exact Hcached |]. split; [cbn [missed] in *; lia |].
    apply Hpool. auto.
Qed.

Lemma run_cached (schedule : list nat) :
  forall (nr : NameResolver) (calls : list call) (id : string),
    isNumeric id = true -> is_Some (cache nr !! id) ->
    is_Some (cache (fst (run schedule (nr, calls))) !! id)
    /\ (calls_for id (fst (run schedule (nr, calls)))
        <= calls_for id nr + List.length (List.filter (missed id) calls))%nat
    /\ forall j c,
         calls !! j = Some c -> c = Begun id \/ (exists info, c = Returned info None) ->
         exists c', snd (run schedule (nr, calls)) !! j = Some c'
                    /\ (c' = Begun id \/ exists info, c' = Returned info None).
Proof.
  induction schedule as [|k schedule IH]; intros nr calls id Hnum Hcached.
  - cbn. split; [exact Hcached |]. split; [lia |]. intros j c Hj Hc. exists c. auto.
  - unfold name_service_calls.run. cbn [List.fold_left].
    destruct (advance_cached nr calls k id Hnum Hcached) as (Hcached' & Hle & Hserved).
    destruct (advance (nr, calls) k) as [nr' calls'] eqn:Hstep. cbn [fst snd] in *.
    destruct (IH nr' calls' id Hnum Hcached') as (H1 & H2 & H3).
    unfold name_service_calls.run in *.
    split; [exact H1 |]. split; [lia |].
    intros j c Hj Hc. destruct (Hserved j c Hj Hc) as (c' & Hj' & Hc').
    exact (H3 j c' Hj' Hc').
Qed.

End CallFacts.

(** C8, as the specification states it, fails: with the name service out
    of reach, resolving the id 1001 twice sends two requests for it. *)
Lemma failed_lookup_is_repeated :
  ~ (name_service.calls_for "1001"
       (name_service.resolve_all Samples.unreachable Samples.decode_known
          name_service.GetNameResolver ["1001"; "1001"]) <= 1)%nat.
Proof. vm_compute. lia. Qed.

(** C8, amended: an id that is not purely numeric is returned as its own
    name and the resolver is left as it was, no request sent.  For a
    purely numeric id, a call that returns without error has the answer
    cached; whatever is resolved afterwards, one call after the other, no
    further request is sent for that id and a later call returns the
    cached answer; and over the life of a resolver whose calls come one
    after the other, at most one request per id is answered with a name.
    A lookup that fails is not cached.

    With calls that overlap, under every schedule of their steps: no
    request is sent for an id that is not purely numeric; once an answer
    for an id is cached, an answer stays cached, a call of that id that
    begins from then on returns a cached answer without error, and only
    the calls that had read the cache before can still send a request for
    it; when no call of the id is in flight, that is the answer cached and
    no request at all; the requests sent for an id are at most the calls
    that were made for it; and a call that has read the cache and found
    no answer sends its request, whatever has been cached by then. *)
Theorem name_resolution
    (client_Get : nat -> string -> name_service.GetOutcome)
    (decode : string -> option name_service.nameApiResponse) :
  let Resolve := name_service.Resolve client_Get decode in
  let resolve_all := name_service.resolve_all client_Get decode in
  let run := name_service_calls.run client_Get decode in
  (forall nr id,
     name_service.isNumeric id = false ->
     exists info err,
       Resolve nr id = (info, err, nr) /\ name_service.Name info = id)
  /\ (forall nr id later,
        name_service.isNumeric id = true ->
        snd (fst (Resolve nr id)) = None ->
        let info := fst (fst (Resolve nr id)) in
        let after := resolve_all (snd (Resolve nr id)) later in
        name_service.calls_for id after = name_service.calls_for id (snd (Resolve nr id))
        /\ Resolve after id = (info, None, after))
  /\ (forall ids id,
        (name_service.successes client_Get decode (name_service.name_url id)
           (name_service.requests (resolve_all name_service.GetNameResolver ids))
         <= 1)%nat)
  /\ (forall nr id e,
        snd (fst (Resolve nr id)) = Some e ->
        name_service.cache (snd (Resolve nr id)) = name_service.cache nr)
  /\ (forall nr id,
        run [0; 0; 0]%nat (nr, [name_service_calls.Begun id])
        = (snd (Resolve nr id),
           [name_service_calls.Returned (fst (fst (Resolve nr id)))
              (snd (fst (Resolve nr id)))]))
  /\ (forall schedule nr calls id,
        name_service.isNumeric id = false -> id <> "" ->
        List.Forall (fun c => name_service_calls.in_flight id c = false) calls ->
        let after := run schedule (nr, calls) in
        name_service.calls_for id (fst after) = name_service.calls_for id nr
        /\ forall j,
             calls !! j = Some (name_service_calls.Begun id) ->
             snd after !! j = Some (name_service_calls.Begun id)
             \/ snd after !! j
                = Some (name_service_calls.Returned (name_service.NameInfo_echo id) None))
  /\ (forall schedule nr calls id info,
        name_service.isNumeric id = true ->
        name_service.cache nr !! id = Some info ->
        List.Forall (fun c => name_service_calls.in_flight id c = false) calls ->
        let after := run schedule (nr, calls) in
        name_service.calls_for id (fst after) = name_service.calls_for id nr
        /\ name_service.cache (fst after) !! id = Some info
        /\ forall j,
             calls !! j = Some (name_service_calls.Begun id) ->
             snd after !! j = Some (name_service_calls.Begun id)
             \/ snd after !! j = Some (name_service_calls.Returned info None))
  /\ (forall schedule nr calls id,
        name_service.isNumeric id = true ->
        is_Some (name_service.cache nr !! id) ->
        let after := run schedule (nr, calls) in
        is_Some (name_service.cache (fst after) !! id)
        /\ (name_service.calls_for id (fst after)
            <= name_service.calls_for id nr
               + List.length (List.filter (name_service_calls.missed id) calls))%nat
        /\ forall j,
             calls !! j = Some (name_service_calls.Begun id) ->
             snd after !! j = Some (name_service_calls.Begun id)
             \/ exists info,
                  snd after !! j = Some (name_service_calls.Returned info None))
  /\ (forall schedule nr calls id,
        (name_service.calls_for id (fst (run schedule (nr, calls)))
         <= name_service.calls_for id nr
            + List.length (List.filter (name_service_calls.may_ask id) calls))%nat)
  /\ (forall nr id,
        name_service.isNumeric id = true ->
        name_service.cache nr !! id = None ->
        name_service_calls.lookup nr id = name_service_calls.Missed id
        /\ forall later,
             name_service.requests
               (snd (name_service_calls.step client_Get decode later
                       (name_service_calls.Missed id)))
             = name_service.name_url id :: name_service.requests later).
Proof.
  intros Resolve resolve_all run. subst Resolve resolve_all run.
  split; [intros nr id; apply Resolve_not_numeric|].
  split.
  { intros nr id later Hnum Hok info after.
    pose proof (Resolve_success_cached client_Get decode nr id Hnum Hok) as Hc.
    destruct (resolve_all_keeps_cached client_Get decode later _ id _ Hc) as [Hc' Hcalls].
    split; [exact Hcalls|]. now apply Resolve_cached. }
  split.
  { intros ids id.
    apply (answered_once_resolve_all client_Get decode ids _
             (answered_once_start client_Get decode)). }
  split.
  { intros nr id e He.
    destruct (Resolve_step client_Get decode nr id)
      as [->|(_ & _ & _ & [(_ & H & _)|(_ & H & _)])]; [reflexivity | exact H | congruence]. }
  split; [apply run_alone |].
  split.
  { intros schedule nr calls id Hnum Hid Hcalls after. subst after.
    assert (name_service_calls.lookup nr id
            = name_service_calls.Returned (name_service.NameInfo_echo id) None) as Hanswer.
    { unfold name_service_calls.lookup.
      destruct (String.eqb_spec id ""); [contradiction |]. rewrite Hnum. reflexivity. }
    destruct (run_quiet client_Get decode schedule nr calls id _ Hanswer eq_refl Hcalls)
      as (_ & Hsame & Hserved).
    split; [exact Hsame |]. intros j Hj.
    destruct (Hserved j _ Hj (or_introl eq_refl)) as (c' & -> & [-> | ->]); auto. }
  split.
  { intros schedule nr calls id info Hnum Hcached Hcalls after. subst after.
    assert (forall nr', name_service.cache nr' !! id = Some info <->
                        name_service_calls.lookup nr' id
                        = name_service_calls.Returned info None) as Hanswer.
    { intros nr'. unfold name_service_calls.lookup.
      destruct (String.eqb_spec id "") as [-> | _]; [discriminate Hnum |].
      rewrite Hnum. cbn [negb].
      destruct (name_service.cache nr' !! id); split; congruence. }
    destruct (run_quiet client_Get decode schedule nr calls id _
                (proj1 (Hanswer nr) Hcached) eq_refl Hcalls)
      as (Hlookup & Hsame & Hserved).
    split; [exact Hsame |]. split; [apply Hanswer; exact Hlookup |]. intros j Hj.
    destruct (Hserved j _ Hj (or_introl eq_refl)) as (c' & -> & [-> | ->]); auto. }
  split.
  { intros schedule nr calls id Hnum Hcached after. subst after.
    destruct (run_cached client_Get decode schedule nr calls id Hnum Hcached)
      as (Hstill & Hle & Hserved).
    split; [exact Hstill |]. split; [exact Hle |]. intros j Hj.
    destruct (Hserved j _ Hj (or_introl eq_refl)) as (c' & -> & [-> | (info & ->)]); eauto. }
  split; [intros schedule nr calls id; apply run_asks |].
  intros nr id Hnum Hnone. split.
  - unfold name_service_calls.lookup.
    destruct (String.eqb_spec id "") as [-> | _]; [discriminate Hnum |].
    rewrite Hnum, Hnone. reflexivity.
  - intros later. cbn [name_service_calls.step].
    apply (request_spec client_Get decode later id).
Qed.

(** With a name service that answers, the id 1001 resolved three times
    among others is asked for once. *)
Lemma name_resolution_witness :
  let first :=
    name_service.Resolve Samples.reachable Samples.decode_known
      name_service.GetNameResolver "1001" in
  let after :=
    name_service.resolve_all Samples.reachable Samples.decode_known (snd first)
      ["77"; "1001"; "tidb-prod"] in
  name_service.calls_for "1001" after = 1%nat
  /\ name_service.Name (fst (fst first)) = "prod-cluster"
  /\ name_service.Resolve Samples.reachable Samples.decode_known after "1001"
     = (fst (fst first), None, after).
Proof.
  intros first after.
  destruct (name_resolution Samples.reachable Samples.decode_known) as (_ & H & _).
  destruct (H name_service.GetNameResolver "1001" ["77"; "1001"; "tidb-prod"]
              eq_refl eq_refl) as [Hcalls Hagain].
  split; [etransitivity; [exact Hcalls | reflexivity]|].
  split; [reflexivity | exact Hagain].
Defined.

(** Two calls for the id 1001 that both read the cache before either
    has its answer: two requests, both answered with a name. *)
Example overlapping_calls_both_ask :
  let st :=
    name_service_calls.run Samples.reachable Samples.decode_known [0; 1; 0; 1; 0; 1]%nat
      (name_service.GetNameResolver,
       [name_service_calls.Begun "1001"; name_service_calls.Begun "1001"]) in
  name_service.calls_for "1001" (fst st) = 2%nat
  /\ name_service.successes Samples.reachable Samples.decode_known
       (name_service.name_url "1001") (name_service.requests (fst st)) = 2%nat
  /\ exists info,
       snd st = [name_service_calls.Returned info None; name_service_calls.Returned info None]
       /\ name_service.Name info = "prod-cluster".
Proof.
  cbv zeta. split; [vm_compute; reflexivity |]. split; [vm_compute; reflexivity |].
  eexists. split; vm_compute; reflexivity.
Qed.

(** ** Storing a ticket *)

Section StoreFacts.
Import data_updater.

Lemma filter_none {A : Type} (p : A -> bool) (l : list A) :
  (forall x, In x l -> p x = false) -> List.filter p l = [].
Proof.
  induction l as [|x l IH]; intros H; cbn; [reflexivity|].
  rewrite (H x (or_introl eq_refl)). apply IH. intros y Hy. apply H. now right.
Qed.

Lemma insert_or_replace_key (data : IssueData) (rows : list IssueData) :
  List.filter (has_key (ID data)) (insert_or_replace data rows) = [data].
Proof.
  unfold insert_or_replace. rewrite List.filter_app. cbn.
  unfold has_key at 2. rewrite String.eqb_refl.
  rewrite filter_none; [reflexivity|].
  intros row Hrow. apply filter_In in Hrow as [_ Hne].
  unfold has_key. now apply negb_true_iff in Hne.
Qed.

Lemma insert_or_replace_other (key : string) (data : IssueData) (rows : list IssueData) :
  ID data <> key ->
  List.filter (has_key key) (insert_or_replace data rows) = List.filter (has_key key) rows.
Proof.
  intros Hne. unfold insert_or_replace. rewrite List.filter_app. cbn.
  unfold has_key at 2. destruct (String.eqb_spec (ID data) key) as [|_]; [contradiction|].
  rewrite app_nil_r. induction rows as [|row rows IH]; cbn; [reflexivity|].
  destruct (String.eqb_spec (ID row) (ID data)) as [E|_]; cbn.
  - unfold has_key at 2. rewrite E.
    destruct (String.eqb_spec (ID data) key) as [|_]; [contradiction | exact IH].
  - destruct (has_key key row); [now rewrite IH | exact IH].
Qed.

Lemma NoDup_map_filter {A B : Type} (f : A -> B) (p : A -> bool) (l : list A) :
  NoDup (map f l) -> NoDup (map f (List.filter p l)).
Proof.
  induction l as [|x l IH]; cbn; intros H; [constructor|].
  apply NoDup_cons in H as [Hx Hl].
  destruct (p x); cbn; [|now apply IH].
  apply NoDup_cons. split; [|now apply IH].
  intros Hin. apply Hx. apply list_elem_of_In in Hin. apply list_elem_of_In.
  apply in_map_iff in Hin as (y & Hy & Hin).
  apply filter_In in Hin as [Hin _]. apply in_map_iff. eauto.
Qed.

Lemma insert_or_replace_NoDup (data : IssueData) (rows : list IssueData) :
  NoDup (map ID rows) -> NoDup (map ID (insert_or_replace data rows)).
Proof.
  intros H. unfold insert_or_replace. rewrite map_app. cbn.
  apply NoDup_app. split; [now apply NoDup_map_filter|].
  split; [|apply NoDup_singleton].
  intros key Hin Hin'. apply list_elem_of_In in Hin, Hin'.
  destruct Hin' as [<-|[]]. apply in_map_iff in Hin as (row & Hid & Hrow).
  apply filter_In in Hrow as [_ Hne]. apply negb_true_iff in Hne.
  apply String.eqb_neq in Hne. contradiction.
Qed.

Context {RT : GoLib.Runtime}.
Variable client_Get : nat -> string -> name_service.GetOutcome.
Variable decode : string -> option name_service.nameApiResponse.
Variable db_Exec : nat -> bool.

Local Abbreviation extractIssueData := (data_updater.extractIssueData client_Get decode).
Local Abbreviation processIssue := (data_updater.processIssue client_Get decode db_Exec).
Local Abbreviation process_all := (data_updater.process_all client_Get decode db_Exec).

Lemma extracted_ID (nr : name_service.NameResolver) (issue : jira_client.JiraIssue) :
  ID (fst (extractIssueData nr issue)) = jira_client.Key issue.
Proof. reflexivity. Qed.

(** One ticket processed: the rows of the table afterwards. *)
Lemma processIssue_rows (st : State) (issue : jira_client.JiraIssue) :
  issues (database (snd (processIssue st issue)))
  = if fst (processIssue st issue)
    then insert_or_replace (fst (extractIssueData (resolver st) issue))
           (issues (database st))
    else issues (database st).
Proof.
  unfold data_updater.processIssue, insertOrUpdateIssue.
  destruct (data_updater.extractIssueData _ _ _ _) as [data nr].
  destruct (db_Exec _); reflexivity.
Qed.

Lemma processIssue_resolver (st : State) (issue : jira_client.JiraIssue) :
  resolver (snd (processIssue st issue)) = snd (extractIssueData (resolver st) issue).
Proof.
  unfold data_updater.processIssue, insertOrUpdateIssue.
  destruct (data_updater.extractIssueData _ _ _ _) as [data nr].
  destruct (db_Exec _); reflexivity.
Qed.

Lemma processIssue_NoDup (st : State) (issue : jira_client.JiraIssue) :
  NoDup (map ID (issues (database st))) ->
  NoDup (map ID (issues (database (snd (processIssue st issue))))).
Proof.
  intros H. rewrite processIssue_rows.
  destruct (fst _); [now apply insert_or_replace_NoDup | exact H].
Qed.

Lemma process_all_cons (issue : jira_client.JiraIssue)
    (tickets : list jira_client.JiraIssue) (st : State) (n : Z) :
  process_all st n (issue :: tickets)
  = process_all (snd (processIssue st issue))
      (if fst (processIssue st issue) then n + 1 else n) tickets.
Proof.
  cbn [data_updater.process_all].
  now destruct (data_updater.processIssue _ _ _ st issue) as [ok st'].
Qed.

Lemma process_all_NoDup (tickets : list jira_client.JiraIssue) (st : State) (n : Z) :
  NoDup (map ID (issues (database st))) ->
  NoDup (map ID (issues (database (snd (process_all st n tickets))))).
Proof.
  revert st n. induction tickets as [|issue tickets IH]; intros st n H; [exact H|].
  rewrite process_all_cons. apply IH, processIssue_NoDup, H.
Qed.

Lemma NoDup_one_row (key : string) (rows : list IssueData) :
  NoDup (map ID rows) -> (List.length (List.filter (has_key key) rows) <= 1)%nat.
Proof.
  induction rows as [|row rows IH]; cbn; intros H; [lia|].
  apply NoDup_cons in H as [Hrow Hrows].
  unfold has_key at 1. destruct (String.eqb_spec (ID row) key) as [E|_]; [|now apply IH].
  cbn. rewrite filter_none; [cbn; lia|].
  intros other Hother. unfold has_key. apply String.eqb_neq. intros E'.
  apply Hrow. apply list_elem_of_In, in_map_iff.
  exists other. split; [congruence | exact Hother].
Qed.

End StoreFacts.

(** C3: whatever tickets were processed before, starting from an empty
    table, no key has more than one row; and when a ticket is processed
    twice the table ends with one row of its key if either statement
    succeeded, which holds what the second extraction derived when the
    second statement succeeded (and what the first derived when only the
    first did). *)
Theorem ingest_twice_one_record {RT : GoLib.Runtime}
    (client_Get : nat -> string -> name_service.GetOutcome)
    (decode : string -> option name_service.nameApiResponse)
    (db_Exec : nat -> bool)
    (earlier : list jira_client.JiraIssue) (issue : jira_client.JiraIssue)
    (executed : nat) (nr : name_service.NameResolver) :
  let extract := data_updater.extractIssueData client_Get decode in
  let process := data_updater.processIssue client_Get decode db_Exec in
  let empty := data_updater.mkState (data_updater.mkDatabase [] executed) nr in
  let st := snd (data_updater.process_all client_Get decode db_Exec empty 0 earlier) in
  let first := process st issue in
  let second := process (snd first) issue in
  let rows st' := data_updater.issues (data_updater.database st') in
  let of_key st' := List.filter (data_updater.has_key (jira_client.Key issue)) (rows st') in
  (forall key,
     (List.length (List.filter (data_updater.has_key key) (rows (snd second))) <= 1)%nat)
  /\ NoDup (map data_updater.ID (rows (snd second)))
  /\ of_key (snd second)
     = if fst second
       then [fst (extract (data_updater.resolver (snd first)) issue)]
       else if fst first
            then [fst (extract (data_updater.resolver st) issue)]
            else of_key st.
Proof.
  intros extract process empty st first second rows of_key.
  assert (Hst : NoDup (map data_updater.ID (rows st))).
  { apply process_all_NoDup. constructor. }
  assert (H1 : NoDup (map data_updater.ID (rows (snd first))))
    by now apply processIssue_NoDup.
  assert (H2 : NoDup (map data_updater.ID (rows (snd second))))
    by now apply processIssue_NoDup.
  split; [intros key; now apply NoDup_one_row|].
  split; [exact H2|].
  subst of_key rows second process. cbn beta.
  rewrite processIssue_rows. destruct (fst (data_updater.processIssue _ _ _ (snd first) issue)).
  - rewrite <- (extracted_ID client_Get decode (data_updater.resolver (snd first)) issue).
    apply insert_or_replace_key.
  - subst first. rewrite processIssue_rows.
    destruct (fst (data_updater.processIssue _ _ _ st issue)); [|reflexivity].
    rewrite <- (extracted_ID client_Get decode (data_updater.resolver st) issue).
    apply insert_or_replace_key.
Qed.

(** ** Pagination *)

Section PaginationFacts.
Import jira_client.
Context {RT : GoLib.Runtime}.
Variable SearchV2JQL : nat -> string -> Z -> string -> option (list jira_Issue * string).
Variable jql : string.
Variable pageSize : Z.

Local Abbreviation pages := (jira_client.pages SearchV2JQL).

(** The request sent after those of [sent_] has their number as its
    index in the order of sending. *)
Lemma lookup_sent (rest sent_ : list string) (token : string) :
  reverse (rest ++ token :: sent_) !! List.length sent_ = Some token.
Proof.
  rewrite reverse_app, reverse_cons, <- app_assoc.
  rewrite lookup_app_r by (rewrite length_reverse; lia).
  rewrite length_reverse, Nat.sub_diag. reflexivity.
Qed.

Lemma pages_run (fuel : nat) :
  forall (allIssues : list JiraIssue) (token : string) (sent_ : list string),
    (List.length sent_ <= 500)%nat ->
    (500 < fuel + List.length sent_)%nat ->
    let run := pages fuel jql pageSize allIssues token (Z.of_nat (List.length sent_)) sent_ in
    result run <> Unfinished
    /\ (List.length (sent run) <= 500)%nat
    /\ (exists rest, sent run = (rest ++ sent_)%list)
    /\ (forall k tk,
          (List.length sent_ <= k)%nat ->
          reverse (sent run) !! k = Some tk ->
          match SearchV2JQL k jql pageSize tk with
          | None =>
              List.length (sent run) = S k /\ result run = SearchError (Z.of_nat (S k))
          | Some (_, next) =>
              next = "" \/ next = tk ->
              List.length (sent run) = S k /\ exists all, result run = Issues all
          end)
    /\ pages (S fuel) jql pageSize allIssues token (Z.of_nat (List.length sent_)) sent_ = run.
Proof.
  induction fuel as [|fuel IH]; intros allIssues token sent_ Hlen Hfuel; [lia|].
  set (n := List.length sent_) in *.
  cbn zeta. cbn [jira_client.pages].
  unfold maxPages. fold n.
  destruct (Z.ltb_spec 500 (Z.of_nat n + 1)) as [Hmax|Hmax].
  { (* the page limit *)
    cbn [result sent].
    split; [discriminate|]. split; [exact Hlen|].
    split; [exists []; reflexivity|]. split; [|reflexivity].
    intros k tk Hk Hlook. apply lookup_lt_Some in Hlook.
    rewrite length_reverse in Hlook. fold n in Hlook. lia. }
  assert (Hn : (n < 500)%nat) by lia.
  assert (Hlast : forall k tk,
             (n <= k)%nat -> reverse (token :: sent_) !! k = Some tk ->
             k = n /\ tk = token).
  { intros k tk Hk Hlook.
    assert (k = n) as ->.
    { apply lookup_lt_Some in Hlook. rewrite length_reverse in Hlook.
      cbn [List.length] in Hlook. fold n in Hlook. lia. }
    pose proof (lookup_sent [] sent_ token) as Hs. cbn [app] in Hs. fold n in Hs.
    split; congruence. }
  assert (Hone : List.length (token :: sent_) = S n) by reflexivity.
  destruct (SearchV2JQL n jql pageSize token) as [[issues next]|] eqn:Hanswer.
  2:{ (* the request fails *)
    cbn [result sent].
    split; [discriminate|]. split; [rewrite Hone; lia|].
    split; [exists [token]; reflexivity|]. split; [|reflexivity].
    intros k tk Hk Hlook. destruct (Hlast k tk Hk Hlook) as [-> ->].
    rewrite Hanswer. split; [exact Hone|]. f_equal. lia. }
  (* a page arrives *)
  destruct (String.eqb_spec next "") as [Hempty|Hnonempty].
  { cbn [result sent].
    split; [discriminate|]. split; [rewrite Hone; lia|].
    split; [exists [token]; reflexivity|]. split; [|reflexivity].
    intros k tk Hk Hlook. destruct (Hlast k tk Hk Hlook) as [-> ->].
    rewrite Hanswer. intros _. split; [exact Hone | eauto]. }
  destruct (String.eqb_spec next token) as [Hsame|Hother].
  { cbn [result sent].
    split; [discriminate|]. split; [rewrite Hone; lia|].
    split; [exists [token]; reflexivity|]. split; [|reflexivity].
    intros k tk Hk Hlook. destruct (Hlast k tk Hk Hlook) as [-> ->].
    rewrite Hanswer. intros _. split; [exact Hone | eauto]. }
  (* the loop goes on *)
  assert (Hnext : Z.of_nat n + 1 = Z.of_nat (List.length (token :: sent_)))
    by (rewrite Hone; lia).
  rewrite Hnext.
  specialize (IH (allIssues ++ map (convert (RT := RT)) issues)%list next (token :: sent_)).
  cbn zeta in IH.
  destruct IH as (Hres & Hbound & [rest Hrest] & Hstops & Hmore).
  { rewrite Hone. lia. }
  { rewrite Hone. lia. }
  split; [exact Hres|]. split; [exact Hbound|].
  split.
  { exists (rest ++ [token])%list. rewrite Hrest, <- app_assoc. reflexivity. }
  split.
  - intros k tk Hk Hlook.
    destruct (Nat.eq_dec k n) as [->|Hkn].
    + rewrite Hrest in Hlook. pose proof (lookup_sent rest sent_ token) as Hs.
      fold n in Hs. assert (tk = token) as -> by congruence.
      rewrite Hanswer. intros [?|?]; congruence.
    + apply Hstops; [rewrite Hone; lia | exact Hlook].
  - exact Hmore.
Qed.

Lemma pages_collected (fuel : nat) :
  forall (allIssues : list JiraIssue) (token : string) (sent_ : list string),
    let run := pages fuel jql pageSize allIssues token (Z.of_nat (List.length sent_)) sent_ in
    exists rest,
      sent run = (rest ++ sent_)%list
      /\ forall all,
           result run = Issues all ->
           all = (allIssues
                  ++ jira_client.collected SearchV2JQL jql pageSize (List.length sent_)
                       (reverse rest))%list.
Proof.
  induction fuel as [|fuel IH]; intros allIssues token sent_; cbn zeta.
  { exists []. split; [reflexivity | discriminate]. }
  cbn [jira_client.pages].
  destruct (Z.ltb maxPages (Z.of_nat (List.length sent_) + 1)).
  { exists []. split; [reflexivity|]. cbn [result]. intros all [= <-].
    now rewrite app_nil_r. }
  destruct (SearchV2JQL (List.length sent_) jql pageSize token) as [[issues next]|] eqn:Hanswer.
  2:{ exists [token]. split; [reflexivity | discriminate]. }
  assert (Hpage : jira_client.collected SearchV2JQL jql pageSize (List.length sent_) [token]
                  = map (convert (RT := RT)) issues).
  { cbn [jira_client.collected]. rewrite Hanswer. apply app_nil_r. }
  destruct (String.eqb next "").
  { exists [token]. split; [reflexivity|]. cbn [result]. intros all [= <-].
    change (reverse [token]) with [token]. now rewrite Hpage. }
  destruct (String.eqb next token).
  { exists [token]. split; [reflexivity|]. cbn [result]. intros all [= <-].
    change (reverse [token]) with [token]. now rewrite Hpage. }
  replace (Z.of_nat (List.length sent_) + 1) with (Z.of_nat (List.length (token :: sent_)))
    by (cbn [List.length]; lia).
  destruct (IH (allIssues ++ map (convert (RT := RT)) issues)%list next (token :: sent_))
    as (rest & Hrest & Hall).
  exists (rest ++ [token])%list. split; [rewrite Hrest, <- app_assoc; reflexivity|].
  intros all Hresult. rewrite (Hall all Hresult), reverse_app.
  change (reverse [token]) with [token]. cbn [app jira_client.collected List.length].
  rewrite Hanswer, <- app_assoc. reflexivity.
Qed.

Lemma pages_more_fuel (extra fuel : nat) (allIssues : list JiraIssue) (token : string)
    (sent_ : list string) :
  (List.length sent_ <= 500)%nat ->
  (500 < fuel + List.length sent_)%nat ->
  pages (extra + fuel) jql pageSize allIssues token (Z.of_nat (List.length sent_)) sent_
  = pages fuel jql pageSize allIssues token (Z.of_nat (List.length sent_)) sent_.
Proof.
  intros Hlen Hfuel. induction extra as [|extra IH]; [reflexivity|].
  cbn [Nat.add]. rewrite <- IH.
  apply (pages_run (extra + fuel) allIssues token sent_ Hlen). lia.
Qed.

End PaginationFacts.

(** C6: [SearchAllIssues] ends, whatever the tracker answers: the model
    needs no more fuel than one iteration above the page limit, and more
    fuel changes nothing.  It sends at most 500 requests.  A request
    that fails is the last one and the search ends in that error; a
    request answered with an empty token, or with the token it was sent
    with, is the last one and the search returns tickets; and the
    tickets returned are those of all the pages that came back, in the
    order of the requests. *)
Theorem pagination_terminates {RT : GoLib.Runtime}
    (SearchV2JQL : nat -> string -> Z -> string -> option (list jira_client.jira_Issue * string))
    (jql : string) (pageSize : Z) :
  let run := jira_client.SearchAllIssues SearchV2JQL jql pageSize in
  let size := if Z.leb pageSize 0 then 100 else pageSize in
  jira_client.result run <> jira_client.Unfinished
  /\ (forall fuel,
        (S (Z.to_nat jira_client.maxPages) <= fuel)%nat ->
        jira_client.SearchAllIssues_fuel SearchV2JQL fuel jql pageSize = run)
  /\ (List.length (jira_client.sent run) <= 500)%nat
  /\ (forall k token,
        reverse (jira_client.sent run) !! k = Some token ->
        match SearchV2JQL k jql size token with
        | None =>
            List.length (jira_client.sent run) = S k
            /\ jira_client.result run = jira_client.SearchError (Z.of_nat (S k))
        | Some (_, next) =>
            next = "" \/ next = token ->
            List.length (jira_client.sent run) = S k
            /\ exists all, jira_client.result run = jira_client.Issues all
        end)
  /\ (forall all,
        jira_client.result run = jira_client.Issues all ->
        all = jira_client.collected SearchV2JQL jql size 0
                (reverse (jira_client.sent run))).
Proof.
  intros run size. subst run.
  unfold jira_client.SearchAllIssues, jira_client.SearchAllIssues_fuel. fold size.
  change 0 with (Z.of_nat (List.length (@nil string))).
  assert (Hfuel : S (Z.to_nat jira_client.maxPages) = 501%nat) by reflexivity.
  rewrite Hfuel.
  destruct (pages_run SearchV2JQL jql size 501 [] "" [])
    as (Hres & Hbound & _ & Hstops & _); [cbn; lia | cbn; lia |].
  split; [exact Hres|]. split.
  - intros fuel Hle.
    replace fuel with ((fuel - 501) + 501)%nat by lia.
    apply pages_more_fuel; cbn; lia.
  - split; [exact Hbound|]. split.
    + intros k token Hlook. apply Hstops; [cbn; lia | exact Hlook].
    + destruct (pages_collected SearchV2JQL jql size 501 [] "" []) as (rest & Hrest & Hall).
      cbn zeta in Hrest, Hall. rewrite Hrest, app_nil_r. exact Hall.
Qed.

(** A tracker stuck on the token "A" is asked twice; one that answers "A"
    and "B" in turn is asked 500 times. *)
Example stuck_token_two_requests :
  let stuck : nat -> string -> Z -> string -> option (list jira_client.jira_Issue * string) :=
    fun _ _ _ _ => Some ([], "A") in
  jira_client.sent
    (jira_client.SearchAllIssues (RT := SampleRuntime.runtime) stuck "project = O11Y" 100)
  = ["A"; ""].
Proof. vm_compute. reflexivity. Qed.

Example cycle_of_two_tokens_500_requests :
  let cycle : nat -> string -> Z -> string -> option (list jira_client.jira_Issue * string) :=
    fun _ _ _ token => Some ([], if String.eqb token "A" then "B" else "A") in
  let run :=
    jira_client.SearchAllIssues (RT := SampleRuntime.runtime) cycle "project = O11Y" 100 in
  List.length (jira_client.sent run) = 500%nat
  /\ jira_client.result run = jira_client.Issues [].
Proof. vm_compute. split; reflexivity. Qed.

(** ** The window of an incremental update *)

Section TextOrder.
Import Sqlite.

Lemma text_compare_refl (a : string) : text_compare a a = Eq.
Proof.
  induction a as [|c a IH]; cbn; [reflexivity|].
  now rewrite Nat.compare_refl.
Qed.

Lemma text_compare_opp (a b : string) : text_compare b a = CompOpp (text_compare a b).
Proof.
  revert b. induction a as [|x a IH]; intros [|y b]; cbn; try reflexivity.
  rewrite (Nat.compare_antisym (nat_of_ascii x) (nat_of_ascii y)).
  destruct (Nat.compare (nat_of_ascii x) (nat_of_ascii y)); cbn; auto.
Qed.

Lemma text_leb_refl (a : string) : text_leb a a = true.
Proof. unfold text_leb. now rewrite text_compare_refl. Qed.

Lemma text_leb_total (a b : string) : text_leb a b = false -> text_leb b a = true.
Proof.
  unfold text_leb. rewrite (text_compare_opp a b).
  destruct (text_compare a b); cbn; congruence.
Qed.

Lemma text_compare_trans (c : comparison) (a b d : string) :
  text_compare a b = c -> text_compare b d = c -> text_compare a d = c.
Proof.
  revert b d. induction a as [|x a IH]; intros [|y b] [|z d]; cbn; try congruence.
  destruct (Nat.compare_spec (nat_of_ascii x) (nat_of_ascii y)) as [Exy|Lxy|Gxy];
    destruct (Nat.compare_spec (nat_of_ascii y) (nat_of_ascii z)) as [Eyz|Lyz|Gyz];
    destruct (Nat.compare_spec (nat_of_ascii x) (nat_of_ascii z)) as [Exz|Lxz|Gxz];
    try lia; try congruence; eauto.
Qed.

Lemma text_compare_eq (a b : string) : text_compare a b = Eq -> a = b.
Proof.
  revert b. induction a as [|x a IH]; intros [|y b]; cbn; try congruence.
  destruct (Nat.compare_spec (nat_of_ascii x) (nat_of_ascii y)) as [E|L|G];
    try discriminate.
  intros H. f_equal; [|now apply IH].
  rewrite <- (ascii_nat_embedding x), <- (ascii_nat_embedding y). now rewrite E.
Qed.

Lemma text_leb_trans (a b d : string) :
  text_leb a b = true -> text_leb b d = true -> text_leb a d = true.
Proof.
  unfold text_leb.
  destruct (text_compare a b) eqn:Eab; try discriminate;
    destruct (text_compare b d) eqn:Ebd; try discriminate; intros _ _.
  - apply text_compare_eq in Eab, Ebd. subst. now rewrite text_compare_refl.
  - apply text_compare_eq in Eab. subst. now rewrite Ebd.
  - apply text_compare_eq in Ebd. subst. now rewrite Eab.
  - now rewrite (text_compare_trans Lt a b d Eab Ebd).
Qed.

End TextOrder.

Section WindowFacts.
Import GoLib data_updater.
Context {RT : Runtime}.

(** [MAX(created)] is the stamp of a row, and no stamp is above it. *)
Lemma max_created_spec (rows : list IssueData) (latest : string) :
  max_created rows = Some latest ->
  (exists row, In row rows /\ Created row = latest)
  /\ (forall row, In row rows -> Sqlite.text_leb (Created row) latest = true).
Proof.
  revert latest. induction rows as [|r rows IH]; intros latest; cbn; [discriminate|].
  destruct (max_created rows) as [m|] eqn:Hm.
  - destruct (IH m eq_refl) as [(row & Hin & Hrow) Hall].
    destruct (Sqlite.text_leb m (Created r)) eqn:Hle; intros [= <-].
    + split; [exists r; auto|].
      intros row' [<-|Hin']; [apply text_leb_refl|].
      eapply text_leb_trans; [apply Hall, Hin' | exact Hle].
    + split; [exists row; auto|].
      intros row' [<-|Hin']; [now apply text_leb_total | now apply Hall].
  - intros [= <-]. destruct rows as [|r' rows]; [|cbn in Hm; destruct (max_created rows);
      [destruct (Sqlite.text_leb _ _)|]; discriminate].
    split; [exists r; auto|]. intros row' [<-|[]]. apply text_leb_refl.
Qed.

Lemma max_created_none (rows : list IssueData) : max_created rows = None <-> rows = [].
Proof.
  split; [|intros ->; reflexivity].
  destruct rows as [|r rows]; [reflexivity|]. cbn.
  destruct (max_created rows); [destruct (Sqlite.text_leb _ _)|]; discriminate.
Qed.

(** A latest stamp that does not read as a time ends the update in an
    error, before any search. *)
Lemma window_of_unreadable_stamp (time_Now : nat -> Time) (st : State) (latest : string) :
  max_created (issues (database st)) = Some latest ->
  time_Parse "2006-01-02 15:04:05" (GoStrings.TrimSuffix latest " UTC") = None ->
  IncrementalUpdate_window true true time_Now st = inl ErrParseLatest.
Proof.
  intros Hmax Hparse. unfold IncrementalUpdate_window. cbn [negb].
  now rewrite Hmax, Hparse.
Qed.

(** Without a connection nothing is searched. *)
Lemma no_window_without_connection (db_QueryRow : bool) (time_Now : nat -> Time)
    (st : State) :
  IncrementalUpdate_window false db_QueryRow time_Now st = inl ErrConnection.
Proof. reflexivity. Qed.

End WindowFacts.

(** C7: once the connection test and the query of the latest date have
    succeeded, an incremental update over an empty store searches from 30
    days before the clock's reading to the next reading of the clock; and
    over a store whose stamps all read as times, in the order of their
    text, it searches from one second after the latest of these times to
    the reading of the clock. *)
Theorem incremental_window {RT : GoLib.Runtime}
    (time_Now : nat -> GoLib.Time) (st : data_updater.State) :
  let rows := data_updater.issues (data_updater.database st) in
  let window := data_updater.IncrementalUpdate_window true true time_Now st in
  (rows = [] ->
   window = inr (GoLib.AddDays (GoLib.UTC (time_Now 0%nat)) (-30),
                 GoLib.UTC (time_Now 1%nat)))
  /\ (rows <> [] ->
      (forall row, In row rows -> is_Some (data_updater.created_time row)) ->
      (forall r1 r2 t1 t2,
         In r1 rows -> In r2 rows ->
         data_updater.created_time r1 = Some t1 ->
         data_updater.created_time r2 = Some t2 ->
         Sqlite.text_leb (data_updater.Created r1) (data_updater.Created r2) = true ->
         GoLib.instant t1 <= GoLib.instant t2) ->
      exists latest t,
        In latest rows
        /\ data_updater.created_time latest = Some t
        /\ (forall row t', In row rows -> data_updater.created_time row = Some t' ->
                           GoLib.instant t' <= GoLib.instant t)
        /\ window = inr (GoLib.Add t GoLib.Second, GoLib.UTC (time_Now 0%nat))
        /\ GoLib.instant (GoLib.Add t GoLib.Second) = GoLib.instant t + 1000000000).
Proof.
  intros rows window. subst window. unfold data_updater.IncrementalUpdate_window.
  cbn [negb]. fold rows. split.
  - intros ->. reflexivity.
  - intros Hrows Hparse Hmono.
    destruct (data_updater.max_created rows) as [latestDate|] eqn:Hmax.
    2:{ apply max_created_none in Hmax. contradiction. }
    destruct (max_created_spec rows latestDate Hmax) as [(latest & Hin & Hstamp) Hall].
    destruct (Hparse latest Hin) as [t Ht].
    exists latest, t. split; [exact Hin|]. split; [exact Ht|]. split.
    + intros row t' Hrow Ht'. apply (Hmono row latest t' t Hrow Hin Ht' Ht).
      rewrite Hstamp. now apply Hall.
    + unfold data_updater.created_time in Ht. rewrite Hstamp in Ht. rewrite Ht.
      split; reflexivity.
Qed.

(** A store of two alerts, of 10 and of 15 January 2025, on 1 February:
    the search starts one second after the stamp of 15 January. *)
Lemma incremental_window_witness :
  let rows :=
    [Samples.alert_row "O11Y-1" "alert: disk" "2025-01-15 10:30:45 UTC" "[]" "dedicated" "yes";
     Samples.alert_row "O11Y-2" "alert: cpu" "2025-01-10 08:00:00 UTC" "[]" "dedicated" "yes"] in
  let st :=
    data_updater.mkState (data_updater.mkDatabase rows 2) name_service.GetNameResolver in
  let now := fun _ : nat => SampleRuntime.midnight 2025 2 1 in
  exists latest t,
    In latest rows
    /\ data_updater.created_time (RT := SampleRuntime.runtime) latest = Some t
    /\ (forall row t',
          In row rows ->
          data_updater.created_time (RT := SampleRuntime.runtime) row = Some t' ->
          GoLib.instant t' <= GoLib.instant t)
    /\ data_updater.IncrementalUpdate_window (RT := SampleRuntime.runtime) true true now st
       = inr (GoLib.Add t GoLib.Second, GoLib.UTC (now 0%nat))
    /\ GoLib.instant (GoLib.Add t GoLib.Second) = GoLib.instant t + 1000000000.
Proof.
  intros rows st now.
  apply (proj2 (incremental_window (RT := SampleRuntime.runtime) now st)).
  - discriminate.
  - intros row [<-|[<-|[]]]; vm_compute; eauto.
  - intros r1 r2 t1 t2 [<-|[<-|[]]] [<-|[<-|[]]] H1 H2 Hle;
      vm_compute in H1, H2, Hle;
      injection H1 as <-; injection H2 as <-; cbn; try lia; discriminate.
Defined.

Example window_stamps_on_a_sample_store :
  let rows :=
    [Samples.alert_row "O11Y-1" "alert: disk" "2025-01-15 10:30:45 UTC" "[]" "dedicated" "yes";
     Samples.alert_row "O11Y-2" "alert: cpu" "2025-01-10 08:00:00 UTC" "[]" "dedicated" "yes"] in
  let now := fun _ : nat => SampleRuntime.midnight 2025 2 1 in
  let stamps (w : data_updater.error + GoLib.Time * GoLib.Time) :=
    match w with
    | inr (startDate, endDate) =>
        Some (SampleRuntime.format startDate "2006-01-02 15:04:05",
              SampleRuntime.format endDate "2006-01-02 15:04:05")
    | inl _ => None
    end in
  stamps (data_updater.IncrementalUpdate_window (RT := SampleRuntime.runtime) true true now
            (data_updater.mkState (data_updater.mkDatabase rows 2)
               name_service.GetNameResolver))
  = Some ("2025-01-15 10:30:46", "2025-02-01 00:00:00")
  /\ stamps (data_updater.IncrementalUpdate_window (RT := SampleRuntime.runtime) true true now
               (data_updater.mkState (data_updater.mkDatabase [] 0)
                  name_service.GetNameResolver))
     = Some ("2025-01-02 00:00:00", "2025-02-01 00:00:00").
Proof. vm_compute. split; reflexivity. Qed.

(** A ticket that names its cluster, processed twice while the name
    service fails the first request and answers the second: the table
    holds one row, with the tenant that the second extraction resolved. *)
Lemma ingest_twice_one_record_witness :
  let flaky : nat -> string -> name_service.GetOutcome :=
    fun n _ =>
      match n with
      | O => name_service.GetError
      | S _ => name_service.GetResponse 200 (Some "ok")
      end in
  let issue :=
    Samples.ticket "O11Y-9" "alert: disk" "tidb_cluster_id=1001 is full"
      "2025-01-15T10:30:45.000+0000" in
  let process :=
    data_updater.processIssue (RT := SampleRuntime.runtime) flaky Samples.decode_known
      (fun _ => true) in
  let st :=
    data_updater.mkState (data_updater.mkDatabase [] 0) name_service.GetNameResolver in
  let first := process st issue in
  let second := process (snd first) issue in
  let rows st' := data_updater.issues (data_updater.database st') in
  map data_updater.TenantID (rows (snd first)) = [""]
  /\ map data_updater.TenantID (rows (snd second)) = ["42"]
  /\ List.filter (data_updater.has_key "O11Y-9") (rows (snd second))
     = [fst (data_updater.extractIssueData (RT := SampleRuntime.runtime) flaky
               Samples.decode_known (data_updater.resolver (snd first)) issue)].
Proof.
  intros flaky issue process st first second rows.
  split; [vm_compute; reflexivity|]. split; [vm_compute; reflexivity|].
  exact (proj2 (proj2 (ingest_twice_one_record (RT := SampleRuntime.runtime) flaky
                         Samples.decode_known (fun _ => true) [] issue 0
                         name_service.GetNameResolver))).
Defined.

(** On 1 February 2025, a store whose only alert is of March 2024 has no
    alert in either period of 30 days, and the four rates are 0. *)
Lemma rates_of_an_empty_period_witness :
  let old :=
    Samples.alert_row "O11Y-1" "alert: disk" "2024-03-15 10:30:45 UTC" "[]" "dedicated" "yes" in
  let store := models.mkStore [old] [] in
  let now := SampleRuntime.midnight 2025 2 1 in
  let resp :=
    components.GetComponentStats (RT := SampleRuntime.runtime) ∅ (fun _ => true) store now
      "old-rules" 30 "all" "" in
  (components.rate_current (components.fake_alarm_rate_stat resp) = GoNum.fzero
   /\ components.rate_current (components.handling_rate_stat resp) = GoNum.fzero)
  /\ (components.rate_previous (components.fake_alarm_rate_stat resp) = GoNum.fzero
      /\ components.rate_previous (components.handling_rate_stat resp) = GoNum.fzero).
Proof.
  intros old store now resp.
  destruct rates_of_an_empty_period as (_ & _ & _ & H).
  destruct (H SampleRuntime.runtime ∅ (fun _ => true) store now "old-rules" 30 "all" "")
    as [Hcur Hprev].
  split; [apply Hcur | apply Hprev]; vm_compute; reflexivity.
Defined.

(** * Further properties: the handlers, the updater and the rules *)

(** ** The issue list and the mute *)

Section ListingFacts.
Context {RT : GoLib.Runtime}.
Variable categoryMap : gmap string string.

(** The order of the list: [a] stands before [b] only if [b] was not
    created after [a]. *)
Local Abbreviation newest_first :=
  (fun a b : models.Issue =>
     Sqlite.text_leb (data_updater.Created b) (data_updater.Created a) = true).

Lemma insert_desc_sorted (i : models.Issue) (sorted : list models.Issue) :
  StronglySorted newest_first sorted ->
  StronglySorted newest_first (dashboard.insert_desc i sorted).
Proof.
  induction 1 as [|j rest Hrest IH Hj]; cbn [dashboard.insert_desc].
  - constructor; [constructor | constructor].
  - destruct (Sqlite.text_leb (data_updater.Created j) (data_updater.Created i)) eqn:Hji.
    + constructor; [constructor; assumption |].
      constructor; [exact Hji |].
      rewrite List.Forall_forall in Hj |- *. intros k Hk.
      cbv beta in *.
      apply (text_leb_trans _ (data_updater.Created j)); [apply Hj; exact Hk | exact Hji].
    + constructor; [exact IH |].
      rewrite List.Forall_forall in Hj |- *. intros k Hk.
      apply insert_desc_In in Hk as [-> | Hk]; [| apply Hj; exact Hk].
      cbv beta. apply text_leb_total. exact Hji.
Qed.

Lemma order_created_desc_sorted (rows : list models.Issue) :
  StronglySorted newest_first (dashboard.order_created_desc rows).
Proof.
  induction rows as [|i rows IH]; [constructor |].
  apply insert_desc_sorted. exact IH.
Qed.

Lemma StronglySorted_skipn {A : Type} (R : A -> A -> Prop) (n : nat) (l : list A) :
  StronglySorted R l -> StronglySorted R (skipn n l).
Proof.
  revert l. induction n as [|n IH]; intros l Hl; [exact Hl |].
  destruct l as [|x l]; [constructor |].
  cbn [skipn]. apply IH. inversion Hl; assumption.
Qed.

Lemma StronglySorted_firstn {A : Type} (R : A -> A -> Prop) (n : nat) (l : list A) :
  StronglySorted R l -> StronglySorted R (firstn n l).
Proof.
  revert l. induction n as [|n IH]; intros l Hl; [constructor |].
  destruct l as [|x l]; [constructor |].
  cbn [firstn]. inversion Hl as [|? ? Hs Hx]; subst.
  constructor; [apply IH; exact Hs |].
  rewrite List.Forall_forall in Hx |- *. intros k Hk. apply Hx.
  eapply In_firstn. exact Hk.
Qed.

Lemma not_muted_spec (muted : list models.MutedIssue) (i : models.Issue) :
  dashboard.not_muted muted i = true <->
  forall m, In m muted -> models.IssueID m <> data_updater.ID i.
Proof.
  unfold dashboard.not_muted. rewrite negb_true_iff. split.
  - intros Hno m Hm Heq.
    assert (List.existsb (fun m => String.eqb (models.IssueID m) (data_updater.ID i)) muted = true)
      as Hyes.
    { apply List.existsb_exists. exists m. split; [exact Hm |]. apply String.eqb_eq. exact Heq. }
    congruence.
  - intros Hall.
    destruct (List.existsb _ muted) eqn:Hex; [| reflexivity].
    apply List.existsb_exists in Hex as [m [Hm Heq]].
    apply String.eqb_eq in Heq. destruct (Hall m Hm Heq).
Qed.

Lemma listing_In (store : models.Store) (now : GoLib.Time) (days : Z) (envStr : string)
    (f : dashboard.Filters) (l : dashboard.ListFilters) (page pageSize : Z)
    (i : models.Issue) :
  In i (dashboard.GetDashboardIssues categoryMap store now days envStr f l page pageSize) ->
  In i (models.issues store)
  /\ dashboard.not_muted (models.muted_issues store) i = true
  /\ dashboard.where_issues categoryMap envStr f l
       (GoLib.time_Format (GoLib.AddDays now (- api.days_or_default days)) "2006-01-02 15:04:05")
       (GoLib.time_Format now "2006-01-02 15:04:05") i = true.
Proof.
  unfold dashboard.GetDashboardIssues. intros Hin.
  apply In_firstn, In_skipn, order_created_desc_In in Hin.
  apply List.filter_In in Hin as [Hin Hkept].
  apply andb_true_iff in Hkept as [Hm Hw]. auto.
Qed.

End ListingFacts.

(** X1: When the filter values that the handler writes into its query
    are plain, every issue that the issue list returns is a row of
    [issues] that is an alert, is not muted, passes the environment filter
    of the request and was created in the window of the last [days]
    days. *)
Theorem listed_issues_are_unmuted_alerts_in_window {RT : GoLib.Runtime}
    (categoryMap : gmap string string) (store : models.Store) (now : GoLib.Time)
    (days : Z) (envStr : string) (f : dashboard.Filters) (l : dashboard.ListFilters)
    (page pageSize : Z) :
  SqlText.plain_filters f = true ->
  SqlText.plain_priorities l = true ->
  let startDate :=
    GoLib.time_Format (GoLib.AddDays now (- (if Z.leb days 0 then 30 else days)))
      "2006-01-02 15:04:05" in
  let endDate := GoLib.time_Format now "2006-01-02 15:04:05" in
  List.Forall
    (fun i =>
       In i (models.issues store)
       /\ data_updater.IsAlert i = true
       /\ (forall m, In m (models.muted_issues store) ->
                     models.IssueID m <> data_updater.ID i)
       /\ dashboard.envCondition envStr i = true
       /\ Sqlite.between (Sqlite.REPLACE (data_updater.Created i) " UTC" "")
            startDate endDate = true)
    (dashboard.GetDashboardIssues categoryMap store now days envStr f l page pageSize).
Proof.
  intros _ _ startDate endDate. apply List.Forall_forall. intros i Hin.
  apply listing_In in Hin as [Hin [Hm Hw]].
  split; [exact Hin |].
  unfold dashboard.where_issues in Hw.
  repeat (apply andb_true_iff in Hw as [Hw ?]).
  split; [assumption |].
  split; [apply not_muted_spec; exact Hm |].
  split; assumption.
Qed.

(** Three alerts, one of them muted: the list of the signature
    "[PROD] alert: disk" is the one alert of that signature that is not
    muted. *)
Lemma listed_issues_are_unmuted_alerts_in_window_witness :
  let store :=
    models.mkStore
      [Samples.alert_row "O11Y-1" "[PROD] alert: disk" "2025-01-15 10:30:45 UTC" "[]"
         "dedicated" "yes";
       Samples.alert_row "O11Y-2" "[PROD] alert: disk" "2025-01-10 08:00:00 UTC" "[]"
         "dedicated" "yes";
       Samples.alert_row "O11Y-3" "[STG] alert: cpu" "2025-01-11 08:00:00 UTC" "[]"
         "dedicated" "yes"]
      [models.mkMuted "O11Y-2" "User muted via dashboard"] in
  let f := dashboard.mkFilters "" "" "[PROD] alert: disk" "" in
  let l := dashboard.mkListFilters "" "" ["Critical"; " Major"] in
  let rows :=
    dashboard.GetDashboardIssues (RT := SampleRuntime.runtime) ∅ store
      (SampleRuntime.midnight 2025 2 1) 30 "all" f l 1 50 in
  List.map data_updater.ID rows = ["O11Y-1"]
  /\ List.Forall
       (fun i =>
          In i (models.issues store)
          /\ data_updater.IsAlert i = true
          /\ (forall m, In m (models.muted_issues store) ->
                        models.IssueID m <> data_updater.ID i)
          /\ dashboard.envCondition "all" i = true
          /\ Sqlite.between (Sqlite.REPLACE (data_updater.Created i) " UTC" "")
               "2025-01-02 00:00:00" "2025-02-01 00:00:00" = true)
       rows.
Proof.
  intros store f l rows. split; [vm_compute; reflexivity |].
  exact (listed_issues_are_unmuted_alerts_in_window (RT := SampleRuntime.runtime) ∅ store
           (SampleRuntime.midnight 2025 2 1) 30 "all" f l 1 50 eq_refl eq_refl).
Defined.

(** X2: When the filter values that the handler writes into its query
    are plain, a page of the issue list has at most [page_size] rows, 50
    when the parameter is below 1, and its rows stand from the newest
    stamp of creation to the oldest. *)
Theorem issue_page_is_bounded_and_newest_first {RT : GoLib.Runtime}
    (categoryMap : gmap string string) (store : models.Store) (now : GoLib.Time)
    (days : Z) (envStr : string) (f : dashboard.Filters) (l : dashboard.ListFilters)
    (page pageSize : Z) :
  SqlText.plain_filters f = true ->
  SqlText.plain_priorities l = true ->
  let rows :=
    dashboard.GetDashboardIssues categoryMap store now days envStr f l page pageSize in
  Z.of_nat (List.length rows) <= (if Z.ltb pageSize 1 then 50 else pageSize)
  /\ StronglySorted
       (fun a b =>
          Sqlite.text_leb (data_updater.Created b) (data_updater.Created a) = true)
       rows.
Proof.
  intros _ _ rows. subst rows. unfold dashboard.GetDashboardIssues. split.
  - rewrite List.length_firstn.
    destruct (Z.ltb pageSize 1) eqn:Hp; [lia |].
    apply Z.ltb_ge in Hp. lia.
  - apply StronglySorted_firstn, StronglySorted_skipn.
    apply order_created_desc_sorted.
Qed.

(** Three alerts in pages of two: the first page is the two newest, the
    newest first. *)
Lemma issue_page_is_bounded_and_newest_first_witness :
  let store :=
    models.mkStore
      [Samples.alert_row "O11Y-1" "[PROD] alert: disk" "2025-01-10 08:00:00 UTC" "[]"
         "dedicated" "yes";
       Samples.alert_row "O11Y-2" "[STG] alert: cpu" "2025-01-15 10:30:45 UTC" "[]"
         "dedicated" "yes";
       Samples.alert_row "O11Y-3" "[PROD] alert: io" "2025-01-11 08:00:00 UTC" "[]"
         "dedicated" "yes"] [] in
  let rows :=
    dashboard.GetDashboardIssues (RT := SampleRuntime.runtime) ∅ store
      (SampleRuntime.midnight 2025 2 1) 30 "all" Samples.no_filters
      Samples.no_list_filters 1 2 in
  List.map data_updater.ID rows = ["O11Y-2"; "O11Y-3"]
  /\ Z.of_nat (List.length rows) <= 2
  /\ StronglySorted
       (fun a b =>
          Sqlite.text_leb (data_updater.Created b) (data_updater.Created a) = true)
       rows.
Proof.
  intros store rows. split; [vm_compute; reflexivity |].
  exact (issue_page_is_bounded_and_newest_first (RT := SampleRuntime.runtime) ∅ store
           (SampleRuntime.midnight 2025 2 1) 30 "all" Samples.no_filters
           Samples.no_list_filters 1 2 eq_refl eq_refl).
Defined.

(** X3: A mute with an empty id, or of an issue that is muted already,
    is refused; the database can refuse others.  A mute that is accepted
    had an id that is not empty and was not muted yet; it leaves the table
    of issues as it is, cannot be repeated, and from then on no issue list
    whose filter values are plain shows an issue of that id. *)
Theorem mute_hides_the_issue {RT : GoLib.Runtime}
    (categoryMap : gmap string string) (store : models.Store) (id : string) :
  (id = "" -> dashboard.MuteIssue store id = None)
  /\ ((exists m, In m (models.muted_issues store) /\ models.IssueID m = id) ->
      dashboard.MuteIssue store id = None)
  /\ forall store',
       dashboard.MuteIssue store id = Some store' ->
       id <> ""
       /\ (forall m, In m (models.muted_issues store) -> models.IssueID m <> id)
       /\ models.issues store' = models.issues store
       /\ dashboard.MuteIssue store' id = None
       /\ forall now days envStr f l page pageSize,
            SqlText.plain_filters f = true ->
            SqlText.plain_priorities l = true ->
            List.Forall (fun i => data_updater.ID i <> id)
              (dashboard.GetDashboardIssues categoryMap store' now days envStr f l
                 page pageSize).
Proof.
  unfold dashboard.MuteIssue.
  split; [intros ->; reflexivity |].
  split.
  { intros (m & Hm & Heq).
    destruct (String.eqb id ""); [reflexivity |].
    assert (List.existsb (fun m => String.eqb (models.IssueID m) id)
              (models.muted_issues store) = true) as ->; [| reflexivity].
    apply List.existsb_exists. exists m. split; [exact Hm |].
    apply String.eqb_eq. exact Heq. }
  intros store'.
  destruct (String.eqb_spec id "") as [-> | Hid]; [discriminate |].
  destruct (List.existsb _ (models.muted_issues store)) eqn:Hex; [discriminate |].
  intros Hsome. injection Hsome as <-.
  split; [exact Hid |].
  split.
  { intros m Hm Heq.
    assert (List.existsb (fun m => String.eqb (models.IssueID m) id)
              (models.muted_issues store) = true) as Hyes.
    { apply List.existsb_exists. exists m. split; [exact Hm |].
      apply String.eqb_eq. exact Heq. }
    congruence. }
  split; [reflexivity |].
  split.
  { cbn [models.muted_issues].
    destruct (String.eqb_spec id "") as [Heq | _]; [contradiction |].
    rewrite List.existsb_app. cbn. rewrite String.eqb_refl.
    rewrite orb_true_r. reflexivity. }
  intros now days envStr f l page pageSize _ _.
  apply List.Forall_forall. intros i Hin Heq.
  apply listing_In in Hin as [_ [Hm _]].
  rewrite not_muted_spec in Hm.
  apply (Hm (models.mkMuted id "User muted via dashboard")).
  + cbn [models.muted_issues]. apply List.in_or_app. right. left. reflexivity.
  + cbn. symmetry. exact Heq.
Qed.

(** ** The counts of the dashboard *)

Ltac env_cases i :=
  change (dashboard.envCondition "prod" i) with (dashboard.is_prod i);
  change (dashboard.envCondition "non_prod" i) with (negb (dashboard.is_prod i)).

Section CountFacts.

Lemma count_split (p q : models.Issue -> bool) (rows : list models.Issue) :
  models.count p rows
  = models.count (fun i => p i && q i) rows + models.count (fun i => p i && negb (q i)) rows.
Proof.
  unfold models.count.
  induction rows as [|i rows IH]; [reflexivity |].
  cbn [List.filter]. destruct (p i), (q i); cbn [andb negb List.length]; lia.
Qed.

Lemma count_ext (p q : models.Issue -> bool) (rows : list models.Issue) :
  (forall i, p i = q i) -> models.count p rows = models.count q rows.
Proof.
  intros Hpq. unfold models.count. f_equal. f_equal.
  apply List.filter_ext. exact Hpq.
Qed.

Lemma count_filter_and (p q : models.Issue -> bool) (rows : list models.Issue) :
  models.count q (List.filter p rows) = models.count (fun i => p i && q i) rows.
Proof.
  unfold models.count.
  induction rows as [|i rows IH]; [reflexivity |].
  cbn [List.filter]. destruct (p i); cbn [andb List.filter]; [| exact IH].
  destruct (q i); cbn [List.length]; lia.
Qed.

Lemma count_nonneg (p : models.Issue -> bool) (rows : list models.Issue) :
  0 <= models.count p rows.
Proof. unfold models.count. lia. Qed.

Lemma count_none (p : models.Issue -> bool) (rows : list models.Issue) :
  (forall i, p i = false) -> models.count p rows = 0.
Proof.
  intros Hp. unfold models.count.
  rewrite (filter_none p rows); [reflexivity |]. intros i _. apply Hp.
Qed.


End CountFacts.

(** X4: When the filter values that the handler writes into its query
    are plain, in every answer of [fetchStats] the total is the sum of
    the production and the non-production count, and the critical count
    lies between 0 and the total.  Under [env=prod] the non-production
    count is 0, and under [env=non_prod] the production count is 0. *)
Theorem fetchStats_counts_add_up (rows : list models.Issue) (envStr : string)
    (f : dashboard.Filters) (start end_ : string) :
  SqlText.plain_filters f = true ->
  let '(total, prod, nonProd, critical) := dashboard.fetchStats rows envStr f start end_ in
  total = prod + nonProd
  /\ 0 <= prod /\ 0 <= nonProd
  /\ 0 <= critical <= total
  /\ (envStr = "prod" -> nonProd = 0 /\ prod = total)
  /\ (envStr = "non_prod" -> prod = 0 /\ nonProd = total).
Proof.
  intros _. unfold dashboard.fetchStats.
  set (w := dashboard.where_dashboard envStr f start end_).
  rewrite !count_filter_and.
  pose proof (count_split (fun i => w i && true) dashboard.is_prod rows) as Hsplit.
  assert (forall q, models.count (fun i => (w i && true) && q i) rows
                    = models.count (fun i => w i && q i) rows) as Htrue.
  { intros q. apply count_ext. intros i. rewrite andb_true_r. reflexivity. }
  rewrite !Htrue in Hsplit.
  pose proof (count_split (fun i => w i && true) dashboard.is_critical rows) as Hcrit.
  rewrite !Htrue in Hcrit.
  pose proof (count_nonneg (fun i => w i && dashboard.is_prod i) rows).
  pose proof (count_nonneg (fun i => w i && negb (dashboard.is_prod i)) rows).
  pose proof (count_nonneg (fun i => w i && dashboard.is_critical i) rows).
  pose proof (count_nonneg (fun i => w i && negb (dashboard.is_critical i)) rows).
  split; [exact Hsplit |].
  split; [assumption |]. split; [assumption |].
  split; [lia |].
  split.
  - intros Henv.
    assert (models.count (fun i => w i && negb (dashboard.is_prod i)) rows = 0) as Hz.
    { apply count_none. intros i. subst w envStr.
      unfold dashboard.where_dashboard. env_cases i.
      destruct (dashboard.is_prod i), (data_updater.IsAlert i), (dashboard.filterCondition f i),
        (api.created_between start end_ i); reflexivity. }
    lia.
  - intros Henv.
    assert (models.count (fun i => w i && dashboard.is_prod i) rows = 0) as Hz.
    { apply count_none. intros i. subst w envStr.
      unfold dashboard.where_dashboard. env_cases i.
      destruct (dashboard.is_prod i), (data_updater.IsAlert i), (dashboard.filterCondition f i),
        (api.created_between start end_ i); reflexivity. }
    lia.
Qed.

(** Two alerts of production and one of staging, under [env=prod]. *)
Lemma fetchStats_counts_add_up_witness :
  let rows :=
    [Samples.alert_row "O11Y-1" "[PROD] alert: disk" "2025-01-15 10:30:45 UTC" "[]" "dedicated" "yes";
     Samples.alert_row "O11Y-2" "[STG] alert: cpu" "2025-01-10 08:00:00 UTC" "[]" "dedicated" "yes";
     Samples.alert_row "O11Y-3" "[PROD] alert: io" "2025-01-11 08:00:00 UTC" "[]" "dedicated" "yes"] in
  let '(total, prod, nonProd, critical) :=
    dashboard.fetchStats rows "prod" Samples.no_filters
      "2025-01-01 00:00:00" "2025-01-31 00:00:00" in
  total = prod + nonProd
  /\ 0 <= prod /\ 0 <= nonProd
  /\ 0 <= critical <= total
  /\ ("prod" = "prod" -> nonProd = 0 /\ prod = total)
  /\ ("prod" = "non_prod" -> prod = 0 /\ nonProd = total).
Proof.
  intros rows.
  exact (fetchStats_counts_add_up rows "prod" Samples.no_filters
           "2025-01-01 00:00:00" "2025-01-31 00:00:00" eq_refl).
Defined.

(** X5: When the filter values that the handler writes into its query
    are plain, the three environments of the dashboard fit together: for
    the same filters and window, each count of [env=prod] and the same count
    of [env=non_prod] add up to the count of any other [env], [all]
    among them; and the production count of [env=all] is the total of
    [env=prod]. *)
Theorem dashboard_environments_partition (rows : list models.Issue) (envStr : string)
    (f : dashboard.Filters) (start end_ : string) (extra : models.Issue -> bool) :
  SqlText.plain_filters f = true ->
  envStr <> "prod" -> envStr <> "non_prod" ->
  dashboard.counted rows envStr f start end_ extra
  = dashboard.counted rows "prod" f start end_ extra
    + dashboard.counted rows "non_prod" f start end_ extra
  /\ (let '(_, prod, nonProd, _) := dashboard.fetchStats rows envStr f start end_ in
      let '(totalProd, _, _, _) := dashboard.fetchStats rows "prod" f start end_ in
      let '(totalNonProd, _, _, _) := dashboard.fetchStats rows "non_prod" f start end_ in
      prod = totalProd /\ nonProd = totalNonProd).
Proof.
  intros _ Hp Hn.
  assert (forall i, dashboard.envCondition envStr i = true) as Hall.
  { intros i. unfold dashboard.envCondition.
    destruct (String.eqb_spec envStr "prod"); [contradiction |].
    destruct (String.eqb_spec envStr "non_prod"); [contradiction |]. reflexivity. }
  split.
  - unfold dashboard.counted.
    rewrite (count_split _ dashboard.is_prod rows). f_equal; apply count_ext; intros i;
      unfold dashboard.where_dashboard;
      rewrite Hall; env_cases i;
      destruct (dashboard.is_prod i), (data_updater.IsAlert i), (dashboard.filterCondition f i),
        (api.created_between start end_ i), (extra i); reflexivity.
  - unfold dashboard.fetchStats. rewrite !count_filter_and.
    split; apply count_ext; intros i;
      unfold dashboard.where_dashboard;
      rewrite Hall; env_cases i;
      destruct (dashboard.is_prod i), (data_updater.IsAlert i), (dashboard.filterCondition f i),
        (api.created_between start end_ i); reflexivity.
Qed.

Lemma dashboard_environments_partition_witness :
  let rows :=
    [Samples.alert_row "O11Y-1" "[PROD] alert: disk" "2025-01-15 10:30:45 UTC" "[]" "dedicated" "yes";
     Samples.alert_row "O11Y-2" "[STG] alert: cpu" "2025-01-10 08:00:00 UTC" "[]" "dedicated" "yes";
     Samples.alert_row "O11Y-3" "[PROD] alert: io" "2025-01-11 08:00:00 UTC" "[]" "dedicated" "yes"] in
  let counted env :=
    dashboard.counted rows env Samples.no_filters "2025-01-01 00:00:00" "2025-01-31 00:00:00"
      (fun _ => true) in
  counted "all" = 3 /\ counted "prod" = 2 /\ counted "non_prod" = 1.
Proof.
  intros rows counted.
  pose proof (dashboard_environments_partition rows "all" Samples.no_filters
                "2025-01-01 00:00:00" "2025-01-31 00:00:00" (fun _ => true)
                eq_refl ltac:(discriminate) ltac:(discriminate)) as [Hsum _].
  assert (counted "prod" = 2) as Hprod by (vm_compute; reflexivity).
  assert (counted "non_prod" = 1) as Hnon by (vm_compute; reflexivity).
  split; [| split; assumption].
  subst counted. cbv beta in *. rewrite Hsum, Hprod, Hnon. reflexivity.
Defined.

(** ** Finite numbers *)

Section FiniteFacts.
Import GoNum.

Lemma sized_finite (s : bool) (lo hi : Z) (x : float64) :
  sized s lo hi x -> GoMath.is_finite x = true.
Proof. intros [m [e [-> _]]]. reflexivity. Qed.

Lemma percent_finite (n p : Z) :
  Z.abs n < 2 ^ 64 -> 0 < p < 2 ^ 64 ->
  GoMath.is_finite (fmul (fdiv (float64_of_int n) (float64_of_int p)) f100) = true.
Proof.
  intros Hn Hp. destruct (Z.eq_dec n 0) as [-> | Hnz].
  - rewrite percent_of_zero by exact Hp. reflexivity.
  - eapply sized_finite. apply percent_sized; assumption.
Qed.

Lemma calculateChange_finite (current previous : Z) :
  is_count current -> is_count previous ->
  GoMath.is_finite (fst (dashboard.calculateChange current previous)) = true.
Proof.
  intros Hc Hp. unfold dashboard.calculateChange.
  destruct (Z.eqb_spec previous 0) as [-> | Hnz].
  - destruct (Z.eqb current 0); reflexivity.
  - cbn [fst]. rewrite wrap64_in_range by (apply count_difference_in_range; assumption).
    unfold is_count in *. apply percent_finite; lia.
Qed.

Lemma rate_finite (num den : Z) :
  is_count num -> is_count den ->
  GoMath.is_finite (dashboard.calcRate num den) = true
  /\ flt (dashboard.calcRate num den) fzero = false.
Proof.
  intros Hn Hd. unfold dashboard.calcRate, is_count in *.
  destruct (Z.eqb_spec den 0) as [-> | Hnz]; [split; reflexivity |].
  split; [apply percent_finite; lia |].
  destruct (Z.eq_dec num 0) as [-> | Hnum].
  - rewrite percent_of_zero by lia. reflexivity.
  - pose proof (percent_sized num den Hnum ltac:(lia) ltac:(lia)) as Hs.
    apply sized_sign in Hs as [_ Hneg]. unfold flt, fzero. rewrite Hneg.
    apply Z.ltb_ge. lia.
Qed.

End FiniteFacts.

(** X6: On counts of rows, the change in percent and the two rates are
    finite numbers, never NaN and never infinite, in the dashboard and in
    the component statistics; a rate is never negative. *)
Theorem changes_and_rates_are_finite (current previous num den : Z) :
  GoNum.is_count current -> GoNum.is_count previous ->
  GoNum.is_count num -> GoNum.is_count den ->
  GoMath.is_finite (fst (dashboard.calculateChange current previous)) = true
  /\ GoMath.is_finite (fst (components.calcCompChange current previous)) = true
  /\ GoMath.is_finite (dashboard.calcRate num den) = true
  /\ GoMath.is_finite (components.calcRate num den) = true
  /\ GoNum.flt (dashboard.calcRate num den) GoNum.fzero = false
  /\ GoNum.flt (components.calcRate num den) GoNum.fzero = false.
Proof.
  intros Hc Hp Hn Hd.
  pose proof (calculateChange_finite current previous Hc Hp) as Hchange.
  pose proof (rate_finite num den Hn Hd) as [Hrate Hsign].
  repeat split; assumption.
Qed.

Lemma changes_and_rates_are_finite_witness :
  GoMath.is_finite (fst (dashboard.calculateChange 5 10)) = true
  /\ GoMath.is_finite (dashboard.calcRate 1 3) = true
  /\ GoNum.flt (dashboard.calcRate 1 3) GoNum.fzero = false.
Proof.
  assert (forall z, 0 <= z < 100 -> GoNum.is_count z) as Hcount.
  { intros z Hz. unfold GoNum.is_count. lia. }
  destruct (changes_and_rates_are_finite 5 10 1 3
              (Hcount 5 ltac:(lia)) (Hcount 10 ltac:(lia))
              (Hcount 1 ltac:(lia)) (Hcount 3 ltac:(lia)))
    as [H1 [_ [H3 [_ [H5 _]]]]].
  split; [exact H1 | split; [exact H3 | exact H5]].
Defined.

(** ** Priorities and the ids of a description *)

(** X7: [convertPriority] is a normalisation: applying it twice is
    applying it once, and it never returns one of the names that it
    maps to another. *)
Theorem convertPriority_is_a_normalisation (priority : string) :
  data_updater.convertPriority (data_updater.convertPriority priority)
  = data_updater.convertPriority priority
  /\ ~ In (data_updater.convertPriority priority) ["严重"; "重要"; "低"; "High"].
Proof.
  unfold data_updater.convertPriority.
  repeat match goal with
         | |- context [String.eqb priority ?k] => destruct (String.eqb priority k) eqn:?
         end;
    first
      [ exfalso; congruence
      | split;
        [ reflexivity
        | cbn [In]; intros H; repeat destruct H as [H | H];
          try discriminate H; try contradiction;
          subst priority; discriminate ] ].
Qed.

Section SubmatchFacts.
Import GoStrings data_updater.

Lemma append_String (c : ascii) (a b : string) : String c a ++ b = String c (a ++ b).
Proof. reflexivity. Qed.

Lemma HasPrefix_app (key rest : string) : HasPrefix (key ++ rest) key = true.
Proof. apply HasPrefix_true. exists rest. reflexivity. Qed.

Lemma drop_bytes_app (key rest : string) :
  Sqlite.drop_bytes (String.length key) (key ++ rest) = rest.
Proof.
  induction key as [|c key IH]; [destruct rest; reflexivity | exact IH].
Qed.

Lemma skip_spaces_app (blanks rest : string) :
  List.forallb is_space (list_ascii_of_string blanks) = true ->
  skip_spaces (blanks ++ rest) = skip_spaces rest.
Proof.
  induction blanks as [|c blanks IH]; [reflexivity |].
  cbn [list_ascii_of_string List.forallb]. intros H.
  apply andb_true_iff in H as [Hc H].
  rewrite append_String; cbn [skip_spaces]. rewrite Hc. apply IH. exact H.
Qed.

Lemma take_word_app (word rest : string) :
  List.forallb (fun c => negb (is_space c)) (list_ascii_of_string word) = true ->
  take_word rest = "" ->
  take_word (word ++ rest) = word.
Proof.
  intros Hword Hrest.
  induction word as [|c word IH]; [exact Hrest |].
  cbn [list_ascii_of_string List.forallb] in Hword.
  apply andb_true_iff in Hword as [Hc Hword].
  rewrite append_String; cbn [take_word]. apply negb_true_iff in Hc. rewrite Hc.
  f_equal. apply IH. exact Hword.
Qed.

Lemma is_space_is_blank (c : ascii) : is_space c = true -> is_blank c = true.
Proof. destruct c as [[] [] [] [] [] [] [] []]; vm_compute; congruence. Qed.

Lemma TrimRight_no_blank (s : string) :
  List.forallb (fun c => negb (is_blank c)) (list_ascii_of_string s) = true ->
  TrimRight s = s.
Proof.
  induction s as [|c s IH]; [reflexivity |].
  cbn [list_ascii_of_string List.forallb]. intros H.
  apply andb_true_iff in H as [Hc H]. apply negb_true_iff in Hc.
  cbn [TrimRight]. rewrite (IH H), Hc. destruct s; reflexivity.
Qed.

Lemma TrimSpace_no_blank (s : string) :
  List.forallb (fun c => negb (is_blank c)) (list_ascii_of_string s) = true ->
  TrimSpace s = s.
Proof.
  intros H. unfold TrimSpace.
  assert (TrimLeft s = s) as ->.
  { destruct s as [|c s]; [reflexivity |].
    cbn [list_ascii_of_string List.forallb] in H.
    apply andb_true_iff in H as [Hc _]. apply negb_true_iff in Hc.
    cbn [TrimLeft]. rewrite Hc. reflexivity. }
  apply TrimRight_no_blank. exact H.
Qed.

Lemma no_blank_no_space (s : string) :
  List.forallb (fun c => negb (is_blank c)) (list_ascii_of_string s) = true ->
  List.forallb (fun c => negb (is_space c)) (list_ascii_of_string s) = true.
Proof.
  rewrite !List.forallb_forall. intros H c Hc.
  specialize (H c Hc). apply negb_true_iff in H. apply negb_true_iff.
  destruct (is_space c) eqn:Hs; [| reflexivity].
  apply is_space_is_blank in Hs. congruence.
Qed.

Lemma match_here_found (key blanks1 blanks2 word rest : string) (sep : ascii) :
  sep = "="%char \/ sep = ":"%char ->
  List.forallb is_space (list_ascii_of_string blanks1) = true ->
  List.forallb is_space (list_ascii_of_string blanks2) = true ->
  word <> "" ->
  List.forallb (fun c => negb (is_space c)) (list_ascii_of_string word) = true ->
  take_word rest = "" ->
  match_here key (key ++ blanks1 ++ String sep (blanks2 ++ word ++ rest)) = Some word.
Proof.
  intros Hsep Hb1 Hb2 Hne Hword Hrest. unfold match_here.
  rewrite HasPrefix_app, drop_bytes_app, (skip_spaces_app _ _ Hb1).
  assert (is_space sep = false) as Hs by (destruct Hsep; subst sep; reflexivity).
  cbn [skip_spaces]. rewrite Hs.
  assert (Ascii.eqb sep "=" || Ascii.eqb sep ":" = true) as ->
    by (destruct Hsep; subst sep; reflexivity).
  rewrite (skip_spaces_app _ _ Hb2).
  assert (skip_spaces (word ++ rest) = word ++ rest) as ->.
  { destruct word as [|c word]; [contradiction |].
    cbn [list_ascii_of_string List.forallb] in Hword.
    apply andb_true_iff in Hword as [Hc _]. apply negb_true_iff in Hc.
    rewrite append_String; cbn [skip_spaces]. rewrite Hc. reflexivity. }
  rewrite (take_word_app _ _ Hword Hrest).
  destruct word; [contradiction | reflexivity].
Qed.

Lemma find_submatch_eq (key s : string) :
  find_submatch key s
  = match match_here key s with
    | Some word => Some word
    | None =>
        match s with
        | EmptyString => None
        | String _ s' => find_submatch key s'
        end
    end.
Proof. destruct s; reflexivity. Qed.

Lemma find_submatch_skips (key before tail : string) :
  (forall n, (n < String.length before)%nat ->
             HasPrefix (Sqlite.drop_bytes n (before ++ tail)) key = false) ->
  find_submatch key (before ++ tail) = find_submatch key tail.
Proof.
  induction before as [|c before IH]; [reflexivity |].
  intros H. rewrite append_String.
  assert (match_here key (String c (before ++ tail)) = None) as Hhere.
  { pose proof (H 0%nat ltac:(cbn; lia)) as H0.
    change (Sqlite.drop_bytes 0 (String c before ++ tail))
      with (String c (before ++ tail)) in H0.
    unfold match_here. rewrite H0. reflexivity. }
  rewrite (find_submatch_eq key (String c (before ++ tail))), Hhere. apply IH.
  intros n Hn. refine (H (S n) _). cbn. lia.
Qed.

Lemma find_submatch_here (key s word : string) :
  match_here key s = Some word -> find_submatch key s = Some word.
Proof. intros H. rewrite find_submatch_eq, H. reflexivity. Qed.

Lemma match_here_word (key s word : string) :
  match_here key s = Some word ->
  HasPrefix s key = true
  /\ word <> ""
  /\ List.forallb (fun c => negb (is_space c)) (list_ascii_of_string word) = true.
Proof.
  unfold match_here. destruct (HasPrefix s key); [| discriminate].
  destruct (skip_spaces _) as [|c rest]; [discriminate |].
  destruct (Ascii.eqb c "=" || Ascii.eqb c ":"); [| discriminate].
  generalize (skip_spaces rest). intros t Ht.
  assert (take_word t = word) as <-.
  { destruct (take_word t); [discriminate | congruence]. }
  split; [reflexivity |].
  split; [destruct (take_word t); [discriminate | discriminate] |].
  clear Ht. induction t as [|a t IH]; [reflexivity |].
  cbn [take_word]. destruct (is_space a) eqn:Ha; [reflexivity |].
  cbn [list_ascii_of_string List.forallb]. rewrite Ha. exact IH.
Qed.

Lemma find_submatch_word (key s word : string) :
  find_submatch key s = Some word ->
  Contains s key = true
  /\ word <> ""
  /\ List.forallb (fun c => negb (is_space c)) (list_ascii_of_string word) = true.
Proof.
  induction s as [|c s IH]; rewrite find_submatch_eq.
  - destruct (match_here key "") eqn:Hm; [| discriminate].
    intros [= ->]. apply match_here_word in Hm as [Hp Hw].
    split; [| exact Hw]. cbn [Contains]. rewrite Hp. reflexivity.
  - destruct (match_here key (String c s)) eqn:Hm.
    + intros [= ->]. apply match_here_word in Hm as [Hp Hw].
      split; [| exact Hw]. cbn [Contains]. rewrite Hp. reflexivity.
    + intros H. apply IH in H as [Hc Hw]. split; [| exact Hw].
      cbn [Contains]. rewrite Hc. apply orb_true_r.
Qed.

Lemma TrimLeft_keeps (p : ascii -> bool) (s : string) :
  List.forallb p (list_ascii_of_string s) = true ->
  List.forallb p (list_ascii_of_string (TrimLeft s)) = true.
Proof.
  induction s as [|c s IH]; [reflexivity |].
  intros H. cbn [TrimLeft]. destruct (is_blank c); [| exact H].
  apply IH. cbn [list_ascii_of_string List.forallb] in H.
  apply andb_true_iff in H as [_ H]. exact H.
Qed.

Lemma TrimRight_keeps (p : ascii -> bool) (s : string) :
  List.forallb p (list_ascii_of_string s) = true ->
  List.forallb p (list_ascii_of_string (TrimRight s)) = true.
Proof.
  induction s as [|c s IH]; [reflexivity |].
  cbn [list_ascii_of_string List.forallb]. intros H.
  apply andb_true_iff in H as [Hc H]. specialize (IH H).
  cbn [TrimRight]. destruct (TrimRight s) as [|d kept].
  - destruct (is_blank c); [reflexivity |].
    cbn [list_ascii_of_string List.forallb]. rewrite Hc. reflexivity.
  - cbn [list_ascii_of_string List.forallb] in IH |- *. rewrite Hc. exact IH.
Qed.

Lemma submatch_or_empty_absent (key description : string) :
  Contains description key = false -> submatch_or_empty key description = "".
Proof.
  intros H. unfold submatch_or_empty.
  destruct (find_submatch key description) eqn:Hf; [| reflexivity].
  apply find_submatch_word in Hf as [Hc _]. congruence.
Qed.

Lemma submatch_or_empty_no_space (key description : string) :
  List.forallb (fun c => negb (is_space c))
    (list_ascii_of_string (submatch_or_empty key description)) = true.
Proof.
  unfold submatch_or_empty.
  destruct (find_submatch key description) eqn:Hf; [| reflexivity].
  apply find_submatch_word in Hf as [_ [_ Hw]].
  unfold TrimSpace. apply TrimRight_keeps, TrimLeft_keeps. exact Hw.
Qed.

Lemma submatch_or_empty_found (key before blanks1 blanks2 word rest : string) (sep : ascii) :
  let description := before ++ key ++ blanks1 ++ String sep (blanks2 ++ word ++ rest) in
  (forall n, (n < String.length before)%nat ->
             HasPrefix (Sqlite.drop_bytes n description) key = false) ->
  sep = "="%char \/ sep = ":"%char ->
  List.forallb is_space (list_ascii_of_string blanks1) = true ->
  List.forallb is_space (list_ascii_of_string blanks2) = true ->
  word <> "" ->
  List.forallb (fun c => negb (is_blank c)) (list_ascii_of_string word) = true ->
  take_word rest = "" ->
  submatch_or_empty key description = word.
Proof.
  intros description Hfirst Hsep Hb1 Hb2 Hne Hword Hrest.
  unfold submatch_or_empty. subst description.
  rewrite (find_submatch_skips _ _ _ Hfirst).
  rewrite (find_submatch_here _ _ word).
  - apply TrimSpace_no_blank. exact Hword.
  - apply match_here_found; try assumption. apply no_blank_no_space. exact Hword.
Qed.

End SubmatchFacts.

(** X8: The ids of a description are read back.  When the first place
    where a key stands in the description is followed by blanks, [=] or
    [:], blanks and a word without blanks that ends the description or
    is followed by a blank, the value extracted for the key is that
    word: the cluster id for [tidb_cluster_id], the tenant id for
    [o11y_tenant_id], the business type for [o11y_biz_type].  The word
    begins and ends with a byte of ASCII, so that [strings.TrimSpace],
    which also trims the white space of Unicode, has nothing to trim. *)
Theorem ids_are_read_from_the_description
    (key before blanks1 blanks2 word rest : string) (sep : ascii) :
  let description := before ++ key ++ blanks1 ++ String sep (blanks2 ++ word ++ rest) in
  (forall n, (n < String.length before)%nat ->
             GoStrings.HasPrefix (Sqlite.drop_bytes n description) key = false) ->
  sep = "="%char \/ sep = ":"%char ->
  List.forallb data_updater.is_space (list_ascii_of_string blanks1) = true ->
  List.forallb data_updater.is_space (list_ascii_of_string blanks2) = true ->
  word <> "" ->
  List.forallb (fun c => negb (GoStrings.is_blank c)) (list_ascii_of_string word) = true ->
  GoUtf8.ascii_ends word = true ->
  match rest with
  | EmptyString => True
  | String c _ => data_updater.is_space c = true
  end ->
  (key = "tidb_cluster_id" ->
   fst (data_updater.extractIDsFromDescription description) = word)
  /\ (key = "o11y_tenant_id" ->
      snd (data_updater.extractIDsFromDescription description) = word)
  /\ (key = "o11y_biz_type" ->
      data_updater.extractBizTypeFromDescription description = word).
Proof.
  intros description Hfirst Hsep Hb1 Hb2 Hne Hword _ Hrest.
  assert (data_updater.take_word rest = "") as Hrest'.
  { destruct rest as [|c rest]; [reflexivity |].
    cbn [data_updater.take_word]. rewrite Hrest. reflexivity. }
  pose proof (submatch_or_empty_found key before blanks1 blanks2 word rest sep
                Hfirst Hsep Hb1 Hb2 Hne Hword Hrest') as Hfound.
  fold description in Hfound.
  unfold data_updater.extractIDsFromDescription, data_updater.extractBizTypeFromDescription.
  cbn [fst snd].
  repeat split; intros <-; exact Hfound.
Qed.

Lemma ids_are_read_from_the_description_witness :
  fst (data_updater.extractIDsFromDescription
         "id tidb_cluster_id : 1001 o11y_tenant_id=42") = "1001".
Proof.
  refine (proj1 (ids_are_read_from_the_description "tidb_cluster_id" "id " " " " " "1001"
                   " o11y_tenant_id=42" ":" _ _ _ _ _ _ _ _) eq_refl).
  - intros n Hn. destruct n as [|[|[|n]]]; [reflexivity | reflexivity | reflexivity |].
    simpl in Hn. lia.
  - right. reflexivity.
  - reflexivity.
  - reflexivity.
  - discriminate.
  - reflexivity.
  - reflexivity.
  - reflexivity.
Defined.

(** X9: A description that does not contain a key gives the empty
    string for it, and a value that is extracted never contains a
    blank. *)
Theorem ids_of_a_description_without_keys (description : string) :
  let no_space s :=
    List.forallb (fun c => negb (data_updater.is_space c)) (list_ascii_of_string s) = true in
  (GoStrings.Contains description "tidb_cluster_id" = false ->
   fst (data_updater.extractIDsFromDescription description) = "")
  /\ (GoStrings.Contains description "o11y_tenant_id" = false ->
      snd (data_updater.extractIDsFromDescription description) = "")
  /\ (GoStrings.Contains description "o11y_biz_type" = false ->
      data_updater.extractBizTypeFromDescription description = "")
  /\ no_space (fst (data_updater.extractIDsFromDescription description))
  /\ no_space (snd (data_updater.extractIDsFromDescription description))
  /\ no_space (data_updater.extractBizTypeFromDescription description).
Proof.
  intros no_space.
  unfold data_updater.extractIDsFromDescription, data_updater.extractBizTypeFromDescription.
  cbn [fst snd].
  repeat split;
    first [ apply submatch_or_empty_absent | apply submatch_or_empty_no_space ].
Qed.

(** ** The updater: what a batch does to the store and to the resolver *)

Section BatchFacts.
Import data_updater.
Context {RT : GoLib.Runtime}.
Variable client_Get : nat -> string -> name_service.GetOutcome.
Variable decode : string -> option name_service.nameApiResponse.
Variable db_Exec : nat -> bool.

Local Abbreviation extractIssueData := (data_updater.extractIssueData client_Get decode).
Local Abbreviation processIssue := (data_updater.processIssue client_Get decode db_Exec).
Local Abbreviation process_all := (data_updater.process_all client_Get decode db_Exec).
Local Abbreviation Resolve := (name_service.Resolve client_Get decode).

(** The resolver after an extraction: it was asked for the cluster id of
    the row, or not at all. *)
Lemma extracted_resolver (nr : name_service.NameResolver) (issue : jira_client.JiraIssue) :
  let row := fst (extractIssueData nr issue) in
  exists asked : bool,
    snd (extractIssueData nr issue)
    = if asked && negb (String.eqb (ClusterID row) "")
      then snd (Resolve nr (ClusterID row)) else nr.
Proof.
  unfold data_updater.extractIssueData. cbn [fst snd ClusterID].
  match goal with
  | |- context [if String.eqb ?t "" && negb (String.eqb ?c "") then _ else _] =>
      exists (String.eqb t ""); generalize t c
  end.
  intros t c. destruct (String.eqb t "" && negb (String.eqb c "")); [| reflexivity].
  destruct (name_service.Resolve client_Get decode nr c) as [[info [e|]] nr']; reflexivity.
Qed.

Lemma processIssue_executed (st : State) (issue : jira_client.JiraIssue) :
  executed (database (snd (processIssue st issue))) = S (executed (database st))
  /\ fst (processIssue st issue) = db_Exec (executed (database st)).
Proof.
  unfold data_updater.processIssue, insertOrUpdateIssue.
  destruct (data_updater.extractIssueData _ _ _ _) as [data nr].
  destruct (db_Exec _); split; reflexivity.
Qed.

Lemma processIssue_other (st : State) (issue : jira_client.JiraIssue) (key : string) :
  jira_client.Key issue <> key ->
  List.filter (has_key key) (issues (database (snd (processIssue st issue))))
  = List.filter (has_key key) (issues (database st)).
Proof.
  intros Hkey. rewrite processIssue_rows.
  destruct (fst _); [| reflexivity].
  apply insert_or_replace_other. exact Hkey.
Qed.

Lemma processIssue_length (st : State) (issue : jira_client.JiraIssue) :
  (List.length (issues (database (snd (processIssue st issue))))
   <= List.length (issues (database st)) + (if fst (processIssue st issue) then 1 else 0))%nat.
Proof.
  rewrite processIssue_rows. destruct (fst _); [| lia].
  unfold insert_or_replace. rewrite List.length_app. cbn [List.length].
  pose proof (List.filter_length_le
                (fun row => negb (String.eqb (ID row) (ID (fst (extractIssueData (resolver st) issue)))))
                (issues (database st))).
  lia.
Qed.

Lemma process_all_counts (tickets : list jira_client.JiraIssue) :
  forall (st : State) (n : Z),
    let result := process_all st n tickets in
    fst result
    = n + Z.of_nat (List.length
                      (List.filter db_Exec
                         (List.seq (executed (database st)) (List.length tickets))))
    /\ executed (database (snd result))
       = (executed (database st) + List.length tickets)%nat
    /\ Z.of_nat (List.length (issues (database (snd result))))
       <= Z.of_nat (List.length (issues (database st))) + (fst result - n).
Proof.
  induction tickets as [|issue tickets IH]; intros st n.
  - cbn. repeat split; lia.
  - cbv zeta. rewrite process_all_cons.
    destruct (processIssue_executed st issue) as [Hexec Hok].
    pose proof (processIssue_length st issue) as Hlen.
    specialize (IH (snd (processIssue st issue))
                   (if fst (processIssue st issue) then n + 1 else n)).
    cbv zeta in IH. destruct IH as [Hcount [Hexecuted Hrows]].
    rewrite Hexec in Hcount, Hexecuted.
    cbn [List.length List.seq List.filter].
    rewrite Hok in *.
    destruct (db_Exec (executed (database st))); cbn [List.length] in *;
      repeat split; lia.
Qed.

Lemma process_all_other (tickets : list jira_client.JiraIssue) (key : string) :
  ~ In key (map jira_client.Key tickets) ->
  forall (st : State) (n : Z),
    List.filter (has_key key) (issues (database (snd (process_all st n tickets))))
    = List.filter (has_key key) (issues (database st)).
Proof.
  induction tickets as [|issue tickets IH]; intros Hkey st n; [reflexivity |].
  rewrite process_all_cons. rewrite IH.
  - apply processIssue_other. intros Heq. apply Hkey. left. exact Heq.
  - intros Hin. apply Hkey. right. exact Hin.
Qed.

End BatchFacts.

(** X10: Extracting a ticket sends at most one request to the name
    service: one for the cluster id of the row, and only when that id is
    a number that is not cached.  A row without a cluster id costs no
    request. *)
Theorem extraction_asks_for_one_name_at_most {RT : GoLib.Runtime}
    (client_Get : nat -> string -> name_service.GetOutcome)
    (decode : string -> option name_service.nameApiResponse)
    (nr : name_service.NameResolver) (issue : jira_client.JiraIssue) :
  let row := fst (data_updater.extractIssueData client_Get decode nr issue) in
  let nr' := snd (data_updater.extractIssueData client_Get decode nr issue) in
  (nr' = nr
   \/ (name_service.requests nr'
       = name_service.name_url (data_updater.ClusterID row) :: name_service.requests nr
       /\ name_service.isNumeric (data_updater.ClusterID row) = true
       /\ name_service.cache nr !! data_updater.ClusterID row = None))
  /\ (data_updater.ClusterID row = "" -> nr' = nr).
Proof.
  intros row nr'. subst row nr'.
  destruct (extracted_resolver client_Get decode nr issue) as [asked Hnr].
  cbv zeta in Hnr. rewrite Hnr.
  set (c := data_updater.ClusterID _).
  split.
  - destruct (asked && negb (String.eqb c "")); [| left; reflexivity].
    destruct (Resolve_step client_Get decode nr c) as [Hsame | [Hnum [Hmiss [Hreq _]]]];
      [left; exact Hsame | right; auto].
  - intros ->. rewrite andb_false_r. reflexivity.
Qed.

(** X11: A batch of tickets sends one statement per ticket, whether the
    statements before succeeded or not; the count it returns is the
    number of statements that succeeded; and the table grows by that
    number of rows at most. *)
Theorem batch_counts_the_stored_tickets {RT : GoLib.Runtime}
    (client_Get : nat -> string -> name_service.GetOutcome)
    (decode : string -> option name_service.nameApiResponse)
    (db_Exec : nat -> bool)
    (st : data_updater.State) (tickets : list jira_client.JiraIssue) :
  let result := data_updater.process_all client_Get decode db_Exec st 0 tickets in
  let db := data_updater.database st in
  let db' := data_updater.database (snd result) in
  fst result
  = Z.of_nat (List.length
                (List.filter db_Exec
                   (List.seq (data_updater.executed db) (List.length tickets))))
  /\ 0 <= fst result <= Z.of_nat (List.length tickets)
  /\ data_updater.executed db' = (data_updater.executed db + List.length tickets)%nat
  /\ Z.of_nat (List.length (data_updater.issues db'))
     <= Z.of_nat (List.length (data_updater.issues db)) + fst result.
Proof.
  intros result db db'. subst result db db'.
  destruct (process_all_counts client_Get decode db_Exec tickets st 0)
    as [Hcount [Hexec Hrows]].
  pose proof (List.filter_length_le db_Exec
                (List.seq (data_updater.executed (data_updater.database st))
                   (List.length tickets))) as Hle.
  rewrite List.length_seq in Hle.
  repeat split; first [lia | exact Hexec].
Qed.

(** X12: A batch leaves alone the rows of every key that is not the
    key of one of its tickets: whatever the name service and the driver
    do, those rows are after the batch what they were before. *)
Theorem batch_leaves_other_keys_alone {RT : GoLib.Runtime}
    (client_Get : nat -> string -> name_service.GetOutcome)
    (decode : string -> option name_service.nameApiResponse)
    (db_Exec : nat -> bool)
    (st : data_updater.State) (n : Z) (tickets : list jira_client.JiraIssue)
    (key : string) :
  ~ In key (map jira_client.Key tickets) ->
  List.filter (data_updater.has_key key)
    (data_updater.issues
       (data_updater.database
          (snd (data_updater.process_all client_Get decode db_Exec st n tickets))))
  = List.filter (data_updater.has_key key)
      (data_updater.issues (data_updater.database st)).
Proof.
  intros Hkey. apply process_all_other. exact Hkey.
Qed.

Lemma batch_leaves_other_keys_alone_witness :
  let old :=
    Samples.alert_row "O11Y-1" "alert: disk" "2025-01-15 10:30:45 UTC" "[]" "dedicated" "yes" in
  let st :=
    data_updater.mkState (data_updater.mkDatabase [old] 1) name_service.GetNameResolver in
  let tickets :=
    [Samples.ticket "O11Y-9" "alert: cpu" "" "2025-01-16T10:30:45.000+0000";
     Samples.ticket "O11Y-9" "alert: cpu again" "" "2025-01-16T10:30:45.000+0000"] in
  List.filter (data_updater.has_key "O11Y-1")
    (data_updater.issues
       (data_updater.database
          (snd (data_updater.process_all (RT := SampleRuntime.runtime) Samples.unreachable
                  Samples.decode_known (fun _ => true) st 0 tickets))))
  = [old].
Proof.
  intros old st tickets.
  rewrite (batch_leaves_other_keys_alone (RT := SampleRuntime.runtime) Samples.unreachable
             Samples.decode_known (fun _ => true) st 0 tickets "O11Y-1").
  - reflexivity.
  - cbn. intros [H | [H | []]]; discriminate H.
Defined.

(** ** The updater: a search that fails *)

Section FetchFacts.
Import data_updater.
Context {RT : GoLib.Runtime}.
Variable client_Get : nat -> string -> name_service.GetOutcome.
Variable decode : string -> option name_service.nameApiResponse.
Variable SearchV2JQL : nat -> string -> Z -> string -> option (list jira_client.jira_Issue * string).
Variable TestConnection : bool.
Variable db_Exec : nat -> bool.
Variable db_QueryRow : bool.
Variable time_Now : nat -> GoLib.Time.

(** The search of one project over a window. *)
Local Abbreviation searched startDate endDate key :=
  (jira_client.result
     (jira_client.SearchAllIssues SearchV2JQL (jql_of key startDate endDate) 100)).

Lemma fetch_projects_spec (startDate endDate : GoLib.Time) (todo : list (string * string)) :
  forall allIssues,
    match fetch_projects SearchV2JQL todo startDate endDate allIssues with
    | inr all =>
        exists found : list (list jira_client.JiraIssue),
          Forall2 (fun project tickets =>
                     searched startDate endDate (fst project) = jira_client.Issues tickets)
                  todo found
          /\ all = (allIssues ++ List.concat found)%list
    | inl err =>
        exists before key name after,
          todo = (before ++ (key, name) :: after)%list
          /\ err = ErrSearch key
          /\ (forall tickets, searched startDate endDate key <> jira_client.Issues tickets)
          /\ Forall (fun project =>
                       exists tickets,
                         searched startDate endDate (fst project) = jira_client.Issues tickets)
                    before
    end.
Proof.
  induction todo as [|[key name] todo IH]; intros allIssues.
  - cbn. exists []. split; [constructor | rewrite List.app_nil_r; reflexivity].
  - cbn [fetch_projects].
    destruct (searched startDate endDate key) as [found | page |] eqn:Hsearch.
    + specialize (IH (allIssues ++ found)%list).
      destruct (fetch_projects SearchV2JQL todo startDate endDate (allIssues ++ found)%list)
        as [err | all].
      * destruct IH as [before [key' [name' [after [Htodo [Herr [Hfail Hbefore]]]]]]].
        exists ((key, name) :: before), key', name', after.
        split; [rewrite Htodo; reflexivity |].
        split; [exact Herr |]. split; [exact Hfail |].
        constructor; [exists found; exact Hsearch | exact Hbefore].
      * destruct IH as [rest [Hall Heq]].
        exists (found :: rest). split; [constructor; [exact Hsearch | exact Hall] |].
        rewrite Heq. cbn [List.concat]. rewrite List.app_assoc. reflexivity.
    + exists [], key, name, todo.
      split; [reflexivity |]. split; [reflexivity |].
      split; [intros tickets; rewrite Hsearch; discriminate | constructor].
    + exists [], key, name, todo.
      split; [reflexivity |]. split; [reflexivity |].
      split; [intros tickets; rewrite Hsearch; discriminate | constructor].
Qed.

Lemma FetchInitialData_failed (st : State) (daysBack : Z) :
  let '(count, err, st') :=
    FetchInitialData client_Get decode SearchV2JQL TestConnection db_Exec time_Now st daysBack in
  (err <> None -> count = 0 /\ st' = st)
  /\ (TestConnection = false -> err = Some ErrConnection).
Proof.
  unfold FetchInitialData. destruct TestConnection; cbn [negb].
  - destruct (fetchAllO11YAlerts _ _ _) as [e | all].
    + split; [auto | discriminate].
    + destruct (process_all _ _ _ _ _ _) as [n st'].
      split; [intros H; contradiction H; reflexivity | discriminate].
  - split; auto.
Qed.

Lemma IncrementalUpdate_failed (st : State) :
  let '(count, err, st') :=
    IncrementalUpdate client_Get decode SearchV2JQL TestConnection db_Exec db_QueryRow
      time_Now st in
  (err <> None -> count = 0 /\ st' = st)
  /\ (TestConnection = false -> err = Some ErrConnection)
  /\ (TestConnection = true -> db_QueryRow = false -> err = Some ErrLatestDate).
Proof.
  unfold IncrementalUpdate, IncrementalUpdate_window.
  destruct TestConnection; cbn [negb].
  - destruct db_QueryRow; cbn [negb].
    + destruct (max_created _) as [latest|].
      * destruct (GoLib.time_Parse _ _) as [t|].
        -- destruct (fetchAllO11YAlerts _ _ _) as [e | all].
           ++ repeat split; first [discriminate | congruence | auto].
           ++ destruct (process_all _ _ _ _ _ _) as [n st'].
              repeat split; first [discriminate | congruence].
        -- repeat split; first [discriminate | congruence | auto].
      * destruct (fetchAllO11YAlerts _ _ _) as [e | all].
        -- repeat split; first [discriminate | congruence | auto].
        -- destruct (process_all _ _ _ _ _ _) as [n st'].
           repeat split; first [discriminate | congruence].
    + repeat split; first [discriminate | congruence | auto].
  - repeat split; first [discriminate | congruence | auto].
Qed.

End FetchFacts.

(** X13: An update that ends with an error stores nothing: the initial
    import and the incremental update return the count 0 and leave the
    database and the name cache as they were.  Both end with the
    connection error when the connection test fails, and the incremental
    update with the latest-date error when that query fails. *)
Theorem failed_update_stores_nothing {RT : GoLib.Runtime}
    (client_Get : nat -> string -> name_service.GetOutcome)
    (decode : string -> option name_service.nameApiResponse)
    (SearchV2JQL : nat -> string -> Z -> string -> option (list jira_client.jira_Issue * string))
    (TestConnection : bool) (db_Exec : nat -> bool) (db_QueryRow : bool)
    (time_Now : nat -> GoLib.Time) (st : data_updater.State) (daysBack : Z) :
  (let '(count, err, st') :=
     data_updater.FetchInitialData client_Get decode SearchV2JQL TestConnection db_Exec
       time_Now st daysBack in
   (err <> None -> count = 0 /\ st' = st)
   /\ (TestConnection = false -> err = Some data_updater.ErrConnection))
  /\ (let '(count, err, st') :=
        data_updater.IncrementalUpdate client_Get decode SearchV2JQL TestConnection db_Exec
          db_QueryRow time_Now st in
      (err <> None -> count = 0 /\ st' = st)
      /\ (TestConnection = false -> err = Some data_updater.ErrConnection)
      /\ (TestConnection = true -> db_QueryRow = false ->
          err = Some data_updater.ErrLatestDate)).
Proof.
  split; [apply FetchInitialData_failed | apply IncrementalUpdate_failed].
Qed.

(** X14: [fetchAllO11YAlerts] is all or nothing over the three
    projects.  It returns tickets only when the three searches returned
    tickets, and then those of O11YDEV, of O11YSTAG and of O11Y in this
    order; otherwise its error names the first project, in this order,
    whose search did not, the searches of the projects before it
    returned tickets, and those tickets are dropped. *)
Theorem fetch_is_all_or_nothing {RT : GoLib.Runtime}
    (SearchV2JQL : nat -> string -> Z -> string -> option (list jira_client.jira_Issue * string))
    (startDate endDate : GoLib.Time) :
  let searched key :=
    jira_client.result
      (jira_client.SearchAllIssues SearchV2JQL
         (data_updater.jql_of key startDate endDate) 100) in
  let failed key := forall tickets, searched key <> jira_client.Issues tickets in
  match data_updater.fetchAllO11YAlerts SearchV2JQL startDate endDate with
  | inr all =>
      exists dev stag prod,
        searched "O11YDEV" = jira_client.Issues dev
        /\ searched "O11YSTAG" = jira_client.Issues stag
        /\ searched "O11Y" = jira_client.Issues prod
        /\ all = (dev ++ stag ++ prod)%list
  | inl err =>
      (err = data_updater.ErrSearch "O11YDEV" /\ failed "O11YDEV")
      \/ (err = data_updater.ErrSearch "O11YSTAG"
          /\ (exists dev, searched "O11YDEV" = jira_client.Issues dev)
          /\ failed "O11YSTAG")
      \/ (err = data_updater.ErrSearch "O11Y"
          /\ (exists dev, searched "O11YDEV" = jira_client.Issues dev)
          /\ (exists stag, searched "O11YSTAG" = jira_client.Issues stag)
          /\ failed "O11Y")
  end.
Proof.
  intros searched_ failed.
  pose proof (fetch_projects_spec SearchV2JQL startDate endDate data_updater.projects [])
    as Hspec.
  unfold data_updater.fetchAllO11YAlerts.
  destruct (data_updater.fetch_projects SearchV2JQL data_updater.projects startDate endDate [])
    as [err | all].
  - destruct Hspec as [before [key [name [after [Htodo [Herr [Hfail Hbefore]]]]]]].
    unfold data_updater.projects in Htodo.
    destruct before as [|first before].
    { injection Htodo as <- _ _. left. split; [exact Herr | exact Hfail]. }
    injection Htodo as <- Htodo.
    apply List.Forall_cons_iff in Hbefore as [Hdev Hbefore]. cbn [fst] in Hdev.
    destruct before as [|second before].
    { injection Htodo as <- _ _. right. left.
      split; [exact Herr |]. split; [exact Hdev | exact Hfail]. }
    injection Htodo as <- Htodo.
    apply List.Forall_cons_iff in Hbefore as [Hstag Hbefore]. cbn [fst] in Hstag.
    destruct before as [|third before].
    { injection Htodo as <- _ _. right. right.
      split; [exact Herr |]. split; [exact Hdev |]. split; [exact Hstag | exact Hfail]. }
    injection Htodo as _ Htodo. destruct before; discriminate Htodo.
  - destruct Hspec as [found [Hall Heq]].
    unfold data_updater.projects in Hall.
    inversion Hall as [|? dev ? rest1 Hdev H1]; subst.
    inversion H1 as [|? stag ? rest2 Hstag H2]; subst.
    inversion H2 as [|? prod ? rest3 Hprod H3]; subst.
    inversion H3; subst.
    exists dev, stag, prod. cbn [fst] in *.
    repeat split; try assumption.
    cbn. rewrite List.app_nil_r. reflexivity.
Qed.

(** ** The rules of a component *)

Section RuleFacts.
Import rules rules_service.

Variable Walk : string -> list string.
Variable Join : string -> string -> string.
Variable Dir : string -> string.
Variable Base : string -> string.
Variable ReadYaml : string -> rules_service.error + RuleFile.
Variable WriteFile : string -> RuleFile -> bool.

Local Abbreviation scan := (rules_service.scan Walk Join Dir Base ReadYaml).

Lemma alert_rules_named (rf : RuleFile) (rule : Rule) :
  In rule (alert_rules rf) -> Alert rule <> "".
Proof.
  unfold alert_rules. rewrite List.in_flat_map. intros [group [_ Hin]].
  apply List.filter_In in Hin as [_ Hne]. apply negb_true_iff in Hne.
  apply String.eqb_neq. exact Hne.
Qed.

Lemma scan_In (s : RulesService) (paths : list string) (keep : Rule -> bool) (rule : Rule) :
  In rule (scan s paths keep) ->
  Alert rule <> ""
  /\ is_rule_file (FilePath rule) = true
  /\ Category rule = Base (Dir (FilePath rule))
  /\ (exists subDir,
        In subDir paths
        /\ In (FilePath rule) (Walk (Join (RepoPath s) (GoStrings.TrimSpace subDir))))
  /\ exists stored,
       keep stored = true
       /\ Labels stored = Labels rule
       /\ Alert stored = Alert rule.
Proof.
  unfold rules_service.scan. rewrite List.in_flat_map. intros [subDir [Hsub Hin]].
  apply List.in_flat_map in Hin as [path [Hpath Hin]].
  destruct (is_rule_file path) eqn:Hfile; cbn [negb] in Hin; [| destruct Hin].
  unfold parseFile in Hin. destruct (ReadYaml path) as [err | rf]; [destruct Hin |].
  apply List.in_map_iff in Hin as [stored [<- Hin]].
  apply List.filter_In in Hin as [Hin Hkeep]. cbn.
  split; [eapply alert_rules_named; exact Hin |].
  split; [exact Hfile |]. split; [reflexivity |].
  split; [exists subDir; auto |].
  exists stored. auto.
Qed.

Lemma component_matches_spec (componentName : string) (rule : Rule) :
  component_matches componentName rule = true ->
  exists label value,
    (label = "component" \/ label = "source_component")
    /\ Labels rule !! label = Some value
    /\ GoStrings.Contains (GoStrings.ToLower value) (GoStrings.ToLower componentName) = true.
Proof.
  unfold component_matches.
  destruct (Labels rule !! "component") as [comp|] eqn:Hcomp.
  - destruct (GoStrings.Contains (GoStrings.ToLower comp) _) eqn:Hc; cbn [negb].
    + intros _. exists "component", comp. auto.
    + destruct (Labels rule !! "source_component") as [src|] eqn:Hsrc; [| discriminate].
      intros H. exists "source_component", src. auto.
  - cbn [negb]. destruct (Labels rule !! "source_component") as [src|] eqn:Hsrc; [| discriminate].
    intros H. exists "source_component", src. auto.
Qed.

Lemma target_matches_spec (targetComp : string) (rule : Rule) :
  target_matches targetComp rule = true ->
  exists label value,
    (label = "component" \/ label = "source_component")
    /\ Labels rule !! label = Some value
    /\ (targetComp = "*"
        \/ GoStrings.Contains (GoStrings.ToLower value) (GoStrings.ToLower targetComp) = true).
Proof.
  unfold target_matches.
  assert (forall v, String.eqb targetComp "*"
                    || GoStrings.Contains (GoStrings.ToLower v) (GoStrings.ToLower targetComp)
                    = true ->
                    targetComp = "*"
                    \/ GoStrings.Contains (GoStrings.ToLower v) (GoStrings.ToLower targetComp)
                       = true) as Hor.
  { intros v H. apply orb_true_iff in H as [H | H]; [left; apply String.eqb_eq; exact H | auto]. }
  destruct (Labels rule !! "component") as [comp|] eqn:Hcomp.
  - destruct (String.eqb targetComp "*" || _) eqn:Hc; cbn [negb].
    + intros _. exists "component", comp. auto.
    + destruct (Labels rule !! "source_component") as [src|] eqn:Hsrc; [| discriminate].
      intros H. exists "source_component", src. auto.
  - cbn [negb]. destruct (Labels rule !! "source_component") as [src|] eqn:Hsrc; [| discriminate].
    intros H. exists "source_component", src. auto.
Qed.

Lemma wildcard_matches (rule : Rule) :
  targets_match ["*"] rule
  = bool_decide (is_Some (Labels rule !! "component"))
    || bool_decide (is_Some (Labels rule !! "source_component")).
Proof.
  unfold targets_match, target_matches. cbn [List.existsb]. rewrite orb_false_r.
  destruct (Labels rule !! "component"), (Labels rule !! "source_component"); reflexivity.
Qed.

Lemma scan_ext (s : RulesService) (paths : list string) (keep keep' : Rule -> bool) :
  (forall rule, keep rule = keep' rule) -> scan s paths keep = scan s paths keep'.
Proof.
  intros Hkeep. unfold rules_service.scan.
  apply List.flat_map_ext. intros subDir.
  apply List.flat_map_ext. intros path.
  destruct (is_rule_file path); [| reflexivity]. cbn [negb].
  destruct (parseFile ReadYaml path); [| reflexivity].
  f_equal. apply List.filter_ext. exact Hkeep.
Qed.

(** The rules of a file, group after group. *)
Local Abbreviation all_rules rf := (List.concat (map Rules (Groups rf))).

Lemma replace_rule_spec (oldAlertName : string) (updatedRule : Rule) (rules_ : list Rule) :
  match replace_rule oldAlertName updatedRule rules_ with
  | Some rules' =>
      exists before rule after,
        rules_ = (before ++ rule :: after)%list
        /\ Alert rule = oldAlertName
        /\ List.Forall (fun r => Alert r <> oldAlertName) before
        /\ rules' = (before ++ updatedRule :: after)%list
  | None => List.Forall (fun r => Alert r <> oldAlertName) rules_
  end.
Proof.
  induction rules_ as [|rule rest IH]; cbn [replace_rule]; [constructor |].
  destruct (String.eqb_spec (Alert rule) oldAlertName) as [Heq | Hne].
  - exists [], rule, rest. repeat split; [exact Heq | constructor].
  - destruct (replace_rule oldAlertName updatedRule rest) as [rest'|].
    + destruct IH as [before [found [after [-> [Hfound [Hbefore ->]]]]]].
      exists (rule :: before), found, after.
      repeat split; [exact Hfound | constructor; assumption].
    + constructor; assumption.
Qed.

Lemma replace_in_groups_spec (oldAlertName : string) (updatedRule : Rule)
    (groups : list RuleGroup) :
  match replace_in_groups oldAlertName updatedRule groups with
  | Some groups' =>
      map Name groups' = map Name groups
      /\ map (fun group => List.length (Rules group)) groups'
         = map (fun group => List.length (Rules group)) groups
      /\ exists before rule after,
           List.concat (map Rules groups) = (before ++ rule :: after)%list
           /\ Alert rule = oldAlertName
           /\ List.Forall (fun r => Alert r <> oldAlertName) before
           /\ List.concat (map Rules groups') = (before ++ updatedRule :: after)%list
  | None => List.Forall (fun r => Alert r <> oldAlertName) (List.concat (map Rules groups))
  end.
Proof.
  induction groups as [|group rest IH]; cbn [replace_in_groups]; [constructor |].
  pose proof (replace_rule_spec oldAlertName updatedRule (Rules group)) as Hgroup.
  destruct (replace_rule oldAlertName updatedRule (Rules group)) as [rules'|].
  - destruct Hgroup as [before [rule [after [Hrules [Hrule [Hbefore ->]]]]]].
    cbn [map Name Rules List.concat]. rewrite Hrules.
    split; [reflexivity |].
    split; [rewrite !List.length_app; reflexivity |].
    exists before, rule, (after ++ List.concat (map Rules rest))%list.
    rewrite <- !List.app_assoc. repeat split; assumption.
  - destruct (replace_in_groups oldAlertName updatedRule rest) as [rest'|].
    + destruct IH as [Hnames [Hlengths [before [rule [after [Hall [Hrule [Hbefore Hall']]]]]]]].
      cbn [map List.concat]. rewrite Hnames, Hlengths, Hall, Hall'.
      split; [reflexivity |]. split; [reflexivity |].
      exists (Rules group ++ before)%list, rule, after.
      rewrite <- !List.app_assoc. repeat split; try assumption.
      apply List.Forall_app. split; assumption.
    + cbn [map List.concat]. apply List.Forall_app. split; assumption.
Qed.

End RuleFacts.

(** X15: The rules returned for a component come from rule files, have
    an alert name, carry the path of their file and the name of its
    directory as category, and have a [component] or [source_component]
    label that, when the label and the target name are text of ASCII,
    contains the target name, case not regarded; with a category, the
    target [*] stands for any value of the label.  On other text
    [strings.ToLower] also lowers the capitals of Unicode, and the label
    contains the name after that. *)
Theorem returned_rules_match_the_component
    (Walk : string -> list string) (Join : string -> string -> string)
    (Dir Base : string -> string)
    (ReadYaml : string -> rules_service.error + rules.RuleFile)
    (s : rules_service.RulesService) (componentName category : string) :
  let from_a_rule_file rule :=
    rules.Alert rule <> ""
    /\ (GoStrings.HasSuffix (rules.FilePath rule) ".yaml" = true
        \/ GoStrings.HasSuffix (rules.FilePath rule) ".yml" = true)
    /\ rules.Category rule = Base (Dir (rules.FilePath rule)) in
  let targets :=
    match rules_service.ComponentGroups s !! componentName with
    | Some group => group
    | None => [componentName]
    end in
  List.Forall
    (fun rule =>
       from_a_rule_file rule
       /\ exists label value,
            (label = "component" \/ label = "source_component")
            /\ rules.Labels rule !! label = Some value
            /\ (GoUtf8.ascii_only value = true ->
                GoUtf8.ascii_only componentName = true ->
                GoStrings.Contains (GoStrings.ToLower value)
                  (GoStrings.ToLower componentName) = true))
    (rules_service.GetRulesForComponent Walk Join Dir Base ReadYaml s componentName)
  /\ List.Forall
       (fun rule =>
          from_a_rule_file rule
          /\ exists label value target,
               (label = "component" \/ label = "source_component")
               /\ rules.Labels rule !! label = Some value
               /\ In target targets
               /\ (target = "*"
                   \/ (GoUtf8.ascii_only value = true ->
                       GoUtf8.ascii_only target = true ->
                       GoStrings.Contains (GoStrings.ToLower value)
                         (GoStrings.ToLower target) = true)))
       (rules_service.GetRulesForComponentAndCategory Walk Join Dir Base ReadYaml s
          componentName category).
Proof.
  intros from_a_rule_file targets. split; apply List.Forall_forall; intros rule Hin.
  - apply scan_In in Hin as [Hname [Hfile [Hcat [_ [stored [Hkeep [Hlabels _]]]]]]].
    split.
    { split; [exact Hname |]. split; [| exact Hcat].
      apply orb_true_iff. exact Hfile. }
    apply component_matches_spec in Hkeep as [label [value [Hlabel [Hvalue Hcontains]]]].
    exists label, value. rewrite <- Hlabels. auto.
  - apply scan_In in Hin as [Hname [Hfile [Hcat [_ [stored [Hkeep [Hlabels _]]]]]]].
    split.
    { split; [exact Hname |]. split; [| exact Hcat].
      apply orb_true_iff. exact Hfile. }
    apply List.existsb_exists in Hkeep as [target [Htarget Hmatch]].
    apply target_matches_spec in Hmatch as [label [value [Hlabel [Hvalue Hcontains]]]].
    exists label, value, target. rewrite <- Hlabels.
    destruct Hcontains as [Hany | Hcontains]; auto 6.
Qed.

Section RuleHandlerFacts.
Import rules rules_service component_handlers.

Lemma filter_map_comm {A B : Type} (f : A -> B) (p : B -> bool) (l : list A) :
  List.filter p (map f l) = map f (List.filter (fun x => p (f x)) l).
Proof.
  induction l as [|x l IH]; [reflexivity |].
  cbn [map List.filter]. destruct (p (f x)); cbn [map]; rewrite IH; reflexivity.
Qed.

Lemma filter_all {A : Type} (p : A -> bool) (l : list A) :
  (forall x, p x = true) -> List.filter p l = l.
Proof.
  intros Hp. induction l as [|x l IH]; [reflexivity |].
  cbn [List.filter]. rewrite Hp, IH. reflexivity.
Qed.

End RuleHandlerFacts.

(** X16: The [rule_type] parameter of the rules of a component.  Every
    rule of the answer is tagged [logging] when the path of its file
    contains [/logging/] and [prometheus] otherwise; [logging] and
    [prometheus] select the rules of the answer without the parameter
    that carry the tag; any other value that is not empty gives an
    empty answer. *)
Theorem rule_type_selects_by_path
    (Walk : string -> list string) (Join : string -> string -> string)
    (Dir Base : string -> string)
    (ReadYaml : string -> rules_service.error + rules.RuleFile)
    (svc : rules_service.RulesService) (name category ruleType : string) :
  let answer := component_handlers.GetComponentRules Walk Join Dir Base ReadYaml svc
                  name category in
  let tagged tag := List.filter (fun r => String.eqb (component_handlers.RuleType r) tag) in
  List.Forall
    (fun r =>
       component_handlers.RuleType r
       = if GoStrings.Contains (rules.FilePath (component_handlers.Rule_ r)) "/logging/"
         then "logging" else "prometheus")
    (answer ruleType)
  /\ answer "logging" = tagged "logging" (answer "")
  /\ answer "prometheus" = tagged "prometheus" (answer "")
  /\ (ruleType <> "" -> ruleType <> "logging" -> ruleType <> "prometheus" ->
      answer ruleType = []).
Proof.
  intros answer tagged. subst answer tagged.
  unfold component_handlers.GetComponentRules.
  set (rules_ := if negb (String.eqb category "") then _ else _).
  split; [| split; [| split]].
  - apply List.Forall_forall. intros r Hin.
    apply List.in_map_iff in Hin as [rule [<- _]]. reflexivity.
  - cbn [String.eqb Ascii.eqb Bool.eqb negb andb]. rewrite filter_map_comm. f_equal.
    apply List.filter_ext. intros rule. cbn [component_handlers.RuleType].
    unfold component_handlers.isLogging.
    destruct (GoStrings.Contains (rules.FilePath rule) "/logging/"); reflexivity.
  - cbn [String.eqb Ascii.eqb Bool.eqb negb andb]. rewrite filter_map_comm. f_equal.
    apply List.filter_ext. intros rule. cbn [component_handlers.RuleType].
    unfold component_handlers.isLogging.
    destruct (GoStrings.Contains (rules.FilePath rule) "/logging/"); reflexivity.
  - intros Hempty Hlogging Hprometheus.
    destruct (String.eqb_spec ruleType "") as [? | _]; [contradiction |].
    destruct (String.eqb_spec ruleType "logging") as [? | _]; [contradiction |].
    destruct (String.eqb_spec ruleType "prometheus") as [? | _]; [contradiction |].
    cbn [negb andb]. rewrite filter_none; [reflexivity |]. reflexivity.
Qed.

(** X17: An update of a rule through the handler.  The answer is 400,
    with nothing written, exactly when the body does not bind or has an
    empty file path or an empty original alert name.  The answer 200
    means that the file was read, that it had a rule of that name, and
    that the document written is the file with the first such rule, in
    the order of the groups, replaced by the rule of the request: the
    groups keep their names and sizes and every other rule stays where
    it was.  When no rule has the name, nothing is written. *)
Theorem rule_update_replaces_the_first_match
    (ReadYaml : string -> rules_service.error + rules.RuleFile)
    (WriteFile : string -> rules.RuleFile -> bool)
    (body : option component_handlers.UpdateRuleRequest) :
  let all_rules rf := List.concat (map rules.Rules (rules.Groups rf)) in
  let refused :=
    match body with
    | None => True
    | Some req =>
        component_handlers.req_FilePath req = ""
        \/ component_handlers.OriginalAlert req = ""
    end in
  match component_handlers.UpdateComponentRule ReadYaml WriteFile body with
  | (status, written) =>
      (status = 400 \/ status = 500 \/ status = 200)
      /\ (status = 400 <-> refused)
      /\ (status = 400 -> written = None)
      /\ (forall req, body = Some req ->
          forall rf, ReadYaml (component_handlers.req_FilePath req) = inr rf ->
          List.Forall
            (fun r => rules.Alert r <> component_handlers.OriginalAlert req)
            (all_rules rf) ->
          status <> 200 /\ written = None)
      /\ (status = 200 ->
          exists req rf rf' before rule after,
            body = Some req
            /\ ReadYaml (component_handlers.req_FilePath req) = inr rf
            /\ written = Some rf'
            /\ WriteFile (component_handlers.req_FilePath req) rf' = true
            /\ all_rules rf = (before ++ rule :: after)%list
            /\ rules.Alert rule = component_handlers.OriginalAlert req
            /\ List.Forall
                 (fun r => rules.Alert r <> component_handlers.OriginalAlert req) before
            /\ all_rules rf' = (before ++ component_handlers.req_Rule req :: after)%list
            /\ map rules.Name (rules.Groups rf') = map rules.Name (rules.Groups rf)
            /\ map (fun group => List.length (rules.Rules group)) (rules.Groups rf')
               = map (fun group => List.length (rules.Rules group)) (rules.Groups rf))
  end.
Proof.
  intros all_rules refused. subst all_rules refused.
  unfold component_handlers.UpdateComponentRule.
  destruct body as [req|].
  2:{ split; [auto |]. split; [tauto |]. split; [reflexivity |].
      split; [intros req H; discriminate H | intros H; discriminate H]. }
  destruct (String.eqb_spec (component_handlers.req_FilePath req) "") as [Hpath | Hpath].
  { cbn [orb]. split; [auto |]. split; [tauto |]. split; [reflexivity |].
    split; [| intros H; discriminate H].
    intros req' [= <-] rf Hread Hnone. split; [discriminate | reflexivity]. }
  destruct (String.eqb_spec (component_handlers.OriginalAlert req) "") as [Hold | Hold].
  { cbn [orb]. split; [auto |]. split; [tauto |]. split; [reflexivity |].
    split; [| intros H; discriminate H].
    intros req' [= <-] rf Hread Hnone. split; [discriminate | reflexivity]. }
  cbn [orb]. unfold rules_service.UpdateRule.
  destruct (ReadYaml (component_handlers.req_FilePath req)) as [err | rf] eqn:Hread.
  { split; [auto |]. split; [split; [discriminate | tauto] |].
    split; [discriminate |].
    split; [| discriminate].
    intros req' [= <-] rf Hread'. rewrite Hread in Hread'. discriminate Hread'. }
  pose proof (replace_in_groups_spec (component_handlers.OriginalAlert req)
                (component_handlers.req_Rule req) (rules.Groups rf)) as Hspec.
  destruct (rules_service.replace_in_groups _ _ (rules.Groups rf)) as [groups|].
  - destruct Hspec as [Hnames [Hsizes [before [rule [after [Hall [Hrule [Hbefore Hall']]]]]]]].
    destruct (WriteFile _ _) eqn:Hwrite.
    + split; [auto |]. split; [split; [discriminate | tauto] |].
      split; [discriminate |].
      split.
      { intros req' [= <-] rf0 Hread' Hnone. exfalso.
        rewrite Hread in Hread'. injection Hread' as <-.
        rewrite Hall in Hnone. apply List.Forall_app in Hnone as [_ Hnone].
        inversion Hnone; subst. contradiction. }
      intros _. exists req, rf, (rules.mkRuleFile groups), before, rule, after.
      repeat split; assumption.
    + split; [auto |]. split; [split; [discriminate | tauto] |].
      split; [discriminate |].
      split; [| discriminate].
      intros req' [= <-] rf0 Hread' Hnone. exfalso.
        rewrite Hread in Hread'. injection Hread' as <-.
      rewrite Hall in Hnone. apply List.Forall_app in Hnone as [_ Hnone].
      inversion Hnone; subst. contradiction.
  - split; [auto |]. split; [split; [discriminate | tauto] |].
    split; [discriminate |].
    split; [| discriminate].
    intros req' [= <-] rf0 _ _. split; [discriminate | reflexivity].
Qed.

Section RuleSearchFacts.
Import rules rules_service.

Variable Walk : string -> list string.
Variable Join : string -> string -> string.
Variable Dir : string -> string.
Variable Base : string -> string.
Variable ReadYaml : string -> rules_service.error + RuleFile.

Lemma scan_complete (s : RulesService) (paths : list string) (keep : Rule -> bool)
    (subDir path : string) (rf : RuleFile) (group : RuleGroup) (rule : Rule) :
  In subDir paths ->
  In path (Walk (Join (RepoPath s) (GoStrings.TrimSpace subDir))) ->
  is_rule_file path = true ->
  ReadYaml path = inr rf ->
  In group (Groups rf) ->
  In rule (Rules group) ->
  Alert rule <> "" ->
  keep rule = true ->
  In (mkRule (Alert rule) (Expr rule) (For rule) (Labels rule) (Annotations rule)
             path (Base (Dir path)))
     (rules_service.scan Walk Join Dir Base ReadYaml s paths keep).
Proof.
  intros Hsub Hpath Hfile Hread Hgroup Hrule Hname Hkeep.
  unfold rules_service.scan. apply List.in_flat_map. exists subDir. split; [exact Hsub |].
  apply List.in_flat_map. exists path. split; [exact Hpath |].
  rewrite Hfile. cbn [negb]. unfold parseFile. rewrite Hread.
  apply List.in_map_iff. exists rule. split; [reflexivity |].
  apply List.filter_In. split; [| exact Hkeep].
  unfold alert_rules. apply List.in_flat_map. exists group. split; [exact Hgroup |].
  apply List.filter_In. split; [exact Hrule |].
  apply negb_true_iff, String.eqb_neq. exact Hname.
Qed.

End RuleSearchFacts.

(** X18: No rule that matches is left out.  A rule with an alert name,
    in a rule file that is read under one of the directories searched,
    is returned for a component when its [component] label contains the
    name, case not regarded; and, with a category, it is returned for
    the component [Serverless] as soon as it has a [component] or a
    [source_component] label, unless the configuration defines a group
    named [*]. *)
Theorem matching_rules_are_returned
    (Walk : string -> list string) (Join : string -> string -> string)
    (Dir Base : string -> string)
    (ReadYaml : string -> rules_service.error + rules.RuleFile)
    (svc : rules_service.RulesService) (componentName category subDir path : string)
    (rf : rules.RuleFile) (group : rules.RuleGroup) (rule : rules.Rule) :
  In path (Walk (Join (rules_service.RepoPath svc) (GoStrings.TrimSpace subDir))) ->
  GoStrings.HasSuffix path ".yaml" = true \/ GoStrings.HasSuffix path ".yml" = true ->
  ReadYaml path = inr rf ->
  In group (rules.Groups rf) ->
  In rule (rules.Rules group) ->
  rules.Alert rule <> "" ->
  let returned :=
    rules.mkRule (rules.Alert rule) (rules.Expr rule) (rules.For rule) (rules.Labels rule)
      (rules.Annotations rule) path (Base (Dir path)) in
  let categoryPaths :=
    match rules_service.CategoryPathsMap svc !! category with
    | Some (first :: more) => first :: more
    | _ => rules_service.SubDirs svc
    end in
  (In subDir (rules_service.SubDirs svc) ->
   (exists value,
      rules.Labels rule !! "component" = Some value
      /\ GoStrings.Contains (GoStrings.ToLower value) (GoStrings.ToLower componentName)
         = true) ->
   In returned
      (rules_service.GetRulesForComponent Walk Join Dir Base ReadYaml svc componentName))
  /\ (category <> "" ->
      In subDir categoryPaths ->
      rules_service.ComponentGroups svc !! "*" = None ->
      is_Some (rules.Labels rule !! "component")
      \/ is_Some (rules.Labels rule !! "source_component") ->
      In returned
         (map component_handlers.Rule_
            (component_handlers.GetComponentRules Walk Join Dir Base ReadYaml svc
               "Serverless" category ""))).
Proof.
  intros Hpath Hfile Hread Hgroup Hrule Hname returned categoryPaths.
  apply orb_true_iff in Hfile. fold (rules_service.is_rule_file path) in Hfile.
  split.
  - intros Hsub [value [Hlabel Hcontains]].
    unfold rules_service.GetRulesForComponent.
    apply (scan_complete Walk Join Dir Base ReadYaml svc _ _ subDir path rf group rule);
      try assumption.
    unfold rules_service.component_matches. rewrite Hlabel, Hcontains. reflexivity.
  - intros Hcategory Hsub Hgroups Hlabel.
    unfold component_handlers.GetComponentRules.
    destruct (String.eqb_spec category "") as [? | _]; [contradiction |].
    cbn [negb String.eqb Ascii.eqb Bool.eqb].
    rewrite List.map_map. cbn [component_handlers.Rule_]. rewrite List.map_id.
    unfold rules_service.GetRulesForComponentAndCategory. rewrite Hgroups.
    apply (scan_complete Walk Join Dir Base ReadYaml svc _ _ subDir path rf group rule);
      try assumption.
    rewrite wildcard_matches. apply orb_true_iff.
    destruct Hlabel as [H | H]; [left | right]; apply bool_decide_eq_true; exact H.
Qed.

Lemma matching_rules_are_returned_witness :
  let rule :=
    rules.mkRule "TiKVDown" "up == 0" "5m" {[ "component" := "TiKV" ]} ∅ "" "" in
  let recording := rules.mkRule "" "sum(up)" "" {[ "component" := "TiKV" ]} ∅ "" "" in
  let rf := rules.mkRuleFile [rules.mkGroup "tikv" [recording; rule]] in
  let Walk := fun root : string => [root ++ "/tikv.yaml"] in
  let svc := rules_service.mkService "/repo" ["rules/dedicated"] ∅ ∅ in
  In (rules.mkRule "TiKVDown" "up == 0" "5m" {[ "component" := "TiKV" ]} ∅
        "/repo/rules/dedicated/tikv.yaml" "dedicated")
     (rules_service.GetRulesForComponent Walk (fun a b => a ++ "/" ++ b)
        (fun p => "dedicated") (fun p => p) (fun _ => inr rf) svc "tikv").
Proof.
  intros rule recording rf Walk svc.
  exact (proj1 (matching_rules_are_returned Walk (fun a b => a ++ "/" ++ b)
                  (fun p => "dedicated") (fun p => p) (fun _ => inr rf) svc "tikv" ""
                  "rules/dedicated" "/repo/rules/dedicated/tikv.yaml" rf
                  (rules.mkGroup "tikv" [recording; rule]) rule
                  ltac:(left; reflexivity) ltac:(left; reflexivity) eq_refl
                  ltac:(left; reflexivity) ltac:(right; left; reflexivity)
                  ltac:(discriminate))
               ltac:(left; reflexivity)
               ltac:(exists "TiKV"; split; reflexivity)).
Defined.

(** ** The list of components *)

Section ComponentListFacts.
Import component_handlers.
Variable categoryMap : gmap string string.

Local Abbreviation getCategory := (components.getCategory categoryMap).
Local Abbreviation respond := (component_handlers.respond categoryMap).

Lemma respond_entries (names : list string) :
  forall (seen : gset string) (r : ComponentResponse),
    In r (respond seen names) ->
    ID r <> "" /\ Name r = ID r /\ Status r = "Healthy"
    /\ Category r = getCategory (ID r) /\ Category r <> "Other"
    /\ In (ID r) names /\ ID r ∉ seen.
Proof.
  induction names as [|name names IH]; intros seen r Hin; [destruct Hin |].
  cbn [component_handlers.respond] in Hin.
  destruct (String.eqb_spec name "") as [Hempty | Hname].
  { apply IH in Hin. destruct Hin as [H1 [H2 [H3 [H4 [H5 [H6 H7]]]]]].
    repeat split; try assumption. right. exact H6. }
  destruct (String.eqb_spec (getCategory name) "Other") as [Hother | Hcat].
  { apply IH in Hin. destruct Hin as [H1 [H2 [H3 [H4 [H5 [H6 H7]]]]]].
    repeat split; try assumption. right. exact H6. }
  destruct (bool_decide (name ∈ seen)) eqn:Hseen; cbn [negb] in Hin.
  { apply IH in Hin. destruct Hin as [H1 [H2 [H3 [H4 [H5 [H6 H7]]]]]].
    repeat split; try assumption. right. exact H6. }
  apply bool_decide_eq_false in Hseen.
  destruct Hin as [<- | Hin].
  - cbn [ID Name Status Category]. repeat split; try assumption.
    + left. reflexivity.
  - apply IH in Hin. destruct Hin as [H1 [H2 [H3 [H4 [H5 [H6 H7]]]]]].
    repeat split; try assumption; [right; exact H6 |].
    intros Hs. apply H7. apply elem_of_union. right. exact Hs.
Qed.

Lemma respond_NoDup (names : list string) :
  forall seen : gset string, NoDup (map ID (respond seen names)).
Proof.
  induction names as [|name names IH]; intros seen; [constructor |].
  cbn [component_handlers.respond].
  destruct (String.eqb name ""); [apply IH |].
  destruct (String.eqb (getCategory name) "Other"); [apply IH |].
  destruct (bool_decide (name ∈ seen)); cbn [negb]; [apply IH |].
  cbn [map ID]. apply NoDup_cons. split; [| apply IH].
  intros Hin. apply list_elem_of_In, List.in_map_iff in Hin as [r [Hid Hr]].
  apply respond_entries in Hr as [_ [_ [_ [_ [_ [_ Hnot]]]]]].
  apply Hnot. rewrite Hid. apply elem_of_union. left. apply elem_of_singleton. reflexivity.
Qed.

Lemma respond_complete (names : list string) (name : string) :
  forall seen : gset string,
    In name names -> name <> "" -> getCategory name <> "Other" -> name ∉ seen ->
    In (mkComponent name name (getCategory name) "Healthy") (respond seen names).
Proof.
  induction names as [|first names IH]; intros seen Hin Hname Hcat Hseen; [destruct Hin |].
  cbn [component_handlers.respond].
  destruct (String.eqb_spec first name) as [-> | Hne].
  - destruct (String.eqb_spec name "") as [? | _]; [contradiction |].
    destruct (String.eqb_spec (getCategory name) "Other") as [? | _]; [contradiction |].
    rewrite bool_decide_eq_false_2 by exact Hseen. left. reflexivity.
  - destruct Hin as [? | Hin]; [contradiction |].
    destruct (String.eqb first ""); [apply IH; assumption |].
    destruct (String.eqb (getCategory first) "Other"); [apply IH; assumption |].
    destruct (bool_decide (first ∈ seen)); cbn [negb]; [apply IH; assumption |].
    right. apply IH; try assumption.
    intros Hs. apply elem_of_union in Hs as [Hs | Hs]; [| contradiction].
    apply elem_of_singleton in Hs. congruence.
Qed.

Lemma distinct_complete (values : list string) (v : string) :
  forall seen : gset string, In v values -> v ∉ seen -> In v (distinct seen values).
Proof.
  induction values as [|first values IH]; intros seen Hin Hseen; [destruct Hin |].
  cbn [distinct]. destruct (String.eqb_spec first v) as [-> | Hne].
  - rewrite bool_decide_eq_false_2 by exact Hseen. left. reflexivity.
  - destruct Hin as [? | Hin]; [contradiction |].
    destruct (bool_decide (first ∈ seen)); [apply IH; assumption |].
    right. apply IH; [assumption |].
    intros Hs. apply elem_of_union in Hs as [Hs | Hs]; [| contradiction].
    apply elem_of_singleton in Hs. congruence.
Qed.

Lemma count_positive (p : models.Issue -> bool) (rows : list models.Issue) :
  Z.ltb 0 (models.count p rows) = true <-> exists i, In i rows /\ p i = true.
Proof.
  unfold models.count. rewrite Z.ltb_lt. split.
  - intros Hpos. destruct (List.filter p rows) as [|i kept] eqn:Hkept; [cbn in Hpos; lia |].
    exists i. apply List.filter_In. rewrite Hkept. left. reflexivity.
  - intros [i Hi]. apply List.filter_In in Hi.
    destruct (List.filter p rows); [destruct Hi | cbn; lia].
Qed.

Context {RT : GoLib.Runtime}.

Lemma component_names_Serverless (stats : list ComponentStat) (issues : list models.Issue) :
  In "Serverless" (component_names stats issues).
Proof.
  unfold component_names.
  match goal with
  | |- context [List.existsb ?p ?l] => generalize l; intros names
  end.
  destruct (List.existsb _ names) eqn:Hex.
  - apply List.existsb_exists in Hex as [name [Hin Heq]].
    apply String.eqb_eq in Heq. subst name. exact Hin.
  - apply List.in_or_app. right. left. reflexivity.
Qed.

Lemma component_names_stats (stats : list ComponentStat) (issues : list models.Issue)
    (name : string) :
  In name (map Component stats) -> In name (component_names stats issues).
Proof.
  intros Hin. unfold component_names.
  pose proof (distinct_complete (map Component stats) name ∅ Hin ltac:(set_solver)) as Hd.
  destruct (distinct ∅ (map Component stats)) as [|first rest] eqn:Hdistinct;
    [destruct Hd |].
  destruct (List.existsb _ (first :: rest)); [exact Hd |].
  apply List.in_or_app. left. exact Hd.
Qed.

End ComponentListFacts.

(** X19: The list of components.  Every entry has a name that is not
    empty and a category other than [Other]; apart from the entry
    [old-rules], its category is the configured one.  [Serverless] is
    always listed, and so is every configured component that has a row
    of statistics.  [old-rules] is listed, under [Resilience], when some
    alert has no stability governance and a business type without
    [nextgen].  Unless the configuration names a component [old-rules],
    no id is listed twice and [old-rules] is listed only in that case. *)
Theorem component_list_is_configured {RT : GoLib.Runtime}
    (categoryMap : gmap string string)
    (stats : list component_handlers.ComponentStat) (issues : list models.Issue) :
  let response := component_handlers.GetComponents categoryMap stats issues in
  let legacy := component_handlers.mkComponent "old-rules" "old-rules" "Resilience" "Healthy" in
  let some_legacy_alert :=
    exists i, In i issues
      /\ data_updater.IsAlert i = true
      /\ data_updater.StabilityGovernance i = ""
      /\ Sqlite.like "%nextgen%" (data_updater.BizType i) = false in
  List.Forall
    (fun r =>
       component_handlers.ID r <> ""
       /\ component_handlers.Name r = component_handlers.ID r
       /\ component_handlers.Status r = "Healthy"
       /\ component_handlers.Category r <> "Other"
       /\ (r = legacy
           \/ component_handlers.Category r
              = components.getCategory categoryMap (component_handlers.ID r)))
    response
  /\ In (component_handlers.mkComponent "Serverless" "Serverless" "Serverless" "Healthy")
        response
  /\ (forall name,
        In name (map component_handlers.Component stats) ->
        name <> "" ->
        components.getCategory categoryMap name <> "Other" ->
        In (component_handlers.mkComponent name name
              (components.getCategory categoryMap name) "Healthy") response)
  /\ (some_legacy_alert -> In legacy response)
  /\ (categoryMap !! "old-rules" = None ->
      NoDup (map component_handlers.ID response)
      /\ (In "old-rules" (map component_handlers.ID response) -> some_legacy_alert)).
Proof.
  intros response legacy some_legacy_alert.
  assert (Z.ltb 0 (models.count (fun i => data_updater.IsAlert i && api.old_rules i) issues)
          = true <-> some_legacy_alert) as Hlegacy.
  { rewrite count_positive. subst some_legacy_alert. unfold api.old_rules.
    split; intros [i [Hin H]]; exists i; (split; [exact Hin |]).
    - apply andb_true_iff in H as [Halert H]. apply andb_true_iff in H as [Hgov Hbiz].
      apply String.eqb_eq in Hgov. apply negb_true_iff in Hbiz. auto.
    - destruct H as [-> [-> ->]]. reflexivity. }
  subst response. unfold component_handlers.GetComponents.
  set (names := component_handlers.component_names stats issues).
  set (listed := component_handlers.respond categoryMap ∅ names).
  assert (List.Forall
            (fun r =>
               component_handlers.ID r <> ""
               /\ component_handlers.Name r = component_handlers.ID r
               /\ component_handlers.Status r = "Healthy"
               /\ component_handlers.Category r <> "Other"
               /\ (r = legacy
                   \/ component_handlers.Category r
                      = components.getCategory categoryMap (component_handlers.ID r)))
            listed) as Hlisted.
  { apply List.Forall_forall. intros r Hr.
    apply respond_entries in Hr. intuition. }
  assert (In (component_handlers.mkComponent "Serverless" "Serverless" "Serverless" "Healthy")
             listed) as Hserverless.
  { apply (respond_complete categoryMap names "Serverless" ∅).
    - apply component_names_Serverless.
    - discriminate.
    - discriminate.
    - set_solver. }
  assert (forall name,
            In name (map component_handlers.Component stats) ->
            name <> "" ->
            components.getCategory categoryMap name <> "Other" ->
            In (component_handlers.mkComponent name name
                  (components.getCategory categoryMap name) "Healthy") listed) as Hstats.
  { intros name Hin Hname Hcat.
    apply (respond_complete categoryMap names name ∅); try assumption.
    - apply component_names_stats. exact Hin.
    - set_solver. }
  assert (categoryMap !! "old-rules" = None ->
          ~ In "old-rules" (map component_handlers.ID listed)) as Hnot.
  { intros Hmap Hin. apply List.in_map_iff in Hin as [r [Hid Hr]].
    apply respond_entries in Hr as [_ [_ [_ [Hcat [Hother _]]]]].
    apply Hother. rewrite Hcat, Hid. unfold components.getCategory.
    cbn [String.eqb Ascii.eqb Bool.eqb]. rewrite Hmap. reflexivity. }
  destruct (Z.ltb 0 _) eqn:Hcount.
  - split.
    { apply List.Forall_app. split; [exact Hlisted |].
      constructor; [| constructor].
      repeat split; try discriminate. left. reflexivity. }
    split; [apply List.in_or_app; left; exact Hserverless |].
    split; [intros name H1 H2 H3; apply List.in_or_app; left; auto |].
    split; [intros _; apply List.in_or_app; right; left; reflexivity |].
    intros Hmap. split; [| intros _; apply Hlegacy; reflexivity].
    rewrite map_app. apply NoDup_app.
    split; [apply respond_NoDup |].
    split; [| apply NoDup_singleton].
    intros id Hid Hold. apply list_elem_of_In in Hid, Hold.
    destruct Hold as [<- | []]. exact (Hnot Hmap Hid).
  - split; [exact Hlisted |]. split; [exact Hserverless |]. split; [exact Hstats |].
    split.
    { intros Hsome. apply Hlegacy in Hsome. discriminate Hsome. }
    intros Hmap. split; [apply respond_NoDup |].
    intros Hin. destruct (Hnot Hmap Hin).
Qed.

(** When the configuration does name a component [old-rules], the list
    can show the id twice. *)
Example configured_old_rules_is_listed_twice :
  map component_handlers.ID
    (component_handlers.GetComponents (RT := SampleRuntime.runtime)
       {[ "old-rules" := "Resilience" ]}
       [component_handlers.mkComponentStat "old-rules" "2025-01-15" 1]
       [Samples.alert_row "O11Y-1" "alert: disk" "2025-01-15 10:30:45 UTC" "[]" "dedicated" ""])
  = ["old-rules"; "Serverless"; "old-rules"].
Proof. vm_compute. reflexivity. Qed.

(** X20: [resolveNameInfo] never fails and sends at most one request:
    none for a component of the category [Serverless], nor for an id
    that is not a number.  Whenever the id is not in the cache after the
    call, the answer is the id itself as name. *)
Theorem resolveNameInfo_falls_back_to_the_id
    (categoryMap : gmap string string)
    (client_Get : nat -> string -> name_service.GetOutcome)
    (decode : string -> option name_service.nameApiResponse)
    (nr : name_service.NameResolver) (componentName id : string) :
  let '(info, nr') :=
    component_handlers.resolveNameInfo categoryMap client_Get decode nr componentName id in
  (components.getCategory categoryMap componentName = "Serverless" ->
   info = name_service.NameInfo_echo id /\ nr' = nr)
  /\ (name_service.isNumeric id = false ->
      info = name_service.NameInfo_echo id /\ nr' = nr)
  /\ (nr' = nr
      \/ name_service.requests nr' = name_service.name_url id :: name_service.requests nr)
  /\ (name_service.cache nr' !! id = None -> info = name_service.NameInfo_echo id).
Proof.
  unfold component_handlers.resolveNameInfo.
  destruct (String.eqb_spec (components.getCategory categoryMap componentName) "Serverless")
    as [Hcat | Hcat].
  { repeat split; auto. }
  unfold name_service.Resolve.
  destruct (String.eqb_spec id "") as [-> | Hid].
  { repeat split; auto; try discriminate; try contradiction. }
  destruct (name_service.isNumeric id) eqn:Hnum; cbn [negb].
  2:{ repeat split; auto; try discriminate; try contradiction. }
  destruct (name_service.cache nr !! id) as [cached|] eqn:Hcache.
  { repeat split; auto; try discriminate; try contradiction.
    intros Hnone. rewrite Hcache in Hnone. discriminate Hnone. }
  destruct (client_Get _ _) as [| code body].
  { repeat split; auto; try discriminate; try contradiction. }
  destruct (Z.eqb code 200); cbn [negb].
  2:{ repeat split; auto; try discriminate; try contradiction. }
  destruct body as [bytes|].
  2:{ repeat split; auto; try discriminate; try contradiction. }
  destruct (decode bytes) as [apiResp|].
  2:{ repeat split; auto; try discriminate; try contradiction. }
  destruct (name_service.Success apiResp); cbn [negb].
  2:{ repeat split; auto; try discriminate; try contradiction. }
  repeat split; auto; try discriminate; try contradiction.
  cbn [name_service.cache]. intros Hnone. rewrite lookup_insert_eq in Hnone. discriminate Hnone.
Qed.

(** ** [LIKE] with a pattern between two [%] *)

Section LikeFacts.
Import GoStrings Sqlite.

(** No byte of the text is a wildcard of [LIKE]. *)
Local Abbreviation plain text :=
  (List.forallb (fun c => negb (Ascii.eqb c "%") && negb (Ascii.eqb c "_"))
     (list_ascii_of_string text) = true).

Lemma like_percent (pattern s : string) :
  like (String "%" pattern) s
  = like pattern s
    || match s with
       | EmptyString => false
       | String _ s' => like (String "%" pattern) s'
       end.
Proof. destruct s; reflexivity. Qed.

Lemma like_any (s : string) : like "%" s = true.
Proof.
  induction s as [|c s IH]; [reflexivity |].
  rewrite like_percent, IH. apply orb_true_r.
Qed.

Lemma like_prefix (lit s : string) :
  plain lit -> like (lit ++ "%") s = HasPrefix (ToLower s) (ToLower lit).
Proof.
  revert s. induction lit as [|p lit IH]; intros s Hplain.
  - change ("" ++ "%") with "%". rewrite like_any. destruct (ToLower s); reflexivity.
  - cbn [list_ascii_of_string List.forallb] in Hplain.
    apply andb_true_iff in Hplain as [Hp Hplain].
    apply andb_true_iff in Hp as [Hpercent Hunder].
    apply negb_true_iff in Hpercent, Hunder.
    rewrite append_String. cbn [like]. rewrite Hpercent.
    destruct s as [|c s]; [reflexivity |].
    rewrite Hunder. cbn [orb ToLower HasPrefix]. rewrite (IH s Hplain).
    unfold like_byte_eq. destruct (Ascii.eqb (lower_byte p) (lower_byte c)); reflexivity.
Qed.

Lemma like_contains (lit s : string) :
  plain lit -> like ("%" ++ lit ++ "%") s = Contains (ToLower s) (ToLower lit).
Proof.
  intros Hplain. change ("%" ++ lit ++ "%") with (String "%" (lit ++ "%")).
  induction s as [|c s IH].
  - rewrite like_percent, (like_prefix lit "" Hplain). cbn [ToLower Contains].
    reflexivity.
  - rewrite like_percent, (like_prefix lit (String c s) Hplain), IH.
    cbn [ToLower Contains]. reflexivity.
Qed.

Lemma append_assoc (a b c : string) : (a ++ b) ++ c = a ++ b ++ c.
Proof.
  induction a as [|x a IH]; [reflexivity |].
  rewrite !append_String, IH. reflexivity.
Qed.

Lemma plain_app (a b : string) : plain a -> plain b -> plain (a ++ b).
Proof.
  intros Ha Hb. induction a as [|c a IH]; [exact Hb |].
  rewrite append_String. cbn [list_ascii_of_string List.forallb] in Ha |- *.
  apply andb_true_iff in Ha as [Hc Ha]. rewrite Hc. apply IH. exact Ha.
Qed.

End LikeFacts.

(** X21: The component filters are substring tests that do not regard
    the case of ASCII letters, for a name without [%] and [_].  The
    dashboard keeps the issues whose [components] column contains the
    name anywhere; the component statistics keep those whose column
    contains the name between double quotes, that is as a whole element
    of the array, and every issue for [old-rules] and [Serverless]. *)
Theorem component_filters_are_substring_tests (name : string) (i : models.Issue) :
  List.forallb (fun c => negb (Ascii.eqb c "%") && negb (Ascii.eqb c "_"))
    (list_ascii_of_string name) = true ->
  let column := GoStrings.ToLower (data_updater.Components i) in
  dashboard.filterCondition (dashboard.mkFilters name "" "" "") i
  = GoStrings.Contains column (GoStrings.ToLower name)
  /\ Sqlite.like (components.componentFilter name) (data_updater.Components i)
     = if String.eqb name "old-rules" || String.eqb name "Serverless" then true
       else GoStrings.Contains column
              (GoStrings.ToLower (models.dquote ++ name ++ models.dquote)).
Proof.
  intros Hplain column. subst column. split.
  - unfold dashboard.filterCondition, dashboard.unless_empty.
    cbn [dashboard.component dashboard.tenant_id dashboard.signature dashboard.cluster_id
         String.eqb].
    rewrite !andb_true_r.
    destruct (String.eqb_spec name "") as [-> | _].
    + destruct (GoStrings.ToLower (data_updater.Components i)); reflexivity.
    + apply like_contains. exact Hplain.
  - unfold components.componentFilter.
    destruct (String.eqb name "old-rules"); [apply like_any |].
    destruct (String.eqb name "Serverless"); [apply like_any |].
    cbn [orb].
    rewrite <- (like_contains (models.dquote ++ name ++ models.dquote)).
    + rewrite !append_assoc. reflexivity.
    + apply (plain_app models.dquote); [reflexivity |].
      apply plain_app; [exact Hplain | reflexivity].
Qed.

Lemma component_filters_are_substring_tests_witness :
  let i :=
    Samples.alert_row "O11Y-1" "alert: disk" "2025-01-15 10:30:45 UTC"
      ("[" ++ models.dquote ++ "TiDB" ++ models.dquote ++ "]") "dedicated" "yes" in
  dashboard.filterCondition (dashboard.mkFilters "ti" "" "" "") i = true
  /\ Sqlite.like (components.componentFilter "ti") (data_updater.Components i) = false
  /\ Sqlite.like (components.componentFilter "tidb") (data_updater.Components i) = true.
Proof.
  intros i.
  destruct (component_filters_are_substring_tests "ti" i eq_refl) as [Hdash Hcomp].
  destruct (component_filters_are_substring_tests "tidb" i eq_refl) as [_ Hcomp'].
  rewrite Hdash, Hcomp, Hcomp'. repeat split; reflexivity.
Defined.

(** ** The environment filter, as a test of text *)

Section MarkerFacts.
Import GoStrings Sqlite SqlText.

Local Abbreviation no_wildcard text :=
  (List.forallb (fun c => negb (Ascii.eqb c "%") && negb (Ascii.eqb c "_"))
     (list_ascii_of_string text) = true).











End MarkerFacts.




(** ** The raw alert data of a ticket *)

Section RawDataFacts.
Import GoLib data_updater.
Context {RT : GoLib.Runtime}.

Lemma add_label_elem (prefix value : string) (uniqueLabels : gset string) (l : string) :
  l ∈ add_label prefix value uniqueLabels
  <-> (value <> "" /\ l = prefix ++ value) \/ l ∈ uniqueLabels.
Proof.
  unfold add_label. destruct (String.eqb_spec value "") as [-> | Hvalue].
  - split; [auto | intros [[H _] | H]; [contradiction | exact H]].
  - rewrite elem_of_union, elem_of_singleton. tauto.
Qed.

End RawDataFacts.

(** X22: A ticket without raw alert data, or whose raw alert data is
    not JSON, is stored with the cluster id and the business type that
    its description gives and with no stability governance, visibility,
    component, source component and alert group; so it falls under the
    rows of [old-rules] unless its business type contains [nextgen]. *)
Theorem ticket_without_raw_data_is_legacy {RT : GoLib.Runtime}
    (client_Get : nat -> string -> name_service.GetOutcome)
    (decode : string -> option name_service.nameApiResponse)
    (nr : name_service.NameResolver) (issue : jira_client.JiraIssue) :
  match jira_client.RawAlertData issue with
  | None => True
  | Some rawData =>
      GoLib.json_Unmarshal
        (match rawData with
         | GoLib.JString v => v
         | _ => GoLib.json_Marshal rawData
         end) = None
  end ->
  let row := fst (data_updater.extractIssueData client_Get decode nr issue) in
  let description := jira_client.Description issue in
  data_updater.ClusterID row = fst (data_updater.extractIDsFromDescription description)
  /\ data_updater.BizType row = data_updater.extractBizTypeFromDescription description
  /\ data_updater.StabilityGovernance row = ""
  /\ data_updater.Visibility row = ""
  /\ data_updater.ComponentName row = ""
  /\ data_updater.SourceComponent row = ""
  /\ data_updater.AlertGroup row = ""
  /\ api.old_rules row = negb (Sqlite.like "%nextgen%" (data_updater.BizType row)).
Proof.
  intros Hraw row description. subst row description.
  unfold data_updater.extractIssueData, api.old_rules.
  cbn [fst data_updater.ClusterID data_updater.BizType data_updater.StabilityGovernance
       data_updater.Visibility data_updater.ComponentName data_updater.SourceComponent
       data_updater.AlertGroup].
  destruct (jira_client.RawAlertData issue) as [rawData|].
  - unfold data_updater.extractFromRawAlertData. rewrite Hraw.
    cbn [data_updater.raw_clusterID data_updater.raw_tenantID data_updater.raw_bizType
         data_updater.raw_stabilityGovernance data_updater.raw_visibility
         data_updater.raw_componentName data_updater.raw_sourceComponent
         data_updater.raw_alertGroup String.eqb orb andb].
    repeat split; reflexivity.
  - cbn [data_updater.raw_clusterID data_updater.raw_tenantID data_updater.raw_bizType
         data_updater.raw_stabilityGovernance data_updater.raw_visibility
         data_updater.raw_componentName data_updater.raw_sourceComponent
         data_updater.raw_alertGroup String.eqb orb andb].
    repeat split; reflexivity.
Qed.

Lemma ticket_without_raw_data_is_legacy_witness :
  let row :=
    fst (data_updater.extractIssueData (RT := SampleRuntime.runtime) Samples.unreachable
           Samples.decode_known name_service.GetNameResolver
           (Samples.ticket "O11Y-9" "alert: disk"
              "tidb_cluster_id=1001 o11y_biz_type: dedicated"
              "2025-01-15T10:30:45.000+0000")) in
  data_updater.ClusterID row = "1001"
  /\ data_updater.BizType row = "dedicated"
  /\ api.old_rules row = true.
Proof.
  intros row.
  destruct (ticket_without_raw_data_is_legacy (RT := SampleRuntime.runtime)
              Samples.unreachable Samples.decode_known name_service.GetNameResolver
              (Samples.ticket "O11Y-9" "alert: disk"
                 "tidb_cluster_id=1001 o11y_biz_type: dedicated"
                 "2025-01-15T10:30:45.000+0000") I)
    as [Hcluster [Hbiz [_ [_ [_ [_ [_ Hold]]]]]]].
  fold row in Hcluster, Hbiz, Hold.
  rewrite Hold, Hcluster, Hbiz. repeat split; reflexivity.
Defined.

(** X23: The raw alert data of a ticket, when it is a JSON object with
    an object [labels], gives the five governance fields of the row, and
    takes precedence for the cluster id and the business type, the
    description being the fallback; the cluster id is [tidb_cluster_id]
    and, when that is missing or empty, [cluster_id].  The labels stored
    are the labels of the ticket and one [key:value] label for each of
    the five fields that is not empty, each once, provided that [range]
    visits every key of a map once. *)
Theorem raw_alert_data_fills_the_row {RT : GoLib.Runtime}
    (client_Get : nat -> string -> name_service.GetOutcome)
    (decode : string -> option name_service.nameApiResponse)
    (nr : name_service.NameResolver) (issue : jira_client.JiraIssue)
    (rawData : GoLib.json) (data labels : list (string * GoLib.json)) :
  (forall keys : gset string,
     NoDup (GoLib.map_range keys) /\ forall key, key ∈ GoLib.map_range keys <-> key ∈ keys) ->
  jira_client.RawAlertData issue = Some rawData ->
  GoLib.json_Unmarshal
    (match rawData with
     | GoLib.JString v => v
     | _ => GoLib.json_Marshal rawData
     end) = Some (GoLib.JObject data) ->
  GoLib.lookup_field "labels" data = Some (GoLib.JObject labels) ->
  let row := fst (data_updater.extractIssueData client_Get decode nr issue) in
  let label key := data_updater.label_string key labels in
  let description := jira_client.Description issue in
  let first_of a b := if String.eqb a "" then b else a in
  data_updater.StabilityGovernance row = label "stability_governance"
  /\ data_updater.Visibility row = label "visibility"
  /\ data_updater.ComponentName row = label "component"
  /\ data_updater.SourceComponent row = label "source_component"
  /\ data_updater.AlertGroup row = label "alertgroup"
  /\ data_updater.ClusterID row
     = first_of (first_of (label "tidb_cluster_id") (label "cluster_id"))
         (fst (data_updater.extractIDsFromDescription description))
  /\ data_updater.BizType row
     = first_of (label "o11y_biz_type")
         (data_updater.extractBizTypeFromDescription description)
  /\ exists final : GoLib.slice,
       data_updater.Labels row = GoLib.json_Marshal (GoLib.json_of_slice final)
       /\ NoDup (GoLib.elems final)
       /\ forall l,
            l ∈ GoLib.elems final
            <-> l ∈ GoLib.elems (jira_client.Labels issue)
                \/ (exists key,
                      In key ["stability_governance"; "visibility"; "component";
                              "source_component"; "alertgroup"]
                      /\ label key <> ""
                      /\ l = key ++ ":" ++ label key).
Proof.
  intros Hrange Hraw Hdecode Hlabels row label description first_of.
  subst row label description first_of.
  unfold data_updater.extractIssueData. rewrite Hraw.
  unfold data_updater.extractFromRawAlertData. rewrite Hdecode, Hlabels.
  cbn [fst data_updater.ClusterID data_updater.BizType data_updater.StabilityGovernance
       data_updater.Visibility data_updater.ComponentName data_updater.SourceComponent
       data_updater.AlertGroup data_updater.Labels
       data_updater.raw_clusterID data_updater.raw_tenantID data_updater.raw_bizType
       data_updater.raw_stabilityGovernance data_updater.raw_visibility
       data_updater.raw_componentName data_updater.raw_sourceComponent
       data_updater.raw_alertGroup data_updater.raw_dbLabels].
  do 5 (split; [reflexivity |]).
  split.
  { set (c := if String.eqb (data_updater.label_string "tidb_cluster_id" labels) "" then _ else _).
    destruct (String.eqb c ""); rewrite ?andb_false_r, ?andb_true_r; reflexivity. }
  split.
  { set (c := if String.eqb (data_updater.label_string "tidb_cluster_id" labels) "" then _ else _).
    destruct (String.eqb (data_updater.label_string "o11y_biz_type" labels) "");
      rewrite ?andb_false_r, ?andb_true_r, ?orb_true_r; reflexivity. }
  set (uniqueLabels := data_updater.add_label _ _ _).
  destruct (Hrange uniqueLabels) as [Hnodup Hvisit].
  assert (forall l,
            l ∈ uniqueLabels
            <-> l ∈ GoLib.elems (jira_client.Labels issue)
                \/ (exists key,
                      In key ["stability_governance"; "visibility"; "component";
                              "source_component"; "alertgroup"]
                      /\ data_updater.label_string key labels <> ""
                      /\ l = key ++ ":" ++ data_updater.label_string key labels)) as Hunique.
  { intros l. subst uniqueLabels.
    rewrite !add_label_elem, elem_of_list_to_set. split.
    - intros [[Hne ->] | [[Hne ->] | [[Hne ->] | [[Hne ->] | [[Hne ->] | Hold]]]]];
        [right; exists "alertgroup" | right; exists "source_component"
         | right; exists "component" | right; exists "visibility"
         | right; exists "stability_governance" | left; exact Hold];
        (split; [cbn; tauto | split; [exact Hne | reflexivity]]).
    - intros [Hold | [key [Hkey [Hne ->]]]]; [tauto |].
      cbn in Hkey.
      destruct Hkey as [<- | [<- | [<- | [<- | [<- | []]]]]]; tauto. }
  set (final := match GoLib.map_range uniqueLabels with
                | [] => None
                | visited => Some visited
                end : GoLib.slice).
  assert (GoLib.elems final = GoLib.map_range uniqueLabels) as Hfinal.
  { subst final. destruct (GoLib.map_range uniqueLabels); reflexivity. }
  exists final. split; [reflexivity |]. rewrite Hfinal.
  split; [exact Hnodup |].
  intros l. rewrite Hvisit. apply Hunique.
Qed.

Lemma raw_alert_data_fills_the_row_witness :
  let labels :=
    [("cluster_id", GoLib.JString "1001"); ("stability_governance", GoLib.JString "yes")] in
  let RT : GoLib.Runtime :=
    {| GoLib.time_Parse := SampleRuntime.parse;
       GoLib.time_Format := SampleRuntime.format;
       GoLib.json_Marshal := SampleRuntime.marshal;
       GoLib.json_Unmarshal :=
         fun _ => Some (GoLib.JObject [("labels", GoLib.JObject labels)]);
       GoLib.map_range := elements |} in
  let issue :=
    {| jira_client.Key := "O11Y-9";
       jira_client.Summary := "alert: disk";
       jira_client.Description := "o11y_biz_type=dedicated";
       jira_client.Created := "2025-01-15T10:30:45.000+0000";
       jira_client.Priority := Some "High";
       jira_client.Labels := Some ["oncall"];
       jira_client.IssueType := Some (jira_client.mkIssueType "Alert" false);
       jira_client.Component := ["tidb"];
       jira_client.Project := "O11Y";
       jira_client.Status := Some "Created";
       jira_client.RawAlertData := Some (GoLib.JString "payload");
       jira_client.Parent := None |} in
  let row :=
    fst (data_updater.extractIssueData (RT := RT) Samples.unreachable Samples.decode_known
           name_service.GetNameResolver issue) in
  data_updater.StabilityGovernance row = "yes"
  /\ data_updater.ClusterID row = "1001"
  /\ data_updater.BizType row = "dedicated".
Proof.
  intros labels RT issue row.
  assert (forall keys : gset string,
            NoDup (GoLib.map_range (Runtime := RT) keys)
            /\ forall key, key ∈ GoLib.map_range (Runtime := RT) keys <-> key ∈ keys) as Hrange.
  { intros keys. split; [apply NoDup_elements | intros key; apply elem_of_elements]. }
  destruct (raw_alert_data_fills_the_row (RT := RT) Samples.unreachable Samples.decode_known
              name_service.GetNameResolver issue (GoLib.JString "payload")
              [("labels", GoLib.JObject labels)] labels Hrange eq_refl eq_refl eq_refl)
    as [Hgov [_ [_ [_ [_ [Hcluster [Hbiz _]]]]]]].
  fold row in Hgov, Hcluster, Hbiz.
  rewrite Hgov, Hcluster, Hbiz. repeat split; reflexivity.
Defined.

(** ** The list, the totals and the periods *)

Section TotalsFacts.

Lemma count_le (p q : models.Issue -> bool) (rows : list models.Issue) :
  (forall i, p i = true -> q i = true) -> models.count p rows <= models.count q rows.
Proof.
  intros Hpq. unfold models.count.
  induction rows as [|i rows IH]; [reflexivity |].
  cbn [List.filter]. destruct (p i) eqn:Hp.
  - rewrite (Hpq i Hp). cbn [List.length]. lia.
  - destruct (q i); cbn [List.length]; lia.
Qed.

Lemma insert_desc_length (i : models.Issue) (sorted : list models.Issue) :
  List.length (dashboard.insert_desc i sorted) = S (List.length sorted).
Proof.
  induction sorted as [|j rest IH]; [reflexivity |].
  cbn [dashboard.insert_desc]. destruct (Sqlite.text_leb _ _); [reflexivity |].
  cbn [List.length]. rewrite IH. reflexivity.
Qed.

Lemma order_created_desc_length (rows : list models.Issue) :
  List.length (dashboard.order_created_desc rows) = List.length rows.
Proof.
  induction rows as [|i rows IH]; [reflexivity |].
  unfold dashboard.order_created_desc in *. cbn [List.fold_right].
  rewrite insert_desc_length, IH. reflexivity.
Qed.

End TotalsFacts.

(** X24: A false alarm counts as handled.  In every window, for the
    dashboard and for the statistics of a component, the number of false
    alarms is at most the number of handled alerts, which is at most the
    total; all three are counts of rows, 0 or more. *)
Theorem false_alarms_are_handled_alerts
    (categoryMap : gmap string string) (clusterFilter : models.Issue -> bool)
    (rows : list models.Issue) (name envStr categoryStr : string)
    (f : dashboard.Filters) (start end_ : string) :
  let all := fun _ : models.Issue => true in
  let dash := dashboard.counted rows envStr f start end_ in
  let comp := components.counted categoryMap clusterFilter rows name envStr categoryStr
                start end_ in
  (0 <= dash dashboard.is_fake <= dash dashboard.is_handled
   /\ dash dashboard.is_handled <= dash all)
  /\ (0 <= comp components.is_fake <= comp components.is_handled
      /\ comp components.is_handled <= comp all).
Proof.
  intros all dash comp. subst all dash comp.
  unfold dashboard.counted, components.counted.
  assert (forall i, dashboard.is_fake i = true -> dashboard.is_handled i = true) as Hfake.
  { intros i. unfold dashboard.is_fake, dashboard.is_handled.
    intros H. apply String.eqb_eq in H. rewrite H. reflexivity. }
  repeat split; try apply count_nonneg; apply count_le; intros i H;
    apply andb_true_iff in H as [Hw Hx]; rewrite Hw; cbn [andb];
    first [ reflexivity | apply Hfake; exact Hx ].
Qed.

(** X25: The list and the total agree when nothing is muted.  Without
    muted issues, a component filter, a category, a metric type and
    priorities, and with plain values of the other filters, the first
    page of the issue list has as many rows as the total of the dashboard
    for the same environment, filters and days, provided that the page
    size is not below that total. *)
Theorem unmuted_list_agrees_with_the_total {RT : GoLib.Runtime}
    (categoryMap : gmap string string) (store : models.Store) (now : GoLib.Time)
    (days : Z) (envStr : string) (f : dashboard.Filters) (page pageSize : Z) :
  SqlText.plain_filters f = true ->
  models.muted_issues store = [] ->
  dashboard.component f = "" ->
  page <= 1 ->
  let total :=
    models.count
      (dashboard.where_dashboard envStr f
         (GoLib.time_Format (GoLib.AddDays now (- api.days_or_default days))
            "2006-01-02 15:04:05")
         (GoLib.time_Format now "2006-01-02 15:04:05"))
      (models.issues store) in
  total <= pageSize ->
  Z.of_nat
    (List.length
       (dashboard.GetDashboardIssues categoryMap store now days envStr f
          (dashboard.mkListFilters "" "" []) page pageSize))
  = total
  /\ dashboard.Current
       (dashboard.TotalAlerts (dashboard.GetDashboardData store now days envStr f))
     = GoNum.float64_of_int total.
Proof.
  intros _ Hmuted Hcomponent Hpage total Hsize. split.
  - unfold dashboard.GetDashboardIssues. rewrite Hmuted.
    assert ((if Z.ltb page 1 then 1 else page) = 1) as ->.
    { destruct (Z.ltb_spec page 1); lia. }
    change (Z.to_nat ((1 - 1) * _)) with 0%nat. rewrite List.skipn_O.
    rewrite List.length_firstn, order_created_desc_length.
    assert (List.filter
              (fun i =>
                 dashboard.not_muted [] i
                 && dashboard.where_issues categoryMap envStr f
                      (dashboard.mkListFilters "" "" [])
                      (GoLib.time_Format (GoLib.AddDays now (- api.days_or_default days))
                         "2006-01-02 15:04:05")
                      (GoLib.time_Format now "2006-01-02 15:04:05") i)
              (models.issues store)
            = List.filter
                (dashboard.where_dashboard envStr f
                   (GoLib.time_Format (GoLib.AddDays now (- api.days_or_default days))
                      "2006-01-02 15:04:05")
                   (GoLib.time_Format now "2006-01-02 15:04:05"))
                (models.issues store)) as ->.
    { apply List.filter_ext. intros i.
      unfold dashboard.not_muted, dashboard.where_issues, dashboard.where_dashboard,
        dashboard.filterCondition, dashboard.componentCondition, dashboard.category_of,
        dashboard.tierCondition, dashboard.metricCondition, dashboard.priorityCondition.
      rewrite Hcomponent.
      cbn [List.existsb negb andb dashboard.metric_type dashboard.category
           dashboard.priorities String.eqb Ascii.eqb Bool.eqb dashboard.unless_empty].
      unfold dashboard.unless_empty. cbn [String.eqb].
      rewrite !andb_true_r, <- ?andb_assoc. reflexivity. }
    fold (models.count
            (dashboard.where_dashboard envStr f
               (GoLib.time_Format (GoLib.AddDays now (- api.days_or_default days))
                  "2006-01-02 15:04:05")
               (GoLib.time_Format now "2006-01-02 15:04:05"))
            (models.issues store)) in total.
    unfold models.count in total |- *. subst total.
    destruct (Z.ltb_spec pageSize 1); lia.
  - unfold dashboard.GetDashboardData, dashboard.periods, dashboard.fetchStats.
    cbn [dashboard.TotalAlerts]. unfold dashboard.count_stat.
    destruct (dashboard.calculateChange _ _) as [change trend].
    cbn [dashboard.Current]. rewrite count_filter. reflexivity.
Qed.

Lemma unmuted_list_agrees_with_the_total_witness :
  let rows :=
    [Samples.alert_row "O11Y-1" "[PROD] alert: disk" "2025-01-15 10:30:45 UTC" "[]" "dedicated" "yes";
     Samples.alert_row "O11Y-2" "[STG] alert: cpu" "2025-01-10 08:00:00 UTC" "[]" "dedicated" "yes"] in
  let store := models.mkStore rows [] in
  let now := SampleRuntime.midnight 2025 2 1 in
  Z.of_nat
    (List.length
       (dashboard.GetDashboardIssues (RT := SampleRuntime.runtime) ∅ store now 30 "all"
          Samples.no_filters (dashboard.mkListFilters "" "" []) 1 50))
  = 2
  /\ dashboard.Current
       (dashboard.TotalAlerts
          (dashboard.GetDashboardData (RT := SampleRuntime.runtime) store now 30 "all"
             Samples.no_filters))
     = GoNum.float64_of_int 2.
Proof.
  intros rows store now.
  exact (unmuted_list_agrees_with_the_total (RT := SampleRuntime.runtime) ∅ store now 30
           "all" Samples.no_filters 1 50 eq_refl eq_refl eq_refl ltac:(lia)
           ltac:(vm_compute; discriminate)).
Defined.

(** X26: The two periods of the dashboard share their boundary.  With
    plain filter values, an alert whose stamp of creation is exactly the
    start of the current period is counted in the current and in the
    previous period, as soon as the stamps of the three dates are in
    order. *)
Theorem boundary_alert_is_counted_in_both_periods {RT : GoLib.Runtime}
    (now : GoLib.Time) (days : Z) (envStr : string) (f : dashboard.Filters)
    (i : models.Issue) :
  let d := if Z.leb days 0 then 30 else days in
  let startDate := GoLib.time_Format (GoLib.AddDays now (- d)) "2006-01-02 15:04:05" in
  let endDate := GoLib.time_Format now "2006-01-02 15:04:05" in
  let prevStartDate :=
    GoLib.time_Format (GoLib.AddDays now (- d * 2)) "2006-01-02 15:04:05" in
  SqlText.plain_filters f = true ->
  Sqlite.REPLACE (data_updater.Created i) " UTC" "" = startDate ->
  Sqlite.text_leb prevStartDate startDate = true ->
  Sqlite.text_leb startDate endDate = true ->
  data_updater.IsAlert i = true ->
  dashboard.envCondition envStr i = true ->
  dashboard.filterCondition f i = true ->
  let resp := dashboard.GetDashboardData (models.mkStore [i] []) now days envStr f in
  dashboard.Current (dashboard.TotalAlerts resp) = GoNum.float64_of_int 1
  /\ dashboard.Previous (dashboard.TotalAlerts resp) = GoNum.float64_of_int 1.
Proof.
  intros d startDate endDate prevStartDate _ Hstamp Hprev Hcurr Halert Henv Hfilter.
  subst d startDate endDate prevStartDate.
  unfold dashboard.GetDashboardData, dashboard.periods, api.days_or_default.
  cbn [models.issues dashboard.TotalAlerts]. unfold dashboard.fetchStats, dashboard.count_stat.
  destruct (dashboard.calculateChange _ _) as [change trend].
  cbn [dashboard.Current dashboard.Previous]. rewrite !count_filter.
  unfold models.count. cbn [List.filter].
  unfold dashboard.where_dashboard, api.created_between, Sqlite.between.
  rewrite Halert, Henv, Hfilter, Hstamp, Hprev, Hcurr, text_leb_refl.
  split; reflexivity.
Qed.

Lemma boundary_alert_is_counted_in_both_periods_witness :
  let i :=
    Samples.alert_row "O11Y-1" "alert: disk" "2025-01-02 00:00:00 UTC" "[]" "dedicated" "yes" in
  let resp :=
    dashboard.GetDashboardData (RT := SampleRuntime.runtime) (models.mkStore [i] [])
      (SampleRuntime.midnight 2025 2 1) 30 "all" Samples.no_filters in
  dashboard.Current (dashboard.TotalAlerts resp) = GoNum.float64_of_int 1
  /\ dashboard.Previous (dashboard.TotalAlerts resp) = GoNum.float64_of_int 1.
Proof.
  intros i resp.
  exact (boundary_alert_is_counted_in_both_periods (RT := SampleRuntime.runtime)
           (SampleRuntime.midnight 2025 2 1) 30 "all" Samples.no_filters i
           eq_refl eq_refl eq_refl eq_refl eq_refl eq_refl eq_refl).
Defined.

(** ** The components of the alerts, when there are no statistics *)

Section FallbackFacts.
Import component_handlers.
Context {RT : GoLib.Runtime}.

(** The names seen are the names listed. *)
Local Abbreviation in_step acc :=
  (forall x : string, x ∈ fst acc <-> In x (snd acc)).

Lemma add_unseen_spec (acc : gset string * list string) (comp : string) :
  in_step acc ->
  in_step (add_unseen acc comp)
  /\ forall x, In x (snd (add_unseen acc comp))
               <-> In x (snd acc) \/ (x = comp /\ comp <> "").
Proof.
  destruct acc as [seen names]. cbn [fst snd]. intros Hseen. unfold add_unseen.
  destruct (String.eqb_spec comp "") as [-> | Hcomp]; cbn [negb andb fst snd].
  { split; [exact Hseen |]. intros x. split; [auto | intros [H | [_ H]]; [exact H | contradiction]]. }
  destruct (bool_decide (comp ∈ seen)) eqn:Hin; cbn [negb fst snd].
  - apply bool_decide_eq_true in Hin. apply Hseen in Hin.
    split; [exact Hseen |]. intros x. split; [auto |].
    intros [H | [-> _]]; assumption.
  - split.
    + intros x. rewrite elem_of_union, elem_of_singleton, List.in_app_iff, Hseen.
      cbn [In]. split; [intros [-> | H]; auto | intros [H | [-> | []]]; auto].
    + intros x. rewrite List.in_app_iff. cbn [In].
      split; [intros [H | [-> | []]]; auto | intros [H | [-> _]]; auto].
Qed.

Lemma add_unseen_fold (comps : list string) :
  forall acc : gset string * list string,
    in_step acc ->
    in_step (List.fold_left add_unseen comps acc)
    /\ forall x, In x (snd (List.fold_left add_unseen comps acc))
                 <-> In x (snd acc) \/ (In x comps /\ x <> "").
Proof.
  induction comps as [|comp comps IH]; intros acc Hacc.
  - cbn [List.fold_left]. split; [exact Hacc |].
    intros x. split; [auto | intros [H | [[] _]]; exact H].
  - cbn [List.fold_left].
    destruct (add_unseen_spec acc comp Hacc) as [Hstep Hone].
    destruct (IH (add_unseen acc comp) Hstep) as [Hfold Hall].
    split; [exact Hfold |].
    intros x. rewrite Hall, Hone. cbn [In]. split.
    + intros [[H | [-> Hne]] | [H Hne]]; auto.
    + intros [H | [[<- | H] Hne]]; auto.
Qed.

Lemma scan_components_spec (acc : gset string * list string) (rawJSON : string) :
  in_step acc ->
  in_step (scan_components acc rawJSON)
  /\ (forall x, In x (snd acc) -> In x (snd (scan_components acc rawJSON)))
  /\ forall v comps x,
       rawJSON <> "" -> rawJSON <> "[]" ->
       GoLib.json_Unmarshal rawJSON = Some v ->
       strings_of_json v = Some comps ->
       In x comps -> x <> "" ->
       In x (snd (scan_components acc rawJSON)).
Proof.
  intros Hacc. unfold scan_components.
  destruct (String.eqb_spec rawJSON "") as [-> | Hempty]; cbn [orb].
  { split; [exact Hacc |]. split; [auto |]. intros v comps x H. contradiction. }
  destruct (String.eqb_spec rawJSON "[]") as [-> | Hnone].
  { split; [exact Hacc |]. split; [auto |]. intros v comps x _ H. contradiction. }
  destruct (match GoLib.json_Unmarshal rawJSON with
            | Some v => strings_of_json v
            | None => None
            end) as [comps|] eqn:Hdecode.
  - destruct (add_unseen_fold comps acc Hacc) as [Hstep Hall].
    split; [exact Hstep |]. split; [intros x Hx; apply Hall; auto |].
    intros v comps' x _ _ Hv Hcomps Hx Hne.
    rewrite Hv, Hcomps in Hdecode. injection Hdecode as <-.
    apply Hall. auto.
  - match goal with
    | |- context [List.fold_left add_unseen ?parts acc] =>
        destruct (add_unseen_fold parts acc Hacc) as [Hstep Hall]
    end.
    split; [exact Hstep |]. split; [intros x Hx; apply Hall; auto |].
    intros v comps x _ _ Hv Hcomps. rewrite Hv, Hcomps in Hdecode. discriminate Hdecode.
Qed.

Lemma scan_all_spec (rawComponents : list string) :
  forall acc : gset string * list string,
    in_step acc ->
    (forall x, In x (snd acc) -> In x (snd (List.fold_left scan_components rawComponents acc)))
    /\ forall rawJSON v comps x,
         In rawJSON rawComponents ->
         rawJSON <> "" -> rawJSON <> "[]" ->
         GoLib.json_Unmarshal rawJSON = Some v ->
         strings_of_json v = Some comps ->
         In x comps -> x <> "" ->
         In x (snd (List.fold_left scan_components rawComponents acc)).
Proof.
  induction rawComponents as [|raw rest IH]; intros acc Hacc.
  - cbn [List.fold_left]. split; [auto |]. intros rawJSON v comps x [].
  - cbn [List.fold_left].
    destruct (scan_components_spec acc raw Hacc) as [Hstep [Hkeep Hadd]].
    destruct (IH (scan_components acc raw) Hstep) as [Hkeep' Hadd'].
    split; [intros x Hx; apply Hkeep', Hkeep, Hx |].
    intros rawJSON v comps x [<- | Hin] Hempty Hnone Hv Hcomps Hx Hne.
    + apply Hkeep'. eapply Hadd; eassumption.
    + eapply Hadd'; eassumption.
Qed.

End FallbackFacts.

(** X27: Without rows of statistics, the components are those of the
    alerts.  A configured component is listed as soon as its name stands
    in the [components] column, a JSON array of strings, of one of the
    5000 newest alerts. *)
Theorem components_of_the_alerts_are_listed {RT : GoLib.Runtime}
    (categoryMap : gmap string string) (issues : list models.Issue)
    (i : models.Issue) (v : GoLib.json) (comps : list string) (name : string) :
  In i (firstn 5000 (dashboard.order_created_desc (List.filter data_updater.IsAlert issues))) ->
  data_updater.Components i <> "" ->
  data_updater.Components i <> "[]" ->
  GoLib.json_Unmarshal (data_updater.Components i) = Some v ->
  component_handlers.strings_of_json v = Some comps ->
  In name comps ->
  name <> "" ->
  components.getCategory categoryMap name <> "Other" ->
  In (component_handlers.mkComponent name name
        (components.getCategory categoryMap name) "Healthy")
     (component_handlers.GetComponents categoryMap [] issues).
Proof.
  intros Hi Hempty Hnone Hv Hcomps Hname Hne Hcat.
  assert (In name (component_handlers.component_names [] issues)) as Hnames.
  { unfold component_handlers.component_names. cbn [map component_handlers.distinct].
    set (rawComponents := map data_updater.Components _).
    assert (In name (snd (List.fold_left component_handlers.scan_components rawComponents
                            (∅, [])))) as Hin.
    { destruct (scan_all_spec rawComponents (∅, [])) as [_ Hadd].
      - intros x. cbn [fst snd In]. set_solver.
      - apply (Hadd (data_updater.Components i) v comps name); try assumption.
        subst rawComponents. apply List.in_map. exact Hi. }
    destruct (List.existsb _ _); [exact Hin |].
    apply List.in_or_app. left. exact Hin. }
  assert (In (component_handlers.mkComponent name name
                (components.getCategory categoryMap name) "Healthy")
             (component_handlers.respond categoryMap ∅
                (component_handlers.component_names [] issues))) as Hlisted.
  { apply respond_complete; try assumption. set_solver. }
  unfold component_handlers.GetComponents.
  destruct (Z.ltb 0 _); [apply List.in_or_app; left |]; exact Hlisted.
Qed.

Lemma components_of_the_alerts_are_listed_witness :
  let RT : GoLib.Runtime :=
    {| GoLib.time_Parse := SampleRuntime.parse;
       GoLib.time_Format := SampleRuntime.format;
       GoLib.json_Marshal := SampleRuntime.marshal;
       GoLib.json_Unmarshal :=
         fun _ => Some (GoLib.JArray [GoLib.JString "tidb"; GoLib.JString "etcd"]);
       GoLib.map_range := elements |} in
  let i :=
    Samples.alert_row "O11Y-1" "alert: disk" "2025-01-15 10:30:45 UTC" "[tidb,etcd]"
      "dedicated" "yes" in
  In (component_handlers.mkComponent "tidb" "tidb" "Database" "Healthy")
     (component_handlers.GetComponents (RT := RT) {[ "tidb" := "Database" ]} [] [i]).
Proof.
  intros RT i.
  exact (components_of_the_alerts_are_listed (RT := RT) {[ "tidb" := "Database" ]} [i] i
           (GoLib.JArray [GoLib.JString "tidb"; GoLib.JString "etcd"]) ["tidb"; "etcd"] "tidb"
           ltac:(left; reflexivity) ltac:(discriminate) ltac:(discriminate)
           eq_refl eq_refl ltac:(left; reflexivity) ltac:(discriminate)
           ltac:(vm_compute; discriminate)).
Defined.
